(** * The product migration / export pipeline

    A shallow embedding of the two batch scripts of the repository:

    - the document-store migration ([migrate], module [Migrate]), which moves
      the SQLite product rows into a MongoDB collection with embeddings;
    - the file export ([exportToJson], module [ExportToJson]), which writes the same
      enriched records to one JSON file.

    Both scripts carry the same text for [retryWithBackoff],
    [generateEmbeddingText] and the row transformer; those are embedded once.

    Everything outside the scripts is an explicit collaborator: the JavaScript
    runtime ([JSRuntime]: numbers, their printing, [JSON.parse]), the embedding
    provider ([EmbeddingsModel]), the MongoDB server ([MongoServer]), SQLite
    and the file system (fields of [World]).  Effects are threaded through a
    state / trace / exception monad [M]. *)

From Stdlib Require Import List String Ascii ZArith Bool Arith Lia DecimalString.
Import ListNotations.

Set Implicit Arguments.
Set Default Proof Using "Type".

Open Scope string_scope.
Open Scope list_scope.

Infix "+++" := String.append (right associativity, at level 60).

(** ** JavaScript strings

    A string is a sequence of code units; the model covers the 7-bit range,
    one [ascii] per code unit. *)

Module JS.

(** The 7-bit part of ECMAScript's WhiteSpace and LineTerminator, the
    characters [String.prototype.trim] removes. *)
Definition isWhiteSpace (c : ascii) : bool :=
  let n := nat_of_ascii c in
  ((n =? 9) || (n =? 10) || (n =? 11) || (n =? 12) || (n =? 13) || (n =? 32))%nat.

Definition isEmpty (s : string) : bool :=
  match s with EmptyString => true | String _ _ => false end.

Fixpoint trimStart (s : string) : string :=
  match s with
  | EmptyString => EmptyString
  | String c r => if isWhiteSpace c then trimStart r else s
  end.

Fixpoint trimEnd (s : string) : string :=
  match s with
  | EmptyString => EmptyString
  | String c r =>
      let r' := trimEnd r in
      if isWhiteSpace c && isEmpty r' then EmptyString else String c r'
  end.

(** [s.trim()] *)
Definition trim (s : string) : string := trimEnd (trimStart s).

(** [s.split(sep)] for a one-character separator; the result is never
    empty: splitting the empty string gives the one-element list holding
    the empty string. *)
Fixpoint split (sep : ascii) (s : string) : list string :=
  match s with
  | EmptyString => [EmptyString]
  | String c r =>
      if Ascii.eqb c sep then EmptyString :: split sep r
      else match split sep r with
           | [] => [String c EmptyString]
           | h :: t => String c h :: t
           end
  end.

(** First and last code unit tests used to state what [trim] achieves. *)
Definition startsWithWhiteSpace (s : string) : bool :=
  match s with EmptyString => false | String c _ => isWhiteSpace c end.

Fixpoint endsWithWhiteSpace (s : string) : bool :=
  match s with
  | EmptyString => false
  | String c EmptyString => isWhiteSpace c
  | String _ r => endsWithWhiteSpace r
  end.

(** Two adjacent white space code units somewhere in the string. *)
Fixpoint hasDoubledWhiteSpace (s : string) : bool :=
  match s with
  | EmptyString => false
  | String c r => (isWhiteSpace c && startsWithWhiteSpace r) || hasDoubledWhiteSpace r
  end.

(** [s] between two double quote characters, as a string literal is written
    in JSON text. *)
Definition quoted (s : string) : string :=
  String (ascii_of_nat 34) (s +++ String (ascii_of_nat 34) EmptyString).

End JS.

(** ** JavaScript values and errors *)

(** The values [JSON.parse] can return. *)
#[local] Unset Elimination Schemes.
Inductive JSValue (number : Type) : Type :=
| JNull
| JBool (b : bool)
| JNumber (n : number)
| JString (s : string)
| JArray (elems : list (JSValue number))
| JObject (members : list (string * JSValue number)).
#[local] Set Elimination Schemes.

Arguments JNull {number}.
Arguments JBool {number} b.
Arguments JString {number} s.

(** The part of the JavaScript runtime the scripts rely on and do not define:
    the number type, how a number prints inside a template literal, and
    [JSON.parse] ([None] when it throws a SyntaxError). *)
Class JSRuntime : Type := {
  number : Type;
  Number_toString : number -> string;
  JSON_parse : string -> option (JSValue number)
}.

(** A thrown value, with the two ad hoc fields the scripts inspect. *)
Record JSError : Type := {
  status : option Z;
  code : option Z;
  message : string
}.

(** [new Error(msg)] *)
Definition Error (msg : string) : JSError :=
  {| status := None; code := None; message := msg |}.

(** [x === k] for an optional numeric field and a literal. *)
Definition strictEq (x : option Z) (k : Z) : bool :=
  match x with Some v => Z.eqb v k | None => false end.

Section Values.
Context `{JSRuntime}.

(** [String(v)] on a parsed JSON value; [None] when the conversion throws a
    TypeError.  A parsed object has no method of its own: a member named
    toString hides [Object.prototype.toString] behind a value that cannot be
    called, [valueOf] gives back the object, and the conversion throws.
    Without such a member the object prints as [[object Object]].  An array
    prints as its elements joined with a comma, [null] among them as the
    empty string. *)
Fixpoint JS_String (v : JSValue number) : option string :=
  match v with
  | JNull => Some "null"
  | JBool true => Some "true"
  | JBool false => Some "false"
  | JNumber n => Some (Number_toString n)
  | JString s => Some s
  | JArray elems =>
      option_map (String.concat ",")
        ((fix each (l : list (JSValue number)) : option (list string) :=
            match l with
            | [] => Some []
            | e :: l' =>
                match (match e with JNull => Some EmptyString | _ => JS_String e end),
                      each l' with
                | Some s, Some ss => Some (s :: ss)
                | _, _ => None
                end
            end) elems)
  | JObject members =>
      if existsb (fun m => String.eqb (fst m) "toString") members then None
      else Some "[object Object]"
  end.

(** [arr.join(sep)] where the conversion of every element returns.  Where the
    conversion of an element throws the call throws with it; the text then
    stands in for a value the caller never receives, with the element printed
    as a plain object. *)
Definition Array_join (sep : string) (arr : list (JSValue number)) : string :=
  String.concat sep
    (map (fun e =>
            match e with
            | JNull => EmptyString
            | _ => match JS_String e with Some s => s | None => "[object Object]" end
            end) arr).

End Values.

(** ** Data model *)

(** A row of the [products] table.  The three columns the scripts guard with
    [||] or [if] can hold SQL NULL. *)
Module SQLiteProduct.
Record t `{JSRuntime} : Type := {
  sku : string;
  handle : string;
  title : string;
  description : option string;
  vendor : string;
  price : number;
  currency : string;
  image_url : string;
  product_url : string;
  tags : option string;
  search_content : option string
}.
End SQLiteProduct.

(** The document built for the destination.  [tags] is declared [string[]]
    in the source but holds whatever [JSON.parse] returned. *)
Module MongoProduct.
Record t `{JSRuntime} : Type := {
  sku : string;
  handle : string;
  title : string;
  description : string;
  vendor : string;
  price : number;
  currency : string;
  image_url : string;
  product_url : string;
  tags : list (JSValue number);
  search_content : string;
  embedding_text : string;
  embedding : option (list number)
}.

(** [{ ...product, embedding }] *)
Definition withEmbedding `{JSRuntime} (product : t) (e : list number) : t :=
  {| sku := sku product; handle := handle product; title := title product;
     description := description product; vendor := vendor product;
     price := price product; currency := currency product;
     image_url := image_url product; product_url := product_url product;
     tags := tags product; search_content := search_content product;
     embedding_text := embedding_text product; embedding := Some e |}.

Definition hasEmbedding `{JSRuntime} (product : t) : bool :=
  match embedding product with Some _ => true | None => false end.
End MongoProduct.

(** ** Collaborators *)

(** The embedding provider behind [GoogleGenerativeAIEmbeddings.embedQuery]:
    any state, any answers. *)
Class EmbeddingsModel `{JSRuntime} : Type := {
  provider : Type;
  embedQuery : string -> provider -> provider * (JSError + list number)
}.

(** The MongoDB deployment: the documents of [inventory_database.items], the
    names of its search indexes, whether a unique index on [sku] exists, and
    a script of injected faults.  Every driver call consumes one entry of the
    script; [Some e] makes that call reject with [e]. *)
Record MongoServer `{JSRuntime} : Type := {
  documents : list MongoProduct.t;
  searchIndexes : list string;
  uniqueSku : bool;
  faults : list (option JSError)
}.

Inductive MongoCall `{JSRuntime} : Type :=
| Connect
| Ping
| ListSearchIndexes
| CreateSearchIndex (name : string)
| DeleteMany
| InsertOne (doc : MongoProduct.t)
| CountDocuments
| FindOne
| Close.

(** The SQLite file: it cannot be opened, its [products] table cannot be
    read, or it holds rows. *)
Inductive SQLiteDatabase `{JSRuntime} : Type :=
| CannotOpen (e : JSError)
| CannotQuery (e : JSError)
| Rows (products : list SQLiteProduct.t).

(** The console lines that report what happened to the data.  The start
    banner, the step titles, the rules and the lines that only announce or
    confirm a step (among them the one after the connection was closed) are
    not traced. *)
Inductive LogLine : Type :=
| RateLimitHit (delay : Z)
| SQLiteReadError
| Extracted (n : nat)
| NoProductsFound
| Transformed (n : nat)
| IndexAlreadyExists
| IndexCreated
| IndexError
| DeletedExisting (n : nat)
| GeneratingEmbeddings (n : nat)
| GeneratingEmbeddingFor (sku : string)
| EmbeddingGenerated (sku : string)
| EmbeddingFailed (sku : string)
| Processed (n total : nat)
| Inserting (n : nat)
| Inserted (sku : string)
| DuplicateSkipped (sku : string)
| InsertFailed (sku : string) (msg : string)
| WaitingForNextBatch
| Verification (total withEmbeddings : nat)
| ReportSucceeded (n : nat)
| ReportFailed (n : nat)
| RunFailed.

(** What a run does to the outside, in order.  A driver call is recorded
    with the error it rejected with, if any. *)
Inductive Event `{JSRuntime} : Type :=
| Sleep (ms : Z)
| EmbedQuery (text : string)
| Mongo (call : MongoCall) (rejected : option JSError)
| WriteFile (path : string) (content : list MongoProduct.t)
| Log (line : LogLine).

(** A file-system call of the export that throws: [fs.writeFileSync], which
    opens the file with flag [w] and so may have emptied it before it fails
    ([truncated]), or the [fs.statSync] that follows the write. *)
Inductive FsFault : Type :=
| WriteThrows (e : JSError) (truncated : bool)
| StatThrows (e : JSError).

Definition thrownBy (fault : FsFault) : JSError :=
  match fault with
  | WriteThrows e _ => e
  | StatThrows e => e
  end.

(** Everything a run can read or change.  [mongoClientFault] is what
    [new MongoClient(uri, options)] throws for the configured connection
    string, if anything; [outputFile] is the sequence the output file
    serializes, [None] when there is no file or it holds no complete
    document. *)
Record World `{EmbeddingsModel} : Type := {
  env_MONGODB_ATLAS_URI : option string;
  env_GOOGLE_API_KEY : option string;
  sqlite : SQLiteDatabase;
  embeddings : provider;
  mongo : MongoServer;
  mongoClientFault : option JSError;
  fsFault : option FsFault;
  outputFile : option (list MongoProduct.t)
}.

(** ** The effect monad

    A computation takes the world, and gives back the new world, the events
    it caused (oldest first) and either a thrown error or a value. *)

Section Effects.
Context `{EmbeddingsModel}.

Definition Result (A : Type) : Type := (JSError + A)%type.

Definition M (A : Type) : Type := World -> World * list Event * Result A.

Definition ret {A} (a : A) : M A := fun w => (w, [], inr a).

Definition throw {A} (e : JSError) : M A := fun w => (w, [], inl e).

Definition bind {A B} (m : M A) (k : A -> M B) : M B := fun w =>
  match m w with
  | (w1, ev1, inl e) => (w1, ev1, inl e)
  | (w1, ev1, inr a) => let '(w2, ev2, r) := k a w1 in (w2, ev1 ++ ev2, r)
  end.

(** [try { m } catch (error) { ... }]: the outcome of [m] as a value. *)
Definition tryCatch {A} (m : M A) : M (Result A) := fun w =>
  let '(w1, ev, r) := m w in (w1, ev, inr r).

(** [try { m } finally { cleanup }] *)
Definition finally {A} (m : M A) (cleanup : M unit) : M A := fun w =>
  let '(w1, ev1, r) := m w in
  let '(w2, ev2, c) := cleanup w1 in
  (w2, ev1 ++ ev2, match c with inl e => inl e | inr _ => r end).

Definition emit (e : Event) : M unit := fun w => (w, [e], inr tt).

Definition setEmbeddings (w : World) (p : provider) : World :=
  {| env_MONGODB_ATLAS_URI := env_MONGODB_ATLAS_URI w;
     env_GOOGLE_API_KEY := env_GOOGLE_API_KEY w;
     sqlite := sqlite w; embeddings := p; mongo := mongo w;
     mongoClientFault := mongoClientFault w;
     fsFault := fsFault w; outputFile := outputFile w |}.

Definition setMongo (w : World) (srv : MongoServer) : World :=
  {| env_MONGODB_ATLAS_URI := env_MONGODB_ATLAS_URI w;
     env_GOOGLE_API_KEY := env_GOOGLE_API_KEY w;
     sqlite := sqlite w; embeddings := embeddings w; mongo := srv;
     mongoClientFault := mongoClientFault w;
     fsFault := fsFault w; outputFile := outputFile w |}.

Definition setOutputFile (w : World) (f : option (list MongoProduct.t)) : World :=
  {| env_MONGODB_ATLAS_URI := env_MONGODB_ATLAS_URI w;
     env_GOOGLE_API_KEY := env_GOOGLE_API_KEY w;
     sqlite := sqlite w; embeddings := embeddings w; mongo := mongo w;
     mongoClientFault := mongoClientFault w;
     fsFault := fsFault w; outputFile := f |}.

Definition getWorld : M World := fun w => (w, [], inr w).

(** [console.log] / [console.error] *)
Definition console (line : LogLine) : M unit := emit (Log line).

(** [await new Promise((resolve) => setTimeout(resolve, ms))] *)
Definition setTimeout (ms : Z) : M unit := emit (Sleep ms).

End Effects.

Declare Scope js_scope.
Delimit Scope js_scope with js.
Notation "x <- m ;; k" := (bind m (fun x => k))
  (at level 61, m at next level, right associativity) : js_scope.
Notation "m ;; k" := (bind m (fun _ => k))
  (at level 61, right associativity) : js_scope.
Open Scope js_scope.

Section Loops.
Context `{EmbeddingsModel}.

(** [for (const x of xs) { state = body(state, x) }] *)
Fixpoint forOf {A S : Type} (xs : list A) (body : S -> A -> M S) (s : S) : M S :=
  match xs with
  | [] => ret s
  | x :: rest => s' <- body s x ;; forOf rest body s'
  end.

(** [arr.slice(i, j)] for indices inside [0 .. ] *)
Definition slice {A : Type} (arr : list A) (i j : nat) : list A :=
  firstn (j - i) (skipn i arr).

(** JavaScript truthiness of an environment variable or nullable column. *)
Definition truthy (o : option string) : bool :=
  match o with Some s => negb (JS.isEmpty s) | None => false end.

(** [o || empty string] *)
Definition orEmpty (o : option string) : string :=
  match o with Some s => s | None => EmptyString end.

End Loops.

(** ** Code shared by the two scripts *)

(** How the attempt loop of [retryWithBackoff] ends: [return await fn()],
    [throw error], or the [throw new Error("Max retries exceeded")] after
    the loop. *)
Inductive RetryExit (T : Type) : Type :=
| Returned (v : T)
| Rethrown (error : JSError)
| LoopEnded.
Arguments Returned {T} v.
Arguments Rethrown {T} error.
Arguments LoopEnded {T}.

Section Shared.
Context `{EmbeddingsModel}.

(** *** retryWithBackoff *)


(** [Math.min(1000 * Math.pow(2, attempt), 30000)] *)
Definition backoffDelay (attempt : Z) : Z := Z.min (1000 * 2 ^ attempt) 30000.

(** The loop [for (let attempt = 1; attempt <= maxRetries; attempt++)],
    entered at [attempt] with [remaining] iterations left before the
    condition becomes false ([attempt] grows by one per iteration, so
    [remaining] is [maxRetries - attempt + 1]). *)
Fixpoint retryLoop {T : Type} (fn : M T) (maxRetries : Z) (remaining : nat)
    (attempt : Z) (w : World) : World * list Event * RetryExit T :=
  match remaining with
  | O => (w, [], LoopEnded)
  | S remaining' =>
      match fn w with
      | (w1, ev1, inr v) => (w1, ev1, Returned v)
      | (w1, ev1, inl error) =>
          if strictEq (status error) 429 && (attempt <? maxRetries)%Z then
            let delay := backoffDelay attempt in
            let '(w2, ev2, r) := retryLoop fn maxRetries remaining' (attempt + 1) w1 in
            (w2, ev1 ++ [Log (RateLimitHit delay); Sleep delay] ++ ev2, r)
          else (w1, ev1, Rethrown error)
      end
  end.

Definition retryWithBackoff {T : Type} (fn : M T) (maxRetries : Z) : M T := fun w =>
  match retryLoop fn maxRetries (Z.to_nat maxRetries) 1 w with
  | (w', ev, Returned v) => (w', ev, inr v)
  | (w', ev, Rethrown error) => (w', ev, inl error)
  | (w', ev, LoopEnded) => (w', ev, inl (Error "Max retries exceeded"))
  end.

(** The default of the [maxRetries] parameter. *)
Definition defaultMaxRetries : Z := 3.

(** *** generateEmbeddingText *)

Definition generateEmbeddingText (product : SQLiteProduct.t)
    (tags : list (JSValue number)) : string :=
  let basicInfo :=
    SQLiteProduct.title product +++ " " +++ orEmpty (SQLiteProduct.description product)
      +++ " from " +++ SQLiteProduct.vendor product in
  let pricing :=
    "Price: " +++ Number_toString (SQLiteProduct.price product) +++ " "
      +++ SQLiteProduct.currency product in
  let tagText :=
    if (0 <? List.length tags)%nat then "Tags: " +++ Array_join ", " tags else EmptyString in
  let searchContent := orEmpty (SQLiteProduct.search_content product) in
  JS.trim (basicInfo +++ ". " +++ pricing +++ ". " +++ tagText +++ ". " +++ searchContent).

(** *** The embedding call *)

(** [embeddings.embedQuery(text)] *)
Definition embeddings_embedQuery (text : string) : M (list number) := fun w =>
  let '(p, r) := embedQuery text (embeddings w) in
  (setEmbeddings w p, [EmbedQuery text], r).

End Shared.

(** ** The MongoDB driver calls the migration uses *)

Section Driver.
Context `{EmbeddingsModel}.

Definition setFaults (srv : MongoServer) (fs : list (option JSError)) : MongoServer :=
  {| documents := documents srv; searchIndexes := searchIndexes srv;
     uniqueSku := uniqueSku srv; faults := fs |}.

Definition setDocuments (srv : MongoServer) (docs : list MongoProduct.t) : MongoServer :=
  {| documents := docs; searchIndexes := searchIndexes srv;
     uniqueSku := uniqueSku srv; faults := faults srv |}.

Definition setSearchIndexes (srv : MongoServer) (names : list string) : MongoServer :=
  {| documents := documents srv; searchIndexes := names;
     uniqueSku := uniqueSku srv; faults := faults srv |}.

(** One awaited driver call: the next entry of the fault script decides
    whether it rejects; otherwise [op] is what the server does. *)
Definition driverCall {A : Type} (call : MongoCall)
    (op : MongoServer -> MongoServer * Result A) : M A := fun w =>
  let srv := mongo w in
  match faults srv with
  | Some e :: rest => (setMongo w (setFaults srv rest), [Mongo call (Some e)], inl e)
  | _ =>
      let '(srv', r) := op (setFaults srv (tl (faults srv))) in
      (setMongo w srv',
       [Mongo call (match r with inl e => Some e | inr _ => None end)], r)
  end.

Definition duplicateKeyError : JSError :=
  {| status := None; code := Some 11000%Z; message := "E11000 duplicate key error" |}.

(** [new MongoClient(uri, options)] *)
Definition MongoClient_new : M unit := fun w =>
  match mongoClientFault w with
  | Some e => (w, [], inl e)
  | None => (w, [], inr tt)
  end.

Definition client_connect : M unit := driverCall Connect (fun srv => (srv, inr tt)).

Definition client_ping : M unit := driverCall Ping (fun srv => (srv, inr tt)).

Definition client_close : M unit := driverCall Close (fun srv => (srv, inr tt)).

Definition collection_listSearchIndexes : M (list string) :=
  driverCall ListSearchIndexes (fun srv => (srv, inr (searchIndexes srv))).

Definition collection_createSearchIndex (name : string) : M unit :=
  driverCall (CreateSearchIndex name)
    (fun srv => (setSearchIndexes srv (searchIndexes srv ++ [name]), inr tt)).

(** [collection.deleteMany({})], giving [deletedCount]. *)
Definition collection_deleteMany : M nat :=
  driverCall DeleteMany
    (fun srv => (setDocuments srv [], inr (List.length (documents srv)))).

(** [collection.insertOne(doc)]: with a unique index on [sku], a document
    whose [sku] is already stored is rejected with code 11000. *)
Definition collection_insertOne (doc : MongoProduct.t) : M unit :=
  driverCall (InsertOne doc)
    (fun srv =>
       if uniqueSku srv
          && existsb (fun d => String.eqb (MongoProduct.sku d) (MongoProduct.sku doc))
               (documents srv)
       then (srv, inl duplicateKeyError)
       else (setDocuments srv (documents srv ++ [doc]), inr tt)).

Definition collection_countDocuments (query : MongoProduct.t -> bool) : M nat :=
  driverCall CountDocuments
    (fun srv => (srv, inr (List.length (filter query (documents srv))))).

Definition collection_findOne : M (option MongoProduct.t) :=
  driverCall FindOne (fun srv => (srv, inr (hd_error (documents srv)))).

End Driver.

(** ** The file export script (src/server/export-to-json.ts) *)

Module ExportToJson.
Section Script.
Context `{EmbeddingsModel}.

Definition BATCH_SIZE : nat := 25.
Definition BATCH_DELAY : Z := 1500.
Definition sqliteDbPath : string := "../easymart.db".
Definition outputPath : string := "products-for-import.json".

Definition extractProductsFromSQLite (dbPath : string) : M (list SQLiteProduct.t) :=
  w <- getWorld ;;
  match sqlite w with
  | CannotOpen e => throw e
  | CannotQuery e => throw e
  | Rows products => console (Extracted (List.length products)) ;; ret products
  end.

Definition transformProduct (sqliteProduct : SQLiteProduct.t) : MongoProduct.t :=
  let tags :=
    if truthy (SQLiteProduct.tags sqliteProduct) then
      let raw := orEmpty (SQLiteProduct.tags sqliteProduct) in
      let fragments :=
        map JString
          (filter (fun t => (0 <? String.length t)%nat)
             (map (fun t => JS.trim t) (JS.split "," raw))) in
      match JSON_parse raw with
      | Some (JArray elems) => elems
      | Some v =>
          match JS_String v with
          | Some text => [JString text]
          | None => fragments
          end
      | None => fragments
      end
    else [] in
  let embedding_text := generateEmbeddingText sqliteProduct tags in
  {| MongoProduct.sku := SQLiteProduct.sku sqliteProduct;
     MongoProduct.handle := SQLiteProduct.handle sqliteProduct;
     MongoProduct.title := SQLiteProduct.title sqliteProduct;
     MongoProduct.description := orEmpty (SQLiteProduct.description sqliteProduct);
     MongoProduct.vendor := SQLiteProduct.vendor sqliteProduct;
     MongoProduct.price := SQLiteProduct.price sqliteProduct;
     MongoProduct.currency := SQLiteProduct.currency sqliteProduct;
     MongoProduct.image_url := SQLiteProduct.image_url sqliteProduct;
     MongoProduct.product_url := SQLiteProduct.product_url sqliteProduct;
     MongoProduct.tags := tags;
     MongoProduct.search_content := orEmpty (SQLiteProduct.search_content sqliteProduct);
     MongoProduct.embedding_text := embedding_text;
     MongoProduct.embedding := None |}.

(** The three variables the batch loop updates. *)
Record Progress : Type := {
  productsWithEmbeddings : list MongoProduct.t;
  successCount : nat;
  failCount : nat
}.

(** The body of [for (const product of batch)]. *)
Definition embedProduct (total : nat) (st : Progress) (product : MongoProduct.t)
    : M Progress :=
  r <- tryCatch
         (retryWithBackoff
            (embeddings_embedQuery (MongoProduct.embedding_text product))
            defaultMaxRetries) ;;
  match r with
  | inr embedding =>
      let st' :=
        {| productsWithEmbeddings :=
             productsWithEmbeddings st ++ [MongoProduct.withEmbedding product embedding];
           successCount := successCount st + 1;
           failCount := failCount st |} in
      (if (successCount st' mod 10 =? 0)%nat
       then console (Processed (successCount st') total) else ret tt) ;;
      ret st'
  | inl error =>
      console (EmbeddingFailed (MongoProduct.sku product)) ;;
      ret {| productsWithEmbeddings := productsWithEmbeddings st ++ [product];
             successCount := successCount st;
             failCount := failCount st + 1 |}
  end.

(** [for (let i = 0; i < mongoProducts.length; i += BATCH_SIZE)], entered
    at [i].  Every iteration moves [i] forward by [BATCH_SIZE], so a [fuel]
    of [mongoProducts.length] iterations is never used up. *)
Fixpoint batchLoop (mongoProducts : list MongoProduct.t) (fuel i : nat)
    (st : Progress) : M Progress :=
  match fuel with
  | O => ret st
  | S fuel' =>
      if (i <? List.length mongoProducts)%nat then
        let batch := slice mongoProducts i (i + BATCH_SIZE) in
        st' <- forOf batch (embedProduct (List.length mongoProducts)) st ;;
        (if (i + BATCH_SIZE <? List.length mongoProducts)%nat
         then console WaitingForNextBatch ;; setTimeout BATCH_DELAY
         else ret tt) ;;
        batchLoop mongoProducts fuel' (i + BATCH_SIZE) st'
      else ret st
  end.

(** [fs.writeFileSync(path, JSON.stringify(content, null, 2))]; the
    document written is kept as the sequence it serializes.  A call that
    throws after the file was opened leaves it without a document. *)
Definition writeFileSync (path : string) (content : list MongoProduct.t) : M unit :=
  fun w =>
    match fsFault w with
    | Some (WriteThrows e truncated) =>
        (if truncated then setOutputFile w None else w, [WriteFile path content], inl e)
    | _ => (setOutputFile w (Some content), [WriteFile path content], inr tt)
    end.

(** [fs.statSync(path)], whose result only feeds a line that is not traced. *)
Definition statSync (path : string) : M unit := fun w =>
  match fsFault w with
  | Some (StatThrows e) => (w, [], inl e)
  | _ => (w, [], inr tt)
  end.

Definition exportToJson : M unit :=
  w <- getWorld ;;
  if negb (truthy (env_GOOGLE_API_KEY w)) then
    throw (Error "GOOGLE_API_KEY environment variable is required")
  else
    r <- tryCatch
           (sqliteProducts <- extractProductsFromSQLite sqliteDbPath ;;
            if (List.length sqliteProducts =? 0)%nat then
              console NoProductsFound
            else
              let mongoProducts := map transformProduct sqliteProducts in
              console (Transformed (List.length mongoProducts)) ;;
              console (GeneratingEmbeddings (List.length mongoProducts)) ;;
              st <- batchLoop mongoProducts (List.length mongoProducts) 0
                      {| productsWithEmbeddings := []; successCount := 0; failCount := 0 |} ;;
              writeFileSync outputPath (productsWithEmbeddings st) ;;
              statSync outputPath ;;
              console (ReportSucceeded (successCount st)) ;;
              console (ReportFailed (failCount st))) ;;
    match r with
    | inr _ => ret tt
    | inl error => console RunFailed ;; throw error
    end.

End Script.
End ExportToJson.

(** ** The migration script (src/unnamed/part_000) *)

Module Migrate.
Section Script.
Context `{EmbeddingsModel}.

Definition BATCH_SIZE : nat := 50.
Definition BATCH_DELAY : Z := 2000.
Definition sqliteDbPath : string := "../easymart.db".

Definition extractProductsFromSQLite (dbPath : string) : M (list SQLiteProduct.t) :=
  w <- getWorld ;;
  match sqlite w with
  | CannotOpen e => throw e
  | CannotQuery e => console SQLiteReadError ;; throw e
  | Rows products => console (Extracted (List.length products)) ;; ret products
  end.

Definition transformProductToMongoSchema (sqliteProduct : SQLiteProduct.t)
    : MongoProduct.t :=
  let tags :=
    if truthy (SQLiteProduct.tags sqliteProduct) then
      let raw := orEmpty (SQLiteProduct.tags sqliteProduct) in
      let fragments :=
        map JString
          (filter (fun tag => (0 <? String.length tag)%nat)
             (map (fun tag => JS.trim tag) (JS.split "," raw))) in
      match JSON_parse raw with
      | Some (JArray elems) => elems
      | Some v =>
          match JS_String v with
          | Some text => [JString text]
          | None => fragments
          end
      | None => fragments
      end
    else [] in
  let embedding_text := generateEmbeddingText sqliteProduct tags in
  {| MongoProduct.sku := SQLiteProduct.sku sqliteProduct;
     MongoProduct.handle := SQLiteProduct.handle sqliteProduct;
     MongoProduct.title := SQLiteProduct.title sqliteProduct;
     MongoProduct.description := orEmpty (SQLiteProduct.description sqliteProduct);
     MongoProduct.vendor := SQLiteProduct.vendor sqliteProduct;
     MongoProduct.price := SQLiteProduct.price sqliteProduct;
     MongoProduct.currency := SQLiteProduct.currency sqliteProduct;
     MongoProduct.image_url := SQLiteProduct.image_url sqliteProduct;
     MongoProduct.product_url := SQLiteProduct.product_url sqliteProduct;
     MongoProduct.tags := tags;
     MongoProduct.search_content := orEmpty (SQLiteProduct.search_content sqliteProduct);
     MongoProduct.embedding_text := embedding_text;
     MongoProduct.embedding := None |}.

(** The body of [for (const product of products)] in
    [generateEmbeddingsForBatch]. *)
Definition embedProduct (productsWithEmbeddings : list MongoProduct.t)
    (product : MongoProduct.t) : M (list MongoProduct.t) :=
  console (GeneratingEmbeddingFor (MongoProduct.sku product)) ;;
  r <- tryCatch
         (retryWithBackoff
            (embeddings_embedQuery (MongoProduct.embedding_text product))
            defaultMaxRetries) ;;
  match r with
  | inr embedding =>
      console (EmbeddingGenerated (MongoProduct.sku product)) ;;
      ret (productsWithEmbeddings ++ [MongoProduct.withEmbedding product embedding])
  | inl error =>
      console (EmbeddingFailed (MongoProduct.sku product)) ;;
      ret productsWithEmbeddings
  end.

Definition generateEmbeddingsForBatch (products : list MongoProduct.t)
    : M (list MongoProduct.t) :=
  forOf products embedProduct [].

Definition ensureVectorSearchIndex : M unit :=
  r <- tryCatch
         (indexes <- collection_listSearchIndexes ;;
          if existsb (String.eqb "vector_index") indexes then
            console IndexAlreadyExists
          else
            collection_createSearchIndex "vector_index" ;;
            console IndexCreated) ;;
  match r with
  | inr _ => ret tt
  | inl error => console IndexError
  end.

(** The value [insertProductsToMongo] returns. *)
Record InsertResult : Type := { success : nat; failed : nat }.

(** The body of [for (const product of products)] in
    [insertProductsToMongo]. *)
Definition insertProduct (st : InsertResult) (product : MongoProduct.t)
    : M InsertResult :=
  r <- tryCatch (collection_insertOne product) ;;
  match r with
  | inr _ =>
      console (Inserted (MongoProduct.sku product)) ;;
      ret {| success := success st + 1; failed := failed st |}
  | inl error =>
      (if strictEq (code error) 11000
       then console (DuplicateSkipped (MongoProduct.sku product))
       else console (InsertFailed (MongoProduct.sku product) (message error))) ;;
      ret {| success := success st; failed := failed st + 1 |}
  end.

Definition insertProductsToMongo (products : list MongoProduct.t) : M InsertResult :=
  console (Inserting (List.length products)) ;;
  forOf products insertProduct {| success := 0; failed := 0 |}.

Definition verifyMigration : M unit :=
  totalCount <- collection_countDocuments (fun _ => true) ;;
  withEmbeddings <- collection_countDocuments MongoProduct.hasEmbedding ;;
  console (Verification totalCount withEmbeddings) ;;
  sample <- collection_findOne ;;
  ret tt.

(** Step 7, [for (let i = 0; i < mongoProducts.length; i += BATCH_SIZE)],
    entered at [i] with the running [totalSuccess] and [totalFailed]. *)
Fixpoint batchLoop (mongoProducts : list MongoProduct.t) (fuel i : nat)
    (totals : InsertResult) : M InsertResult :=
  match fuel with
  | O => ret totals
  | S fuel' =>
      if (i <? List.length mongoProducts)%nat then
        let batch := slice mongoProducts i (i + BATCH_SIZE) in
        productsWithEmbeddings <- generateEmbeddingsForBatch batch ;;
        result <- insertProductsToMongo productsWithEmbeddings ;;
        let totals' := {| success := success totals + success result;
                          failed := failed totals + failed result |} in
        (if (i + BATCH_SIZE <? List.length mongoProducts)%nat
         then console WaitingForNextBatch ;; setTimeout BATCH_DELAY
         else ret tt) ;;
        batchLoop mongoProducts fuel' (i + BATCH_SIZE) totals'
      else ret totals
  end.

(** [mongoClient] is [null] until step 3 has built the client, so the
    [finally] block closes the connection exactly when the constructor
    returned; the [catch] block logs and rethrows whatever steps 1 to 8
    throw, the constructor included. *)
Definition migrate : M unit :=
  w <- getWorld ;;
  if negb (truthy (env_MONGODB_ATLAS_URI w)) then
    throw (Error "MONGODB_ATLAS_URI environment variable is required")
  else if negb (truthy (env_GOOGLE_API_KEY w)) then
    throw (Error "GOOGLE_API_KEY environment variable is required")
  else
    r <- tryCatch (extractProductsFromSQLite sqliteDbPath) ;;
    match r with
    | inl error => console RunFailed ;; throw error
    | inr sqliteProducts =>
        if (List.length sqliteProducts =? 0)%nat then
          console NoProductsFound
        else
          let mongoProducts := map transformProductToMongoSchema sqliteProducts in
          console (Transformed (List.length mongoProducts)) ;;
          mongoClient <- tryCatch MongoClient_new ;;
          match mongoClient with
          | inl error => console RunFailed ;; throw error
          | inr _ =>
              finally
                (r <- tryCatch
                        (client_connect ;;
                         client_ping ;;
                         ensureVectorSearchIndex ;;
                         deletedCount <- collection_deleteMany ;;
                         console (DeletedExisting deletedCount) ;;
                         totals <- batchLoop mongoProducts (List.length mongoProducts) 0
                                     {| success := 0; failed := 0 |} ;;
                         verifyMigration ;;
                         console (ReportSucceeded (success totals)) ;;
                         console (ReportFailed (failed totals))) ;;
                 match r with
                 | inr _ => ret tt
                 | inl error => console RunFailed ;; throw error
                 end)
                client_close
          end
    end.

End Script.
End Migrate.

(** ** A reference runtime and scripted collaborators

    Concrete instances on which the scripts can be run: integer-valued
    numbers printed in decimal, a parser for the part of JSON without
    fractions, exponents and [\u] escapes, and providers whose answers are
    scripted. *)

Module Reference.

Definition isJsonSpace (c : ascii) : bool :=
  let n := nat_of_ascii c in ((n =? 32) || (n =? 9) || (n =? 10) || (n =? 13))%nat.

Fixpoint skipSpace (s : string) : string :=
  match s with
  | EmptyString => EmptyString
  | String c r => if isJsonSpace c then skipSpace r else s
  end.

Definition isDigit (c : ascii) : bool :=
  let n := nat_of_ascii c in ((48 <=? n) && (n <=? 57))%nat.

Definition unescape (c : ascii) : option ascii :=
  let n := nat_of_ascii c in
  if (n =? 34)%nat then Some c                           (* quote *)
  else if (n =? 92)%nat then Some c                      (* backslash *)
  else if (n =? 47)%nat then Some c                      (* slash *)
  else if (n =? 98)%nat then Some (ascii_of_nat 8)       (* b *)
  else if (n =? 102)%nat then Some (ascii_of_nat 12)     (* f *)
  else if (n =? 110)%nat then Some (ascii_of_nat 10)     (* n *)
  else if (n =? 114)%nat then Some (ascii_of_nat 13)     (* r *)
  else if (n =? 116)%nat then Some (ascii_of_nat 9)      (* t *)
  else None.

(** The characters of a string literal after its opening quote, and what
    follows the closing quote. *)
Fixpoint stringBody (s : string) : option (string * string) :=
  match s with
  | EmptyString => None
  | String c r =>
      if (nat_of_ascii c =? 34)%nat then Some (EmptyString, r)
      else if (nat_of_ascii c =? 92)%nat then
        match r with
        | EmptyString => None
        | String e r' =>
            match unescape e, stringBody r' with
            | Some ch, Some (t, rest) => Some (String ch t, rest)
            | _, _ => None
            end
        end
      else if (nat_of_ascii c <? 32)%nat then None
      else
        match stringBody r with
        | Some (t, rest) => Some (String c t, rest)
        | None => None
        end
  end.

(** The digits at the front of [s], as a number, with their count. *)
Fixpoint digits (acc : Z) (count : nat) (s : string) : Z * nat * string :=
  match s with
  | String c r =>
      if isDigit c
      then digits (10 * acc + Z.of_nat (nat_of_ascii c - 48)) (S count) r
      else (acc, count, s)
  | EmptyString => (acc, count, s)
  end.

Definition startsFraction (s : string) : bool :=
  match s with
  | String c _ =>
      let n := nat_of_ascii c in ((n =? 46) || (n =? 101) || (n =? 69))%nat
  | EmptyString => false
  end.

(** An integer literal without sign: no leading zero, no fraction or
    exponent part. *)
Definition natural (s : string) : option (Z * string) :=
  match s with
  | String c r =>
      if isDigit c then
        let '(n, count, rest) := digits 0 0 s in
        if startsFraction rest then None
        else if (nat_of_ascii c =? 48)%nat && (1 <? count)%nat then None
        else Some (n, rest)
      else None
  | EmptyString => None
  end.

Fixpoint stripPrefix (p s : string) : option string :=
  match p, s with
  | EmptyString, _ => Some s
  | String a p', String b s' => if Ascii.eqb a b then stripPrefix p' s' else None
  | String _ _, EmptyString => None
  end.

Fixpoint value (fuel : nat) (s : string) : option (JSValue Z * string) :=
  match fuel with
  | O => None
  | S fuel' =>
      match skipSpace s with
      | EmptyString => None
      | String c r =>
          let n := nat_of_ascii c in
          if (n =? 34)%nat then
            match stringBody r with
            | Some (t, rest) => Some (JString t, rest)
            | None => None
            end
          else if (n =? 91)%nat then
            match skipSpace r with
            | String d r' =>
                if (nat_of_ascii d =? 93)%nat then Some (JArray [], r')
                else match elements fuel' r with
                     | Some (vs, rest) => Some (JArray vs, rest)
                     | None => None
                     end
            | EmptyString => None
            end
          else if (n =? 123)%nat then
            match skipSpace r with
            | String d r' =>
                if (nat_of_ascii d =? 125)%nat then Some (JObject [], r')
                else match members fuel' r with
                     | Some (ms, rest) => Some (JObject ms, rest)
                     | None => None
                     end
            | EmptyString => None
            end
          else if (n =? 45)%nat then
            match natural r with
            | Some (k, rest) => Some (JNumber (- k)%Z, rest)
            | None => None
            end
          else if isDigit c then
            match natural (String c r) with
            | Some (k, rest) => Some (JNumber k, rest)
            | None => None
            end
          else
            match stripPrefix "null" (String c r) with
            | Some rest => Some (JNull, rest)
            | None =>
                match stripPrefix "true" (String c r) with
                | Some rest => Some (JBool true, rest)
                | None =>
                    match stripPrefix "false" (String c r) with
                    | Some rest => Some (JBool false, rest)
                    | None => None
                    end
                end
            end
      end
  end

with elements (fuel : nat) (s : string) : option (list (JSValue Z) * string) :=
  match fuel with
  | O => None
  | S fuel' =>
      match value fuel' s with
      | Some (v, r) =>
          match skipSpace r with
          | String c r' =>
              if (nat_of_ascii c =? 44)%nat then
                match elements fuel' r' with
                | Some (vs, rest) => Some (v :: vs, rest)
                | None => None
                end
              else if (nat_of_ascii c =? 93)%nat then Some ([v], r')
              else None
          | EmptyString => None
          end
      | None => None
      end
  end

with members (fuel : nat) (s : string)
    : option (list (string * JSValue Z) * string) :=
  match fuel with
  | O => None
  | S fuel' =>
      match skipSpace s with
      | String q r0 =>
          if (nat_of_ascii q =? 34)%nat then
            match stringBody r0 with
            | Some (k, r1) =>
                match skipSpace r1 with
                | String colon r2 =>
                    if (nat_of_ascii colon =? 58)%nat then
                      match value fuel' r2 with
                      | Some (v, r) =>
                          match skipSpace r with
                          | String c r' =>
                              if (nat_of_ascii c =? 44)%nat then
                                match members fuel' r' with
                                | Some (ms, rest) => Some ((k, v) :: ms, rest)
                                | None => None
                                end
                              else if (nat_of_ascii c =? 125)%nat then Some ([(k, v)], r')
                              else None
                          | EmptyString => None
                          end
                      | None => None
                      end
                    else None
                | EmptyString => None
                end
            | None => None
            end
          else None
      | EmptyString => None
      end
  end.

Definition parse (s : string) : option (JSValue Z) :=
  match value (2 * String.length s + 2) s with
  | Some (v, rest) => if JS.isEmpty (skipSpace rest) then Some v else None
  | None => None
  end.

Definition decimal (n : Z) : string := NilZero.string_of_int (Z.to_int n).

Definition runtime : JSRuntime :=
  {| number := Z; Number_toString := decimal; JSON_parse := parse |}.

Definition vector768 : list Z := repeat 0%Z 768.

Definition badRequest : JSError :=
  {| status := Some 400%Z; code := None; message := "Bad Request" |}.

Definition tooManyRequests : JSError :=
  {| status := Some 429%Z; code := None; message := "Too Many Requests" |}.

Definition writeConcernError : JSError :=
  {| status := None; code := Some 64%Z; message := "write concern failed" |}.

(** A provider that always rejects the text [bad] (not a rate limit) and
    embeds every other text. *)
Definition rejectingQuery (bad text : string) (st : unit) : unit * (JSError + list Z) :=
  if String.eqb text bad then (st, inl badRequest) else (st, inr vector768).

Definition rejecting (bad : string) : @EmbeddingsModel runtime :=
  @Build_EmbeddingsModel runtime unit (rejectingQuery bad).

(** A provider that answers 429 while its counter is positive, and embeds
    afterwards. *)
Definition throttledQuery (text : string) (st : nat) : nat * (JSError + list Z) :=
  match st with
  | O => (O, inr vector768)
  | S k => (k, inl tooManyRequests)
  end.

Definition throttled : @EmbeddingsModel runtime :=
  @Build_EmbeddingsModel runtime nat throttledQuery.

Definition row (sku title : string) (tags : option string) : @SQLiteProduct.t runtime :=
  @SQLiteProduct.Build_t runtime
    sku "item" title (Some "Oak") "Acme" 1999%Z "USD" "img" "url" tags (Some "sturdy").

Definition threeRows : list (@SQLiteProduct.t runtime) :=
  [ row "SKU-1" "Lamp" (Some ("[" +++ JS.quoted "a" +++ ", " +++ JS.quoted "b" +++ "]"));
    row "SKU-2" "Chair" (Some "a, b ,");
    row "SKU-3" "Desk" None ].

(** The text of an object whose only member is named toString. *)
Definition shadowed : string := "{" +++ JS.quoted "toString" +++ ":1}".

Definition server (docs : list (@MongoProduct.t runtime)) (unique : bool)
    (script : list (option JSError)) : @MongoServer runtime :=
  {| documents := docs; searchIndexes := []; uniqueSku := unique; faults := script |}.

Definition world (E : @EmbeddingsModel runtime) (st : @provider runtime E)
    (db : @SQLiteDatabase runtime) (srv : @MongoServer runtime) : @World runtime E :=
  {| env_MONGODB_ATLAS_URI := Some "mongodb+srv://cluster";
     env_GOOGLE_API_KEY := Some "key";
     sqlite := db;
     embeddings := st;
     mongo := srv;
     mongoClientFault := None;
     fsFault := None;
     outputFile := None |}.

(** The three-row scenario of section 8: the embedding call of the second
    row always fails, and not with a rate limit. *)
Definition chairText : string :=
  MongoProduct.embedding_text
    (ExportToJson.transformProduct (row "SKU-2" "Chair" (Some "a, b ,"))).


(** A document left in the collection by an earlier run. *)
Definition oldDocument : @MongoProduct.t runtime :=
  ExportToJson.transformProduct (row "SKU-0" "Stool" None).

(** Nothing to extract, one document already stored. *)
Definition emptySource : @World runtime (rejecting chairText) :=
  world (rejecting chairText) tt (Rows []) (server [oldDocument] true []).

(** The three rows again, over a collection that still holds a document of
    an earlier run. *)
Definition rerun : @World runtime (rejecting chairText) :=
  world (rejecting chairText) tt (Rows threeRows) (server [oldDocument] true []).

Definition lamp : @MongoProduct.t runtime :=
  ExportToJson.transformProduct (row "SKU-1" "Lamp" None).

(** A collection that already holds the lamp, under a unique index on sku. *)
Definition lampStored : @World runtime (rejecting chairText) :=
  world (rejecting chairText) tt (Rows []) (server [lamp] true []).

(** An empty collection whose next driver call fails for another reason. *)
Definition writeFails : @World runtime (rejecting chairText) :=
  world (rejecting chairText) tt (Rows []) (server [] true [Some writeConcernError]).

End Reference.

(** ** The retry policy in the words of the specification (section 4.3)

    Up to [maxAttempts] attempts; on an error signalling rate limiting, wait
    [min (base_delay * 2 ^ attempt) cap] and retry; on any other error, or
    once the attempts are used up, propagate the failure at once. *)

Definition base_delay : Z := 1000.
Definition cap : Z := 30000.

Definition rateLimited (error : JSError) : Prop := status error = Some 429%Z.

Inductive RetryPolicy `{EmbeddingsModel} {T : Type} (fn : M T) (maxAttempts : Z)
  : Z -> World -> World * list Event * RetryExit T -> Prop :=
| policy_success : forall attempt w w1 ev v,
    (attempt <= maxAttempts)%Z ->
    fn w = (w1, ev, inr v) ->
    RetryPolicy fn maxAttempts attempt w (w1, ev, Returned v)
| policy_retry : forall attempt w w1 ev error w2 ev2 r,
    (attempt < maxAttempts)%Z ->
    fn w = (w1, ev, inl error) ->
    rateLimited error ->
    RetryPolicy fn maxAttempts (attempt + 1) w1 (w2, ev2, r) ->
    RetryPolicy fn maxAttempts attempt w
      (w2,
       ev ++ [Log (RateLimitHit (Z.min (base_delay * 2 ^ attempt) cap));
              Sleep (Z.min (base_delay * 2 ^ attempt) cap)] ++ ev2,
       r)
| policy_propagate : forall attempt w w1 ev error,
    (attempt <= maxAttempts)%Z ->
    fn w = (w1, ev, inl error) ->
    ~ rateLimited error \/ attempt = maxAttempts ->
    RetryPolicy fn maxAttempts attempt w (w1, ev, Rethrown error)
| policy_no_attempt : forall attempt w,
    (maxAttempts < attempt)%Z ->
    RetryPolicy fn maxAttempts attempt w (w, [], LoopEnded).

(** ** Tag normalization and embedding text, as read from the specification *)

Definition trimmedNonEmpty (s : string) : bool :=
  negb (JS.isEmpty s) && negb (JS.startsWithWhiteSpace s) && negb (JS.endsWithWhiteSpace s).

(** A tag that is a non-empty string without leading or trailing white
    space. *)
Definition trimmedTag {number : Type} (v : JSValue number) : bool :=
  match v with
  | JString s => trimmedNonEmpty s
  | _ => false
  end.

(** A tag as section 8 wants it: non-empty, no leading or trailing white
    space, no doubled white space. *)
Definition normalizedTag {number : Type} (v : JSValue number) : bool :=
  match v with
  | JString s => trimmedNonEmpty s && negb (JS.hasDoubledWhiteSpace s)
  | _ => false
  end.

(** The four segments of the embedding text taken to the letter of section
    4.2, the first one being title + description + "from" + vendor. *)
Definition embeddingTextAsWritten `{JSRuntime} (product : SQLiteProduct.t)
    (tags : list (JSValue number)) : string :=
  JS.trim
    (String.concat ". "
       [ SQLiteProduct.title product +++ orEmpty (SQLiteProduct.description product)
           +++ "from" +++ SQLiteProduct.vendor product;
         "Price: " +++ Number_toString (SQLiteProduct.price product) +++ " "
           +++ SQLiteProduct.currency product;
         match tags with
         | [] => EmptyString
         | _ :: _ => "Tags: " +++ Array_join ", " tags
         end;
         orEmpty (SQLiteProduct.search_content product) ]).

(** ** The batch scheduler, as read from the specification (section 4.4)

    Every record, in order, is handed to the Embedding Client once; the
    outcome of that call is kept next to the record. *)

Section Scheduler.
Context `{EmbeddingsModel}.

(** The Embedding Client: [embedQuery] behind [retryWithBackoff]. *)
Definition embedClient (product : MongoProduct.t) : M (list number) :=
  retryWithBackoff (embeddings_embedQuery (MongoProduct.embedding_text product))
    defaultMaxRetries.

Definition Outcome : Type := (MongoProduct.t * option (list number))%type.

Fixpoint embedInOrder (products : list MongoProduct.t) (w : World)
    : World * list Outcome :=
  match products with
  | [] => (w, [])
  | product :: rest =>
      let '(w1, _, r) := embedClient product w in
      let '(w2, outcomes) := embedInOrder rest w1 in
      (w2, (product, match r with inr e => Some e | inl _ => None end) :: outcomes)
  end.

Definition succeeded (o : Outcome) : bool :=
  match snd o with Some _ => true | None => false end.

(** The record as the file sink receives it: with its embedding when the
    call succeeded, as it was otherwise. *)
Definition delivered (o : Outcome) : MongoProduct.t :=
  match snd o with
  | Some e => MongoProduct.withEmbedding (fst o) e
  | None => fst o
  end.

Definition successes (outcomes : list Outcome) : nat :=
  List.length (filter succeeded outcomes).

Definition failures (outcomes : list Outcome) : nat :=
  List.length (filter (fun o => negb (succeeded o)) outcomes).

(** The records the document-store sink receives: those whose call
    succeeded. *)
Definition kept (outcomes : list Outcome) : list MongoProduct.t :=
  flat_map
    (fun o => match snd o with
              | Some e => [MongoProduct.withEmbedding (fst o) e]
              | None => []
              end)
    outcomes.


End Scheduler.

(** ** Reading a trace *)

Section Traces.
Context `{JSRuntime}.

Definition count (f : Event -> bool) (ev : list Event) : nat :=
  List.length (filter f ev).

(** The documents handed to [fs.writeFileSync], one entry per call. *)
Definition written (ev : list Event) : list (list MongoProduct.t) :=
  flat_map (fun e => match e with WriteFile _ content => [content] | _ => [] end) ev.

(** The texts sent to the embedding provider. *)
Definition embedQueries (ev : list Event) : list string :=
  flat_map (fun e => match e with EmbedQuery text => [text] | _ => [] end) ev.

(** The documents whose [insertOne] was accepted. *)
Definition insertedDocuments (ev : list Event) : list MongoProduct.t :=
  flat_map (fun e => match e with Mongo (InsertOne doc) None => [doc] | _ => [] end) ev.

(** The documents handed to [insertOne], accepted or not. *)
Definition insertAttempts (ev : list Event) : list MongoProduct.t :=
  flat_map (fun e => match e with Mongo (InsertOne doc) _ => [doc] | _ => [] end) ev.

(** The events a call of the Embedding Client can cause. *)
Definition isClientEvent (e : Event) : bool :=
  match e with
  | EmbedQuery _ | Sleep _ | Log (RateLimitHit _) => true
  | _ => false
  end.

(** The events of the batch scheduler: no file is written, no driver call
    is made. *)
Definition isSchedulerEvent (e : Event) : bool :=
  match e with
  | EmbedQuery _ | Sleep _ | Log _ => true
  | _ => false
  end.

(** The console lines of a trace. *)
Definition logLines (ev : list Event) : list LogLine :=
  flat_map (fun e => match e with Log line => [line] | _ => [] end) ev.

Definition isRejectedInsert (e : Event) : bool :=
  match e with Mongo (InsertOne _) (Some _) => true | _ => false end.

(** An [insertOne] rejected with the duplicate key code. *)
Definition isDuplicateKeyRejection (e : Event) : bool :=
  match e with
  | Mongo (InsertOne _) (Some error) => strictEq (code error) 11000
  | _ => false
  end.

Definition isPurge (e : Event) : bool :=
  match e with Mongo DeleteMany _ => true | _ => false end.

Definition isLog (f : LogLine -> bool) (e : Event) : bool :=
  match e with Log line => f line | _ => false end.

Definition isDuplicateSkipped (line : LogLine) : bool :=
  match line with DuplicateSkipped _ => true | _ => false end.

Definition isInsertFailed (line : LogLine) : bool :=
  match line with InsertFailed _ _ => true | _ => false end.

Definition isInserted (line : LogLine) : bool :=
  match line with Inserted _ => true | _ => false end.

Definition isEmbeddingGenerated (line : LogLine) : bool :=
  match line with EmbeddingGenerated _ => true | _ => false end.



End Traces.

(** ** Steps that leave the documents alone *)

Section Steps.
Context `{EmbeddingsModel}.

(** A step that changes nothing but the server, and there neither stores nor
    deletes a document, whatever its outcome. *)
Definition AdminStep {A : Type} (m : M A) : Prop :=
  forall w w1 ev r,
    m w = (w1, ev, r) ->
    w1 = setMongo w (mongo w1)
    /\ documents (mongo w1) = documents (mongo w)
    /\ insertAttempts ev = []
    /\ filter isPurge ev = [].

End Steps.

(** ** Further readers of traces and strings *)

Section MoreTraces.
Context `{JSRuntime}.

(** The waits of a trace, in milliseconds. *)
Definition sleeps (ev : list Event) : list Z :=
  flat_map (fun e => match e with Sleep ms => [ms] | _ => [] end) ev.

(** The driver calls of a trace, each with the error it rejected with. *)
Definition mongoCalls (ev : list Event) : list (MongoCall * option JSError) :=
  flat_map (fun e => match e with Mongo call r => [(call, r)] | _ => [] end) ev.

Definition isTransformed (line : LogLine) : bool :=
  match line with Transformed _ => true | _ => false end.

Definition isExtracted (line : LogLine) : bool :=
  match line with Extracted _ => true | _ => false end.

Definition isWaiting (line : LogLine) : bool :=
  match line with WaitingForNextBatch => true | _ => false end.

Definition isAcceptedPurge (e : Event) : bool :=
  match e with Mongo DeleteMany None => true | _ => false end.

(** The driver calls the migration makes outside any [try] of its own. *)
Definition fatalCall (call : MongoCall) : bool :=
  match call with
  | Connect | Ping | DeleteMany | CountDocuments | FindOne | Close => true
  | ListSearchIndexes | CreateSearchIndex _ | InsertOne _ => false
  end.

End MoreTraces.

(** The attempt numbers [attempt], [attempt + 1], ... ([n] of them). *)
Definition attemptsFrom (attempt : Z) (n : nat) : list Z :=
  map (fun j => (attempt + Z.of_nat j)%Z) (seq 0 n).

(** A string made of white space only. *)
Fixpoint allWhiteSpace (s : string) : bool :=
  match s with
  | EmptyString => true
  | String c r => JS.isWhiteSpace c && allWhiteSpace r
  end.

(** A string without the separator [sep]. *)
Fixpoint lacks (sep : ascii) (s : string) : bool :=
  match s with
  | EmptyString => true
  | String c r => negb (Ascii.eqb c sep) && lacks sep r
  end.

(** What the comma fallback produces: a non-empty fragment, trimmed, without
    comma. *)
Definition fragment_ok (f : string) : Prop :=
  JS.isEmpty f = false
  /\ JS.startsWithWhiteSpace f = false
  /\ JS.endsWithWhiteSpace f = false
  /\ lacks "," f = true.

(** The comma fallback of the transformers, on its own. *)
Definition commaFragments (raw : string) : list string :=
  filter (fun t => negb (JS.isEmpty t)) (map JS.trim (JS.split "," raw)).

(** [{ ...row, tags }] *)
Definition withTags `{JSRuntime} (row : SQLiteProduct.t) (tags : option string)
    : SQLiteProduct.t :=
  {| SQLiteProduct.sku := SQLiteProduct.sku row;
     SQLiteProduct.handle := SQLiteProduct.handle row;
     SQLiteProduct.title := SQLiteProduct.title row;
     SQLiteProduct.description := SQLiteProduct.description row;
     SQLiteProduct.vendor := SQLiteProduct.vendor row;
     SQLiteProduct.price := SQLiteProduct.price row;
     SQLiteProduct.currency := SQLiteProduct.currency row;
     SQLiteProduct.image_url := SQLiteProduct.image_url row;
     SQLiteProduct.product_url := SQLiteProduct.product_url row;
     SQLiteProduct.tags := tags;
     SQLiteProduct.search_content := SQLiteProduct.search_content row |}.

(** ** Further scripted collaborators *)

Module Scenarios.

(** A provider that answers 429 to every call. *)
Definition alwaysThrottledQuery (text : string) (st : unit)
    : unit * (JSError + list Z) :=
  (st, inl Reference.tooManyRequests).

Definition alwaysThrottled : @EmbeddingsModel Reference.runtime :=
  @Build_EmbeddingsModel Reference.runtime unit alwaysThrottledQuery.

(** A provider that embeds every text. *)
Definition reliableQuery (text : string) (st : unit) : unit * (JSError + list Z) :=
  (st, inr Reference.vector768).

Definition reliable : @EmbeddingsModel Reference.runtime :=
  @Build_EmbeddingsModel Reference.runtime unit reliableQuery.

Definition throttledWorld : @World Reference.runtime alwaysThrottled :=
  Reference.world alwaysThrottled tt (Rows Reference.threeRows) (Reference.server [] true []).

Definition reliableWorld : @World Reference.runtime reliable :=
  Reference.world reliable tt (Rows Reference.threeRows)
    (Reference.server [Reference.oldDocument] true []).

(** The three rows over a collection that holds one document, behind a
    deployment that rejects the first driver call. *)
Definition unreachable : @World Reference.runtime reliable :=
  Reference.world reliable tt (Rows Reference.threeRows)
    (Reference.server [Reference.oldDocument] true [Some Reference.writeConcernError]).

(** The same, with a deployment that rejects the fifth driver call. *)
Definition purgeRejected : @World Reference.runtime reliable :=
  Reference.world reliable tt (Rows Reference.threeRows)
    (Reference.server [Reference.oldDocument] true
       [None; None; None; None; Some Reference.writeConcernError]).

Definition noSpace : JSError :=
  {| status := None; code := None; message := "ENOSPC: no space left on device" |}.

(** The three rows and a reliable provider, on a disk that is full. *)
Definition diskFull : @World Reference.runtime reliable :=
  @Build_World Reference.runtime reliable
    (Some "mongodb+srv://cluster") (Some "key") (Rows Reference.threeRows) tt
    (Reference.server [Reference.oldDocument] true []) None
    (Some (WriteThrows noSpace true)) (Some [Reference.oldDocument]).

(** The same rows on a disk where the written file cannot be inspected. *)
Definition statFails : @World Reference.runtime reliable :=
  @Build_World Reference.runtime reliable
    (Some "mongodb+srv://cluster") (Some "key") (Rows Reference.threeRows) tt
    (Reference.server [Reference.oldDocument] true []) None
    (Some (StatThrows noSpace)) None.

Definition invalidScheme : JSError :=
  {| status := None; code := None;
     message := "Invalid scheme, expected connection string to start with mongodb" |}.

(** The three rows, with a connection string the driver does not accept. *)
Definition malformedUri : @World Reference.runtime reliable :=
  @Build_World Reference.runtime reliable
    (Some "cluster.example.net") (Some "key") (Rows Reference.threeRows) tt
    (Reference.server [Reference.oldDocument] true []) (Some invalidScheme) None None.

(** Neither environment variable is usable: one is unset, one is empty. *)
Definition unconfigured : @World Reference.runtime reliable :=
  @Build_World Reference.runtime reliable
    None (Some EmptyString) (Rows Reference.threeRows) tt
    (Reference.server [Reference.oldDocument] true []) None None None.

Definition malformed : JSError :=
  {| status := None; code := None; message := "SQLITE_CORRUPT: database disk image is malformed" |}.

(** The SQLite file opens, its products table cannot be read. *)
Definition corruptFile : @World Reference.runtime reliable :=
  Reference.world reliable tt (CannotQuery malformed)
    (Reference.server [Reference.oldDocument] true []).

End Scenarios.

(** ** What a computation may do to the world *)

Section Frames.
Context `{EmbeddingsModel}.

(** Every run of [m] relates the world before, the trace and the world
    after by [I]. *)
Definition Respects (I : World -> list Event -> World -> Prop) {A : Type} (m : M A)
    : Prop :=
  forall w w' ev r, m w = (w', ev, r) -> I w ev w'.

(** The reach of the migration: it changes the provider and the server
    only, writes no file, and as long as no purge is accepted every document
    stays in place, followed by those inserted. *)
Definition migrationFrame (w : World) (ev : list Event) (w' : World) : Prop :=
  w' = setMongo (setEmbeddings w (embeddings w')) (mongo w')
  /\ written ev = []
  /\ (count isAcceptedPurge ev = 0 ->
      documents (mongo w') = documents (mongo w) ++ insertedDocuments ev).

(** The reach of the export: it changes the provider and the output file
    only, the latter by a call of [fs.writeFileSync], and makes no driver
    call. *)
Definition exportFrame (w : World) (ev : list Event) (w' : World) : Prop :=
  w' = setOutputFile (setEmbeddings w (embeddings w')) (outputFile w')
  /\ mongoCalls ev = []
  /\ (written ev = [] -> outputFile w' = outputFile w).

(** No pause between batches is announced. *)
Definition withoutPause (w : World) (ev : list Event) (w' : World) : Prop :=
  count (isLog isWaiting) ev = 0.

(** Nothing is sent to the embedding provider. *)
Definition withoutQuery (w : World) (ev : list Event) (w' : World) : Prop :=
  embedQueries ev = [].

(** The texts of [products] in order, the text of each record as many times
    as [calls] says. *)
Fixpoint queriesInOrder (products : list MongoProduct.t) (calls : list nat)
    : list string :=
  match products, calls with
  | product :: products', k :: calls' =>
      repeat (MongoProduct.embedding_text product) k ++ queriesInOrder products' calls'
  | _, _ => []
  end.

(** A run that throws [e] without having touched anything: the world is as
    it was, no line about extracted rows was printed, the provider was not
    called, no driver call was made and nothing was handed to
    [fs.writeFileSync]. *)
Definition failsUntouched (w : World) (e : JSError)
    (run : World * list Event * Result unit) : Prop :=
  snd run = inl e
  /\ fst (fst run) = w
  /\ count (isLog isExtracted) (snd (fst run)) = 0
  /\ embedQueries (snd (fst run)) = []
  /\ mongoCalls (snd (fst run)) = []
  /\ written (snd (fst run)) = [].

(** What [Migrate.migrate] runs once [new MongoClient] has returned: steps 3
    to 8 inside its [try], with its [catch] and its [finally]. *)
Definition withClient (mongoProducts : list MongoProduct.t) : M unit :=
  finally
    (r <- tryCatch
            (client_connect ;;
             client_ping ;;
             Migrate.ensureVectorSearchIndex ;;
             deletedCount <- collection_deleteMany ;;
             console (DeletedExisting deletedCount) ;;
             totals <- Migrate.batchLoop mongoProducts (List.length mongoProducts) 0
                         {| Migrate.success := 0; Migrate.failed := 0 |} ;;
             Migrate.verifyMigration ;;
             console (ReportSucceeded (Migrate.success totals)) ;;
             console (ReportFailed (Migrate.failed totals))) ;;
     match r with
     | inr _ => ret tt
     | inl error => console RunFailed ;; throw error
     end)
    client_close.

(** [m] throws only the error of a rejected driver call among those made
    outside any [try]. *)
Definition FailsByDriver {A : Type} (m : M A) : Prop :=
  forall w w' ev e,
    m w = (w', ev, inl e) ->
    exists call, fatalCall call = true /\ In (Mongo call (Some e)) ev.

End Frames.

(** * Properties *)

(** ** The effect monad *)

Section MonadFacts.
Context `{EmbeddingsModel}.

Lemma strictEq_true x k : strictEq x k = true <-> x = Some k.
Proof.
  destruct x as [v|]; simpl.
  - rewrite Z.eqb_eq. split; congruence.
  - split; discriminate.
Qed.

End MonadFacts.

(** ** retryWithBackoff *)

Section RetryFacts.
Context `{EmbeddingsModel} {T : Type}.
Variable fn : M T.
Variable maxRetries : Z.

Lemma backoffDelay_spec attempt :
  backoffDelay attempt = Z.min (base_delay * 2 ^ attempt) cap.
Proof. reflexivity. Qed.

(** The loop counted by remaining iterations is the loop over attempt
    numbers of the policy. *)
Lemma retryLoop_policy remaining : forall attempt w,
  Z.of_nat remaining = Z.max 0 (maxRetries - attempt + 1) ->
  RetryPolicy fn maxRetries attempt w (retryLoop fn maxRetries remaining attempt w).
Proof.
  induction remaining as [|k IH]; intros attempt w Hrem.
  - simpl. apply policy_no_attempt. lia.
  - cbn [retryLoop].
    destruct (fn w) as [[w1 ev1] [error|v]] eqn:Efn.
    + destruct (strictEq (status error) 429 && (attempt <? maxRetries)%Z) eqn:Eretry.
      * apply andb_true_iff in Eretry. destruct Eretry as [E429 Hlt].
        apply strictEq_true in E429. apply Z.ltb_lt in Hlt.
        specialize (IH (attempt + 1)%Z w1 ltac:(lia)).
        destruct (retryLoop fn maxRetries k (attempt + 1) w1) as [[w2 ev2] r].
        rewrite backoffDelay_spec.
        eapply policy_retry; eauto.
      * apply policy_propagate; [lia | assumption |].
        apply andb_false_iff in Eretry. destruct Eretry as [E429|Hlt].
        -- left. intros Hr. apply strictEq_true in Hr. congruence.
        -- right. apply Z.ltb_ge in Hlt. lia.
    + apply policy_success; [lia | assumption].
Qed.

(** Whatever the policy yields from a started attempt comes out of a call
    of [fn]. *)
Lemma policy_outcome_from_fn attempt w out :
  RetryPolicy fn maxRetries attempt w out ->
  (attempt <= maxRetries)%Z ->
  exists w0 before ev0,
    snd (fst out) = before ++ ev0 /\
    match snd out with
    | Returned v => fn w0 = (fst (fst out), ev0, inr v)
    | Rethrown error => fn w0 = (fst (fst out), ev0, inl error)
    | LoopEnded => False
    end.
Proof.
  induction 1 as [a w w1 ev v Hle Hfn | a w w1 ev error w2 ev2 r Hlt Hfn Hrl Hrec IH
                 | a w w1 ev error Hle Hfn Hwhy | a w Hgt]; intros Hstart; simpl.
  - exists w, [], ev. auto.
  - destruct (IH ltac:(lia)) as (w0 & before & ev0 & Hev & Hout). simpl in *.
    exists w0, (ev ++ [Log (RateLimitHit (Z.min (base_delay * 2 ^ a) cap));
                      Sleep (Z.min (base_delay * 2 ^ a) cap)] ++ before), ev0.
    split; [| exact Hout].
    rewrite Hev. repeat rewrite <- app_assoc. reflexivity.
  - exists w, [], ev. auto.
  - lia.
Qed.

End RetryFacts.

(** C9.  With [maxRetries >= 1], [retryWithBackoff] ends with the outcome of
    one of the calls of [fn]: the value that call returned, or the error that
    call threw, together with the world that call left.  The attempt loop is
    never left through its condition, so the [throw new Error("Max retries
    exceeded")] placed after it is not reached. *)
Theorem retryWithBackoff_outcome_is_fn_outcome `{EmbeddingsModel} {T : Type}
    (fn : M T) (maxRetries : Z) (w : World) :
  (1 <= maxRetries)%Z ->
  (exists w0 w' before ev0 r,
      fn w0 = (w', ev0, r) /\
      retryWithBackoff fn maxRetries w = (w', before ++ ev0, r))
  /\ snd (retryLoop fn maxRetries (Z.to_nat maxRetries) 1 w) <> LoopEnded.
Proof.
  intros Hmax.
  pose proof (retryLoop_policy fn maxRetries (Z.to_nat maxRetries) 1 w ltac:(lia)) as Hpol.
  destruct (policy_outcome_from_fn Hpol ltac:(lia)) as (w0 & before & ev0 & Hev & Hout).
  unfold retryWithBackoff.
  destruct (retryLoop fn maxRetries (Z.to_nat maxRetries) 1 w) as [[w' ev] r].
  simpl in Hev, Hout. subst ev.
  destruct r as [v | error |]; [| | contradiction]; simpl.
  - split; [| discriminate]. exists w0, w', before, ev0, (inr v). auto.
  - split; [| discriminate]. exists w0, w', before, ev0, (inl error). auto.
Qed.

Lemma retryWithBackoff_outcome_is_fn_outcome_witness :
  (1 <= 3)%Z /\
  ((exists w0 w' before ev0 r,
       @embeddings_embedQuery _ Reference.throttled "lamp" w0 = (w', ev0, r) /\
       retryWithBackoff (@embeddings_embedQuery _ Reference.throttled "lamp") 3
         (Reference.world Reference.throttled 1 (Rows []) (Reference.server [] true []))
       = (w', before ++ ev0, r))
   /\ snd (retryLoop (@embeddings_embedQuery _ Reference.throttled "lamp") 3 (Z.to_nat 3) 1
             (Reference.world Reference.throttled 1 (Rows []) (Reference.server [] true [])))
      <> LoopEnded).
Proof.
  split; [lia |].
  apply (@retryWithBackoff_outcome_is_fn_outcome _ Reference.throttled). lia.
Defined.

(** C4.  [retryWithBackoff] follows the retry policy for every wrapped
    function and every [maxRetries]: it retries only after an error whose
    status is 429 while attempts are left, waits
    [min (base_delay * 2 ^ attempt) cap] before that retry, and hands on any
    other error, or a 429 on the last attempt, without waiting.  With at
    least three attempts allowed (the default is 3), a function that is rate
    limited exactly twice and then succeeds yields its value after exactly
    two waits, of 2 s and 4 s, which is at least [base_delay + 2 * base_delay];
    a function failing with another error fails at once, the run holding no
    other event than those of that single call. *)
Theorem retryWithBackoff_follows_policy `{EmbeddingsModel} {T : Type}
    (fn : M T) (maxRetries : Z) :
  (forall w,
      RetryPolicy fn maxRetries 1 w (retryLoop fn maxRetries (Z.to_nat maxRetries) 1 w))
  /\ (forall w0 w1 w2 w3 ev1 ev2 ev3 e1 e2 v,
      (3 <= maxRetries)%Z ->
      fn w0 = (w1, ev1, inl e1) -> rateLimited e1 ->
      fn w1 = (w2, ev2, inl e2) -> rateLimited e2 ->
      fn w2 = (w3, ev3, inr v) ->
      retryWithBackoff fn maxRetries w0
      = (w3,
         ev1 ++ [Log (RateLimitHit (backoffDelay 1)); Sleep (backoffDelay 1)]
             ++ ev2 ++ [Log (RateLimitHit (backoffDelay 2)); Sleep (backoffDelay 2)]
             ++ ev3,
         inr v)
      /\ backoffDelay 1 = 2000%Z /\ backoffDelay 2 = 4000%Z
      /\ (backoffDelay 1 + backoffDelay 2 >= base_delay + 2 * base_delay)%Z)
  /\ (forall w0 w1 ev1 e,
      (1 <= maxRetries)%Z ->
      fn w0 = (w1, ev1, inl e) -> ~ rateLimited e ->
      retryWithBackoff fn maxRetries w0 = (w1, ev1, inl e)).
Proof.
  split; [| split].
  - intros w. apply retryLoop_policy. lia.
  - intros w0 w1 w2 w3 ev1 ev2 ev3 e1 e2 v Hmax F1 R1 F2 R2 F3.
    split; [| repeat split; vm_compute; congruence].
    unfold retryWithBackoff.
    destruct (Z.to_nat maxRetries) as [|[|[|k]]] eqn:En; try lia.
    cbn [retryLoop]. rewrite F1.
    replace (strictEq (status e1) 429) with true by (symmetry; apply strictEq_true; exact R1).
    replace (1 <? maxRetries)%Z with true by (symmetry; apply Z.ltb_lt; lia).
    cbn [andb]. change (1 + 1)%Z with 2%Z. rewrite F2.
    replace (strictEq (status e2) 429) with true by (symmetry; apply strictEq_true; exact R2).
    replace (2 <? maxRetries)%Z with true by (symmetry; apply Z.ltb_lt; lia).
    cbn [andb]. change (2 + 1)%Z with 3%Z. rewrite F3.
    repeat rewrite <- app_assoc. reflexivity.
  - intros w0 w1 ev1 e Hmax F1 Hnot.
    unfold retryWithBackoff.
    destruct (Z.to_nat maxRetries) as [|k] eqn:En; try lia.
    cbn [retryLoop]. rewrite F1.
    replace (strictEq (status e) 429) with false; [reflexivity |].
    symmetry. destruct (strictEq (status e) 429) eqn:E; [| reflexivity].
    apply strictEq_true in E. contradiction.
Qed.

Lemma retryWithBackoff_follows_policy_witness :
  retryWithBackoff (@embeddings_embedQuery _ Reference.throttled "lamp") 3
    (Reference.world Reference.throttled 2 (Rows []) (Reference.server [] true []))
  = (Reference.world Reference.throttled 0 (Rows []) (Reference.server [] true []),
     [EmbedQuery "lamp"; Log (RateLimitHit 2000); Sleep 2000;
      EmbedQuery "lamp"; Log (RateLimitHit 4000); Sleep 4000;
      EmbedQuery "lamp"],
     inr Reference.vector768)
  /\ retryWithBackoff (@embeddings_embedQuery _ (Reference.rejecting "lamp") "lamp") 3
       (Reference.world (Reference.rejecting "lamp") tt (Rows []) (Reference.server [] true []))
     = (Reference.world (Reference.rejecting "lamp") tt (Rows []) (Reference.server [] true []),
        [EmbedQuery "lamp"], inl Reference.badRequest).
Proof.
  split.
  - refine (proj1 (proj1 (proj2
      (@retryWithBackoff_follows_policy _ Reference.throttled _
         (@embeddings_embedQuery _ Reference.throttled "lamp") 3))
      (Reference.world Reference.throttled 2 (Rows []) (Reference.server [] true []))
      (Reference.world Reference.throttled 1 (Rows []) (Reference.server [] true []))
      (Reference.world Reference.throttled 0 (Rows []) (Reference.server [] true []))
      (Reference.world Reference.throttled 0 (Rows []) (Reference.server [] true []))
      [EmbedQuery "lamp"] [EmbedQuery "lamp"] [EmbedQuery "lamp"]
      Reference.tooManyRequests Reference.tooManyRequests Reference.vector768
      _ _ _ _ _ _)); try reflexivity; lia.
  - refine (proj2 (proj2
      (@retryWithBackoff_follows_policy _ (Reference.rejecting "lamp") _
         (@embeddings_embedQuery _ (Reference.rejecting "lamp") "lamp") 3))
      _ _ _ _ _ _ _); try reflexivity; try lia; discriminate.
Defined.


(** ** The transformer *)

Section StringFacts.

Lemma trimStart_no_leading s : JS.startsWithWhiteSpace (JS.trimStart s) = false.
Proof.
  induction s as [|c r IH]; simpl; [reflexivity |].
  destruct (JS.isWhiteSpace c) eqn:E; [exact IH | simpl; exact E].
Qed.

Lemma trimEnd_no_trailing s : JS.endsWithWhiteSpace (JS.trimEnd s) = false.
Proof.
  induction s as [|c r IH]; simpl; [reflexivity |].
  destruct (JS.isWhiteSpace c) eqn:Ec; simpl.
  - destruct (JS.trimEnd r) as [|d r'] eqn:Er; simpl; [reflexivity | exact IH].
  - destruct (JS.trimEnd r) as [|d r'] eqn:Er; simpl; [exact Ec | exact IH].
Qed.

Lemma trimEnd_keeps_leading s :
  JS.startsWithWhiteSpace s = false -> JS.startsWithWhiteSpace (JS.trimEnd s) = false.
Proof.
  destruct s as [|c r]; simpl; [reflexivity |].
  intros Hc. rewrite Hc. simpl. exact Hc.
Qed.

Lemma trim_trimmed s :
  JS.startsWithWhiteSpace (JS.trim s) = false /\ JS.endsWithWhiteSpace (JS.trim s) = false.
Proof.
  unfold JS.trim. split.
  - apply trimEnd_keeps_leading, trimStart_no_leading.
  - apply trimEnd_no_trailing.
Qed.

Lemma length_positive_not_empty s : (0 <? String.length s)%nat = negb (JS.isEmpty s).
Proof. destruct s; reflexivity. Qed.

(** Every fragment kept by the comma fallback is trimmed and not empty. *)
Lemma comma_fragments_trimmed {number : Type} raw :
  forallb (@trimmedTag number)
    (map JString
       (filter (fun t => (0 <? String.length t)%nat)
          (map (fun t => JS.trim t) (JS.split "," raw)))) = true.
Proof.
  induction (JS.split "," raw) as [|f fs IH]; simpl; [reflexivity |].
  destruct (0 <? String.length (JS.trim f))%nat eqn:Elen; [| exact IH].
  simpl. rewrite IH, andb_true_r.
  unfold trimmedNonEmpty.
  rewrite length_positive_not_empty in Elen.
  destruct (trim_trimmed f) as [Hl Ht].
  rewrite Elen, Hl, Ht. reflexivity.
Qed.

End StringFacts.

Section TransformerFacts.
Context `{JSRuntime}.

(** The two scripts transform a row in the same way. *)
Lemma transformers_agree (p : SQLiteProduct.t) :
  Migrate.transformProductToMongoSchema p = ExportToJson.transformProduct p.
Proof. reflexivity. Qed.

Lemma transform_tags_missing (p : SQLiteProduct.t) :
  truthy (SQLiteProduct.tags p) = false ->
  MongoProduct.tags (ExportToJson.transformProduct p) = [].
Proof. intros Hf. unfold ExportToJson.transformProduct. simpl. rewrite Hf. reflexivity. Qed.

Lemma transform_tags_present (p : SQLiteProduct.t) raw :
  SQLiteProduct.tags p = Some raw -> raw <> EmptyString ->
  MongoProduct.tags (ExportToJson.transformProduct p)
  = match JSON_parse raw with
    | Some (JArray elems) => elems
    | Some v =>
        match JS_String v with
        | Some text => [JString text]
        | None =>
            map JString
              (filter (fun t => (0 <? String.length t)%nat)
                 (map (fun t => JS.trim t) (JS.split "," raw)))
        end
    | None =>
        map JString
          (filter (fun t => (0 <? String.length t)%nat)
             (map (fun t => JS.trim t) (JS.split "," raw)))
    end.
Proof.
  intros Ht Hne. unfold ExportToJson.transformProduct.
  cbn [MongoProduct.tags]. rewrite Ht. cbn [truthy orEmpty].
  destruct raw; [congruence | reflexivity].
Qed.

End TransformerFacts.

(** C5 (as the code has it).  Both transformers normalize tags alike.  A
    missing or empty [tags] field gives no tags.  When the field is not valid
    JSON it is split on commas and every fragment is trimmed and kept only if
    not empty, so each resulting tag is a non-empty string without leading or
    trailing white space.  When the field parses as a JSON array, its elements
    are the tags, untouched.  When it parses as another JSON value, the one
    tag is [String] of that value; for an object with a member named toString
    that conversion throws inside the [try], and the [catch] splits the field
    on commas as it does for invalid JSON.  In particular, with a
    [JSON.parse] that reads the text of the array holding "a" and "b" as that
    array, the tags are the strings a, b in this order; and with a
    [JSON.parse] that rejects the text a, b , (a comma after b) the tags are
    again a, b. *)
Theorem tag_normalization `{JSRuntime} (p : SQLiteProduct.t) :
  MongoProduct.tags (Migrate.transformProductToMongoSchema p)
  = MongoProduct.tags (ExportToJson.transformProduct p)
  /\ (truthy (SQLiteProduct.tags p) = false ->
      MongoProduct.tags (ExportToJson.transformProduct p) = [])
  /\ (forall raw,
      SQLiteProduct.tags p = Some raw -> raw <> EmptyString ->
      (JSON_parse raw = None ->
       MongoProduct.tags (ExportToJson.transformProduct p)
       = map JString
           (filter (fun t => negb (JS.isEmpty t)) (map JS.trim (JS.split "," raw)))
       /\ forallb trimmedTag (MongoProduct.tags (ExportToJson.transformProduct p)) = true)
      /\ (forall elems,
          JSON_parse raw = Some (JArray elems) ->
          MongoProduct.tags (ExportToJson.transformProduct p) = elems)
      /\ (forall v,
          JSON_parse raw = Some v -> (forall elems, v <> JArray elems) ->
          (forall text,
              JS_String v = Some text ->
              MongoProduct.tags (ExportToJson.transformProduct p) = [JString text])
          /\ (JS_String v = None ->
              MongoProduct.tags (ExportToJson.transformProduct p)
              = map JString
                  (filter (fun t => negb (JS.isEmpty t)) (map JS.trim (JS.split "," raw)))
              /\ forallb trimmedTag (MongoProduct.tags (ExportToJson.transformProduct p))
                 = true)
          /\ (JS_String v = None <->
              exists members,
                v = JObject members
                /\ existsb (fun m => String.eqb (fst m) "toString") members = true)))
  /\ (forall raw,
      SQLiteProduct.tags p = Some raw ->
      raw = "[" +++ JS.quoted "a" +++ ", " +++ JS.quoted "b" +++ "]" ->
      JSON_parse raw = Some (JArray [JString "a"; JString "b"]) ->
      MongoProduct.tags (ExportToJson.transformProduct p) = [JString "a"; JString "b"])
  /\ (SQLiteProduct.tags p = Some "a, b ," ->
      JSON_parse "a, b ," = None ->
      MongoProduct.tags (ExportToJson.transformProduct p) = [JString "a"; JString "b"]).
Proof.
  assert (Hfragments : forall raw,
            map JString
              (filter (fun t => (0 <? String.length t)%nat)
                 (map (fun t => JS.trim t) (JS.split "," raw)))
            = map (@JString number)
                (filter (fun t => negb (JS.isEmpty t)) (map JS.trim (JS.split "," raw)))).
  { intros raw. f_equal. apply filter_ext. intros t. apply length_positive_not_empty. }
  split; [reflexivity |].
  split; [apply transform_tags_missing |].
  split; [| split].
  - intros raw Ht Hne. rewrite (transform_tags_present p Ht Hne).
    split; [| split].
    + intros Hparse. rewrite Hparse. split.
      * apply Hfragments.
      * apply comma_fragments_trimmed.
    + intros elems Hparse. rewrite Hparse. reflexivity.
    + intros v Hparse Hnot. rewrite Hparse.
      assert (Hcase : match v with
                      | JArray elems => elems
                      | _ =>
                          match JS_String v with
                          | Some text => [JString text]
                          | None =>
                              map JString
                                (filter (fun t => (0 <? String.length t)%nat)
                                   (map (fun t => JS.trim t) (JS.split "," raw)))
                          end
                      end
                      = match JS_String v with
                        | Some text => [JString text]
                        | None =>
                            map JString
                              (filter (fun t => (0 <? String.length t)%nat)
                                 (map (fun t => JS.trim t) (JS.split "," raw)))
                        end).
      { destruct v; try reflexivity. exfalso. eapply Hnot. reflexivity. }
      rewrite Hcase. split; [| split].
      * intros text ->. reflexivity.
      * intros ->. split; [apply Hfragments | apply comma_fragments_trimmed].
      * split.
        -- destruct v as [|[|]|n|s|elems|members]; try discriminate.
           ++ exfalso. eapply Hnot. reflexivity.
           ++ cbn [JS_String].
              destruct (existsb (fun m => String.eqb (fst m) "toString") members) eqn:E;
                [| discriminate].
              intros _. exists members. auto.
        -- intros (members & -> & Hmember). cbn [JS_String]. rewrite Hmember. reflexivity.
  - intros raw Ht Hraw Hparse.
    rewrite (transform_tags_present p Ht), Hparse; [reflexivity |].
    subst raw. discriminate.
  - intros Ht Hparse.
    rewrite (transform_tags_present p Ht), Hparse; [reflexivity | discriminate].
Qed.

Lemma tag_normalization_witness :
  MongoProduct.tags
    (ExportToJson.transformProduct
       (Reference.row "SKU-1" "Lamp"
          (Some ("[" +++ JS.quoted "a" +++ ", " +++ JS.quoted "b" +++ "]"))))
  = [JString "a"; JString "b"]
  /\ MongoProduct.tags
       (ExportToJson.transformProduct (Reference.row "SKU-2" "Chair" (Some "a, b ,")))
     = [JString "a"; JString "b"]
  /\ forallb trimmedTag
       (MongoProduct.tags
          (ExportToJson.transformProduct (Reference.row "SKU-2" "Chair" (Some "a, b ,"))))
     = true
  /\ MongoProduct.tags
       (ExportToJson.transformProduct
          (Reference.row "SKU-4" "Shelf" (Some Reference.shadowed)))
     = [JString Reference.shadowed].
Proof.
  split; [| split; [| split]].
  - refine (proj1 (proj2 (proj2 (proj2
      (@tag_normalization Reference.runtime
         (Reference.row "SKU-1" "Lamp"
            (Some ("[" +++ JS.quoted "a" +++ ", " +++ JS.quoted "b" +++ "]")))))))
      _ _ _ _); reflexivity.
  - refine (proj2 (proj2 (proj2 (proj2
      (@tag_normalization Reference.runtime
         (Reference.row "SKU-2" "Chair" (Some "a, b ,"))))))
      _ _); reflexivity.
  - refine (proj2 (proj1 (proj1 (proj2 (proj2
      (@tag_normalization Reference.runtime
         (Reference.row "SKU-2" "Chair" (Some "a, b ,")))))
      "a, b ," _ _) _)); [reflexivity | discriminate | reflexivity].
  - refine (proj1 (proj1 (proj2 (proj2 (proj2 (proj1 (proj2 (proj2
      (@tag_normalization Reference.runtime
         (Reference.row "SKU-4" "Shelf" (Some Reference.shadowed)))))
      Reference.shadowed _ _)) (JObject [("toString", JNumber 1%Z)]) _ _)) _));
      [reflexivity | discriminate | reflexivity | discriminate | reflexivity].
Defined.

(** C5 as stated fails: the elements of a JSON array are taken as they are,
    so an array holding an empty string and a padded string yields an empty
    tag and a tag with leading and trailing white space; and the comma
    fallback trims only the ends of a fragment, so white space doubled inside
    a fragment stays. *)
Lemma tag_normalization_not_always_normalized :
  MongoProduct.tags
    (ExportToJson.transformProduct
       (Reference.row "SKU-9" "Lamp"
          (Some ("[" +++ JS.quoted EmptyString +++ ", "
                     +++ JS.quoted " a " +++ "]"))))
  = [JString EmptyString; JString " a "]
  /\ forallb normalizedTag
       (MongoProduct.tags
          (ExportToJson.transformProduct
             (Reference.row "SKU-9" "Lamp"
                (Some ("[" +++ JS.quoted EmptyString +++ ", "
                           +++ JS.quoted " a " +++ "]")))))
     = false
  /\ MongoProduct.tags
       (Migrate.transformProductToMongoSchema
          (Reference.row "SKU-9" "Lamp" (Some "a  b, c")))
     = [JString "a  b"; JString "c"]
  /\ forallb normalizedTag
       (MongoProduct.tags
          (Migrate.transformProductToMongoSchema
             (Reference.row "SKU-9" "Lamp" (Some "a  b, c"))))
     = false.
Proof. repeat split; reflexivity. Qed.

(** C6 (as the code has it).  The embedding text of a row is, trimmed, the
    four segments joined with ". ": title, a space, the description (empty
    when missing), " from " and the vendor; then "Price: ", the price, a
    space and the currency; then "Tags: " followed by the tags joined with
    ", ", or nothing when there are no tags; then the search content (empty
    when missing).  The transformer is a function of the row alone: both
    scripts build the same record from a row, and that record carries no
    embedding. *)
Theorem embedding_text_synthesis `{JSRuntime} (p : SQLiteProduct.t) :
  MongoProduct.embedding_text (ExportToJson.transformProduct p)
  = JS.trim
      (String.concat ". "
         [ SQLiteProduct.title p +++ " " +++ orEmpty (SQLiteProduct.description p)
             +++ " from " +++ SQLiteProduct.vendor p;
           "Price: " +++ Number_toString (SQLiteProduct.price p) +++ " "
             +++ SQLiteProduct.currency p;
           match MongoProduct.tags (ExportToJson.transformProduct p) with
           | [] => EmptyString
           | _ :: _ =>
               "Tags: " +++ Array_join ", " (MongoProduct.tags (ExportToJson.transformProduct p))
           end;
           orEmpty (SQLiteProduct.search_content p) ])
  /\ MongoProduct.embedding_text (ExportToJson.transformProduct p)
     = generateEmbeddingText p (MongoProduct.tags (ExportToJson.transformProduct p))
  /\ MongoProduct.embedding (ExportToJson.transformProduct p) = None
  /\ Migrate.transformProductToMongoSchema p = ExportToJson.transformProduct p.
Proof.
  split; [| repeat split].
  change (MongoProduct.embedding_text (ExportToJson.transformProduct p))
    with (generateEmbeddingText p (MongoProduct.tags (ExportToJson.transformProduct p))).
  generalize (MongoProduct.tags (ExportToJson.transformProduct p)).
  intros tags. unfold generateEmbeddingText.
  destruct tags; reflexivity.
Qed.

(** C6 as stated fails on the first segment: the code separates title,
    description, the word from and the vendor by spaces. *)
Lemma embedding_text_is_not_plain_concatenation :
  MongoProduct.embedding_text
    (ExportToJson.transformProduct (Reference.row "SKU-3" "Desk" None))
  = "Desk Oak from Acme. Price: 1999 USD. . sturdy"
  /\ embeddingTextAsWritten (Reference.row "SKU-3" "Desk" None)
       (MongoProduct.tags (ExportToJson.transformProduct (Reference.row "SKU-3" "Desk" None)))
     = "DeskOakfromAcme. Price: 1999 USD. . sturdy"
  /\ MongoProduct.embedding_text
       (ExportToJson.transformProduct (Reference.row "SKU-3" "Desk" None))
     <> embeddingTextAsWritten (Reference.row "SKU-3" "Desk" None)
          (MongoProduct.tags
             (ExportToJson.transformProduct (Reference.row "SKU-3" "Desk" None))).
Proof. repeat split; try reflexivity. vm_compute. discriminate. Qed.


(** ** The Embedding Client and the batch scheduler *)

Section SchedulerFacts.
Context `{EmbeddingsModel}.

Lemma setEmbeddings_same (w : World) : setEmbeddings w (embeddings w) = w.
Proof. destruct w; reflexivity. Qed.

Lemma written_app (a b : list Event) : written (a ++ b) = written a ++ written b.
Proof. apply flat_map_app. Qed.

Lemma scheduler_events_write_nothing (ev : list Event) :
  forallb isSchedulerEvent ev = true -> written ev = [].
Proof.
  induction ev as [|e ev IH]; simpl; [reflexivity |].
  intros Hall. apply andb_true_iff in Hall. destruct Hall as [He Hev].
  destruct e; try discriminate; simpl; auto.
Qed.

Lemma client_events_are_scheduler_events (ev : list Event) :
  forallb isClientEvent ev = true -> forallb isSchedulerEvent ev = true.
Proof.
  induction ev as [|e ev IH]; simpl; [reflexivity |].
  intros Hall. apply andb_true_iff in Hall. destruct Hall as [He Hev].
  rewrite (IH Hev), andb_true_r.
  destruct e; try discriminate; reflexivity.
Qed.

(** A call of the client changes the provider only, and causes client
    events only. *)
Lemma retryLoop_embed_frame text maxRetries remaining : forall attempt w w' ev r,
  retryLoop (embeddings_embedQuery text) maxRetries remaining attempt w = (w', ev, r) ->
  w' = setEmbeddings w (embeddings w') /\ forallb isClientEvent ev = true.
Proof.
  induction remaining as [|k IH]; intros attempt w w' ev r Hrun.
  - simpl in Hrun. inversion Hrun; subst. rewrite setEmbeddings_same. auto.
  - cbn [retryLoop] in Hrun. unfold embeddings_embedQuery at 1 in Hrun.
    destruct (embedQuery text (embeddings w)) as [p [error|v]].
    + destruct (strictEq (status error) 429 && (attempt <? maxRetries)%Z).
      * destruct (retryLoop (embeddings_embedQuery text) maxRetries k (attempt + 1)
                    (setEmbeddings w p)) as [[w2 ev2] r2] eqn:Erec.
        inversion Hrun; subst.
        destruct (IH _ _ _ _ _ Erec) as [Hw Hev]. split.
        -- rewrite Hw at 1. reflexivity.
        -- simpl. exact Hev.
      * inversion Hrun; subst. auto.
    + inversion Hrun; subst. auto.
Qed.

Lemma embedClient_frame (product : MongoProduct.t) (w : World) :
  fst (fst (embedClient product w))
  = setEmbeddings w (embeddings (fst (fst (embedClient product w))))
  /\ forallb isClientEvent (snd (fst (embedClient product w))) = true.
Proof.
  unfold embedClient, retryWithBackoff.
  destruct (retryLoop (embeddings_embedQuery (MongoProduct.embedding_text product))
              defaultMaxRetries (Z.to_nat defaultMaxRetries) 1 w) as [[w' ev] r] eqn:Erun.
  apply retryLoop_embed_frame in Erun.
  destruct r; exact Erun.
Qed.

Lemma embedInOrder_app (l1 l2 : list MongoProduct.t) : forall w,
  embedInOrder (l1 ++ l2) w
  = (fst (embedInOrder l2 (fst (embedInOrder l1 w))),
     snd (embedInOrder l1 w) ++ snd (embedInOrder l2 (fst (embedInOrder l1 w)))).
Proof.
  induction l1 as [|p l1 IH]; intros w; simpl.
  - destruct (embedInOrder l2 w); reflexivity.
  - destruct (embedClient p w) as [[w1 ev1] r].
    rewrite IH.
    destruct (embedInOrder l1 w1) as [w2 o1]. simpl.
    destruct (embedInOrder l2 w2) as [w3 o2]. reflexivity.
Qed.

Lemma embedInOrder_frame (l : list MongoProduct.t) : forall w,
  fst (embedInOrder l w) = setEmbeddings w (embeddings (fst (embedInOrder l w))).
Proof.
  induction l as [|p l IH]; intros w; simpl.
  - symmetry. apply setEmbeddings_same.
  - destruct (embedClient_frame p w) as [Hw _].
    destruct (embedClient p w) as [[w1 ev1] r]. simpl in Hw.
    specialize (IH w1).
    destruct (embedInOrder l w1) as [w2 o]. simpl in *.
    rewrite IH at 1. rewrite Hw. reflexivity.
Qed.

(** One entry per record, in order. *)
Lemma embedInOrder_records (l : list MongoProduct.t) : forall w,
  map fst (snd (embedInOrder l w)) = l.
Proof.
  induction l as [|p l IH]; intros w; simpl; [reflexivity |].
  destruct (embedClient p w) as [[w1 ev1] r].
  specialize (IH w1). destruct (embedInOrder l w1) as [w2 o]. simpl in *.
  congruence.
Qed.


End SchedulerFacts.

(** ** The file export *)

Section ExportFacts.
Context `{EmbeddingsModel}.

#[local] Arguments Nat.modulo : simpl never.

Lemma forallb_scheduler_app (a b : list Event) :
  forallb isSchedulerEvent a = true -> forallb isSchedulerEvent b = true ->
  forallb isSchedulerEvent (a ++ b) = true.
Proof. intros Ha Hb. rewrite forallb_app, Ha, Hb. reflexivity. Qed.

(** One pass through the body of the inner loop: the record is pushed, with
    its embedding or without, and one of the two counters moves. *)
Lemma export_embedProduct_run total st product w :
  exists ev st',
    ExportToJson.embedProduct total st product w
    = (fst (fst (embedClient product w)), ev, inr st')
    /\ forallb isSchedulerEvent ev = true
    /\ ExportToJson.productsWithEmbeddings st'
       = ExportToJson.productsWithEmbeddings st
           ++ [delivered (product,
                          match snd (embedClient product w) with
                          | inr e => Some e
                          | inl _ => None
                          end)]
    /\ ExportToJson.successCount st'
       = ExportToJson.successCount st
           + (match snd (embedClient product w) with inr _ => 1 | inl _ => 0 end)
    /\ ExportToJson.failCount st'
       = ExportToJson.failCount st
           + (match snd (embedClient product w) with inr _ => 0 | inl _ => 1 end).
Proof.
  unfold ExportToJson.embedProduct, bind, tryCatch.
  change (retryWithBackoff (embeddings_embedQuery (MongoProduct.embedding_text product))
            defaultMaxRetries) with (embedClient product).
  destruct (embedClient_frame product w) as [_ Hev].
  apply client_events_are_scheduler_events in Hev.
  destruct (embedClient product w) as [[w1 ev1] [error|embedding]]; simpl in *.
  - eexists. eexists. split; [reflexivity |]. simpl.
    repeat split; try lia.
    apply forallb_scheduler_app; [exact Hev | reflexivity].
  - destruct ((ExportToJson.successCount st + 1) mod 10 =? 0)%nat; simpl;
      (eexists; eexists; split; [reflexivity |]); simpl;
      (repeat split; try lia);
      (apply forallb_scheduler_app; [exact Hev | reflexivity]).
Qed.

Lemma export_forOf_run total batch : forall st w,
  exists ev st',
    forOf batch (ExportToJson.embedProduct total) st w
    = (fst (embedInOrder batch w), ev, inr st')
    /\ forallb isSchedulerEvent ev = true
    /\ ExportToJson.productsWithEmbeddings st'
       = ExportToJson.productsWithEmbeddings st ++ map delivered (snd (embedInOrder batch w))
    /\ ExportToJson.successCount st'
       = ExportToJson.successCount st + successes (snd (embedInOrder batch w))
    /\ ExportToJson.failCount st'
       = ExportToJson.failCount st + failures (snd (embedInOrder batch w)).
Proof.
  induction batch as [|product rest IH]; intros st w.
  - exists [], st. simpl. rewrite app_nil_r. unfold successes, failures. simpl.
    repeat split; lia.
  - destruct (export_embedProduct_run total st product w)
      as (ev1 & st1 & Hrun1 & Hev1 & Hp1 & Hs1 & Hf1).
    cbn [forOf]. unfold bind at 1. rewrite Hrun1.
    cbn [embedInOrder].
    destruct (embedClient product w) as [[w1 evc] r]. cbn [fst snd] in *.
    destruct (IH st1 w1) as (ev2 & st2 & Hrun2 & Hev2 & Hp2 & Hs2 & Hf2).
    rewrite Hrun2.
    destruct (embedInOrder rest w1) as [w2 outcomes]. cbn [fst snd] in *.
    exists (ev1 ++ ev2), st2. split; [reflexivity |].
    split; [apply forallb_scheduler_app; assumption |].
    rewrite Hp2, Hp1, Hs2, Hs1, Hf2, Hf1. unfold successes, failures, succeeded.
    destruct r; simpl; rewrite <- app_assoc; repeat split; lia.
Qed.

(** The batch loop, given enough fuel for the records from [i] on, visits
    exactly those records, in order. *)
Lemma export_batchLoop_run mongoProducts fuel : forall i st w,
  List.length mongoProducts - i <= fuel ->
  exists ev st',
    ExportToJson.batchLoop mongoProducts fuel i st w
    = (fst (embedInOrder (skipn i mongoProducts) w), ev, inr st')
    /\ forallb isSchedulerEvent ev = true
    /\ ExportToJson.productsWithEmbeddings st'
       = ExportToJson.productsWithEmbeddings st
           ++ map delivered (snd (embedInOrder (skipn i mongoProducts) w))
    /\ ExportToJson.successCount st'
       = ExportToJson.successCount st
           + successes (snd (embedInOrder (skipn i mongoProducts) w))
    /\ ExportToJson.failCount st'
       = ExportToJson.failCount st
           + failures (snd (embedInOrder (skipn i mongoProducts) w)).
Proof.
  induction fuel as [|fuel IH]; intros i st w Hfuel.
  - rewrite skipn_all2 by lia.
    exists [], st. simpl. rewrite app_nil_r. unfold successes, failures. simpl.
    repeat split; lia.
  - cbn [ExportToJson.batchLoop].
    destruct (i <? List.length mongoProducts)%nat eqn:Ei.
    + apply Nat.ltb_lt in Ei.
      set (tail := skipn i mongoProducts).
      assert (Hsplit : tail
                       = slice mongoProducts i (i + ExportToJson.BATCH_SIZE)
                           ++ skipn (i + ExportToJson.BATCH_SIZE) mongoProducts).
      { unfold tail, slice.
        replace (i + ExportToJson.BATCH_SIZE - i) with ExportToJson.BATCH_SIZE by lia.
        rewrite (Nat.add_comm i), <- skipn_skipn. symmetry. apply firstn_skipn. }
      rewrite Hsplit. rewrite embedInOrder_app. cbn [fst snd].
      destruct (export_forOf_run (List.length mongoProducts)
                  (slice mongoProducts i (i + ExportToJson.BATCH_SIZE)) st w)
        as (ev1 & st1 & Hrun1 & Hev1 & Hp1 & Hs1 & Hf1).
      unfold bind at 1. rewrite Hrun1.
      set (w1 := fst (embedInOrder (slice mongoProducts i (i + ExportToJson.BATCH_SIZE)) w)) in *.
      destruct (IH (i + ExportToJson.BATCH_SIZE) st1 w1) as (ev2 & st2 & Hrun2 & Hev2 & Hp2 & Hs2 & Hf2).
      { unfold ExportToJson.BATCH_SIZE. lia. }
      unfold bind.
      destruct (i + ExportToJson.BATCH_SIZE <? List.length mongoProducts)%nat;
        cbn [console setTimeout emit ret]; rewrite Hrun2;
        eexists; exists st2; (split; [reflexivity |]);
        (split; [repeat (apply forallb_scheduler_app; try assumption; try reflexivity) |]);
        rewrite Hp2, Hp1, Hs2, Hs1, Hf2, Hf1;
        unfold successes, failures; rewrite !filter_app, !length_app, map_app, app_assoc;
        repeat split; lia.
    + apply Nat.ltb_ge in Ei. rewrite skipn_all2 by lia.
      exists [], st. simpl. rewrite app_nil_r. unfold successes, failures. simpl.
      repeat split; lia.
Qed.

End ExportFacts.

Section ExportRun.
Context `{EmbeddingsModel}.

Lemma embedInOrder_keeps_fsFault l w : fsFault (fst (embedInOrder l w)) = fsFault w.
Proof. rewrite embedInOrder_frame. reflexivity. Qed.

(** The whole run over a non-empty extraction: the scheduler, then the one
    write, then the report (or the failure of the write). *)
Lemma exportToJson_run (w : World) (rows : list SQLiteProduct.t) :
  truthy (env_GOOGLE_API_KEY w) = true ->
  sqlite w = Rows rows ->
  rows <> [] ->
  exists ev,
    forallb isSchedulerEvent ev = true
    /\ In (Log (GeneratingEmbeddings (List.length rows))) ev
    /\ ExportToJson.exportToJson w
       = match fsFault w with
         | None =>
             (setOutputFile
                (fst (embedInOrder (map ExportToJson.transformProduct rows) w))
                (Some (map delivered
                         (snd (embedInOrder (map ExportToJson.transformProduct rows) w)))),
              ev ++ [WriteFile ExportToJson.outputPath
                       (map delivered
                          (snd (embedInOrder (map ExportToJson.transformProduct rows) w)));
                     Log (ReportSucceeded
                            (successes
                               (snd (embedInOrder (map ExportToJson.transformProduct rows) w))));
                     Log (ReportFailed
                            (failures
                               (snd (embedInOrder (map ExportToJson.transformProduct rows) w))))],
              inr tt)
         | Some (WriteThrows e truncated) =>
             (if truncated
              then setOutputFile
                     (fst (embedInOrder (map ExportToJson.transformProduct rows) w)) None
              else fst (embedInOrder (map ExportToJson.transformProduct rows) w),
              ev ++ [WriteFile ExportToJson.outputPath
                       (map delivered
                          (snd (embedInOrder (map ExportToJson.transformProduct rows) w)));
                     Log RunFailed],
              inl e)
         | Some (StatThrows e) =>
             (setOutputFile
                (fst (embedInOrder (map ExportToJson.transformProduct rows) w))
                (Some (map delivered
                         (snd (embedInOrder (map ExportToJson.transformProduct rows) w)))),
              ev ++ [WriteFile ExportToJson.outputPath
                       (map delivered
                          (snd (embedInOrder (map ExportToJson.transformProduct rows) w)));
                     Log RunFailed],
              inl e)
         end.
Proof.
  intros Henv Hsql Hne.
  set (mongoProducts := map ExportToJson.transformProduct rows).
  destruct (@export_batchLoop_run _ _ mongoProducts (List.length mongoProducts) 0
              {| ExportToJson.productsWithEmbeddings := [];
                 ExportToJson.successCount := 0;
                 ExportToJson.failCount := 0 |} w ltac:(lia))
    as (evB & st & Hloop & HevB & Hp & Hs & Hf).
  cbn [skipn ExportToJson.productsWithEmbeddings ExportToJson.successCount
       ExportToJson.failCount app Nat.add] in *.
  pose proof (embedInOrder_keeps_fsFault mongoProducts w) as Hfault.
  exists ([Log (Extracted (List.length rows)); Log (Transformed (List.length mongoProducts));
           Log (GeneratingEmbeddings (List.length mongoProducts))] ++ evB).
  split; [apply forallb_scheduler_app; [reflexivity | exact HevB] |].
  split; [unfold mongoProducts; rewrite length_map; simpl; auto |].
  unfold ExportToJson.exportToJson, bind at 1, getWorld.
  rewrite Henv. cbn [negb].
  unfold bind at 1, tryCatch, bind at 1, ExportToJson.extractProductsFromSQLite,
    bind at 1, getWorld.
  rewrite Hsql. unfold bind at 1, console, emit, ret.
  destruct rows as [|row rows']; [congruence |].
  cbn [List.length Nat.eqb].
  fold mongoProducts.
  unfold bind. rewrite Hloop.
  unfold ExportToJson.writeFileSync, ExportToJson.statSync.
  cbn [fsFault setOutputFile]. rewrite Hfault.
  rewrite <- Hp, <- Hs, <- Hf.
  destruct (fsFault w) as [[e [|]|e]|]; cbv beta iota zeta delta [throw];
    cbn [fsFault setOutputFile]; rewrite ?Hfault; cbv beta iota zeta;
    cbn [app]; rewrite ?app_nil_r, <- ?app_assoc; reflexivity.
Qed.

(** The run hands exactly one sequence to [writeFileSync]. *)
Lemma exportToJson_writes_once (w : World) (rows : list SQLiteProduct.t) :
  truthy (env_GOOGLE_API_KEY w) = true ->
  sqlite w = Rows rows ->
  rows <> [] ->
  written (snd (fst (ExportToJson.exportToJson w)))
  = [map delivered (snd (embedInOrder (map ExportToJson.transformProduct rows) w))].
Proof.
  intros Henv Hsql Hne.
  destruct (exportToJson_run w Henv Hsql Hne) as (ev & Hev & _ & Hrun).
  rewrite Hrun.
  destruct (fsFault w) as [[e truncated|e]|]; cbn [fst snd]; rewrite written_app,
    (scheduler_events_write_nothing _ Hev); reflexivity.
Qed.

End ExportRun.


(** C8.  When the extraction yields no row, either script logs that nothing
    was found and ends normally: the world is left as it was, so the output
    file is not written and the collection is not touched, and the trace
    holds neither a call of the embedding provider nor a write (nor, for the
    migration, any driver call). *)
Theorem empty_extraction_ends_quietly `{EmbeddingsModel} (w : World) :
  sqlite w = Rows [] ->
  truthy (env_GOOGLE_API_KEY w) = true ->
  (ExportToJson.exportToJson w = (w, [Log (Extracted 0); Log NoProductsFound], inr tt)
   /\ embedQueries (snd (fst (ExportToJson.exportToJson w))) = []
   /\ written (snd (fst (ExportToJson.exportToJson w))) = []
   /\ outputFile (fst (fst (ExportToJson.exportToJson w))) = outputFile w)
  /\ (truthy (env_MONGODB_ATLAS_URI w) = true ->
      Migrate.migrate w = (w, [Log (Extracted 0); Log NoProductsFound], inr tt)
      /\ embedQueries (snd (fst (Migrate.migrate w))) = []
      /\ mongo (fst (fst (Migrate.migrate w))) = mongo w).
Proof.
  intros Hsql Hkey.
  assert (He : ExportToJson.exportToJson w
               = (w, [Log (Extracted 0); Log NoProductsFound], inr tt)).
  { unfold ExportToJson.exportToJson, bind, getWorld, tryCatch,
      ExportToJson.extractProductsFromSQLite, bind, getWorld.
    rewrite Hkey. cbn [negb]. rewrite Hsql. reflexivity. }
  split.
  - rewrite He. repeat split; reflexivity.
  - intros Huri.
    assert (Hm : Migrate.migrate w
                 = (w, [Log (Extracted 0); Log NoProductsFound], inr tt)).
    { unfold Migrate.migrate, bind, getWorld, tryCatch,
        Migrate.extractProductsFromSQLite, bind, getWorld.
      rewrite Huri, Hkey. cbn [negb]. rewrite Hsql. reflexivity. }
    rewrite Hm. repeat split; reflexivity.
Qed.

Lemma empty_extraction_ends_quietly_witness :
  ExportToJson.exportToJson
    (Reference.world (Reference.rejecting "none") tt (Rows [])
       (Reference.server [] true []))
  = (Reference.world (Reference.rejecting "none") tt (Rows [])
       (Reference.server [] true []),
     [Log (Extracted 0); Log NoProductsFound], inr tt).
Proof.
  refine (proj1 (proj1 (@empty_extraction_ends_quietly _ (Reference.rejecting "none")
                          (Reference.world (Reference.rejecting "none") tt (Rows [])
                             (Reference.server [] true [])) _ _))); reflexivity.
Defined.

(** ** The migration *)

Section TraceFacts.
Context `{JSRuntime}.

Lemma insertAttempts_app (a b : list Event) :
  insertAttempts (a ++ b) = insertAttempts a ++ insertAttempts b.
Proof. apply flat_map_app. Qed.

Lemma insertedDocuments_app (a b : list Event) :
  insertedDocuments (a ++ b) = insertedDocuments a ++ insertedDocuments b.
Proof. apply flat_map_app. Qed.

Lemma count_app f (a b : list Event) : count f (a ++ b) = count f a + count f b.
Proof. unfold count. rewrite filter_app, length_app. reflexivity. Qed.

(** An attempt that was not accepted was rejected. *)
Lemma attempts_accepted_or_rejected (ev : list Event) :
  List.length (insertAttempts ev)
  = List.length (insertedDocuments ev) + count isRejectedInsert ev.
Proof.
  unfold count.
  induction ev as [|e ev IH]; [reflexivity |].
  destruct e as [ms | text | [ | | | name | | doc | | | ] [err|] | path content | line];
    simpl in *; lia.
Qed.

Lemma no_attempt_no_insert (ev : list Event) :
  insertAttempts ev = [] -> insertedDocuments ev = [] /\ count isRejectedInsert ev = 0.
Proof.
  intros Hnone. pose proof (attempts_accepted_or_rejected ev) as Hsum.
  rewrite Hnone in Hsum. simpl in Hsum.
  split; [| lia].
  destruct (insertedDocuments ev); [reflexivity | simpl in Hsum; lia].
Qed.

Lemma scheduler_events_no_driver (ev : list Event) :
  forallb isSchedulerEvent ev = true ->
  insertAttempts ev = [] /\ filter isPurge ev = [].
Proof.
  induction ev as [|e ev IH]; simpl; [auto |].
  intros Hall. apply andb_true_iff in Hall. destruct Hall as [He Hev].
  destruct (IH Hev) as [Ha Hp].
  destruct e; try discriminate; simpl; auto.
Qed.

End TraceFacts.

Section StepFacts.
Context `{EmbeddingsModel}.

Lemma setMongo_same (w : World) : setMongo w (mongo w) = w.
Proof. destruct w; reflexivity. Qed.

Lemma admin_ret {A} (a : A) : AdminStep (ret a).
Proof.
  intros w w1 ev r Hrun. inversion Hrun; subst.
  rewrite setMongo_same. auto.
Qed.

Lemma admin_throw {A} (e : JSError) : AdminStep (@throw _ _ A e).
Proof.
  intros w w1 ev r Hrun. inversion Hrun; subst.
  rewrite setMongo_same. auto.
Qed.

Lemma admin_console line : AdminStep (console line).
Proof.
  intros w w1 ev r Hrun. inversion Hrun; subst.
  rewrite setMongo_same. auto.
Qed.

Lemma admin_bind {A B} (m : M A) (k : A -> M B) :
  AdminStep m -> (forall a, AdminStep (k a)) -> AdminStep (bind m k).
Proof.
  intros Hm Hk w w2 ev r Hrun. unfold bind in Hrun.
  destruct (m w) as [[w1 ev1] [e|a]] eqn:Em.
  - inversion Hrun; subst. exact (Hm _ _ _ _ Em).
  - destruct (k a w1) as [[w2' ev2] r2] eqn:Ek. inversion Hrun; subst.
    destruct (Hm _ _ _ _ Em) as (Hw1 & Hd1 & Ha1 & Hp1).
    destruct (Hk a _ _ _ _ Ek) as (Hw2 & Hd2 & Ha2 & Hp2).
    repeat split.
    + rewrite Hw2 at 1. rewrite Hw1. reflexivity.
    + congruence.
    + rewrite insertAttempts_app, Ha1, Ha2. reflexivity.
    + rewrite filter_app, Hp1, Hp2. reflexivity.
Qed.

Lemma admin_tryCatch {A} (m : M A) : AdminStep m -> AdminStep (tryCatch m).
Proof.
  intros Hm w w1 ev r Hrun. unfold tryCatch in Hrun.
  destruct (m w) as [[w1' ev1] r1] eqn:Em. inversion Hrun; subst.
  exact (Hm _ _ _ _ Em).
Qed.

Lemma admin_event (call : MongoCall) (r : option JSError) :
  (forall doc, call <> InsertOne doc) -> call <> DeleteMany ->
  insertAttempts [Mongo call r] = [] /\ filter isPurge [Mongo call r] = [].
Proof.
  intros Hins Hdel.
  destruct call; simpl; auto; exfalso; [apply Hdel | eapply Hins]; reflexivity.
Qed.

Lemma admin_driverCall {A} (call : MongoCall) (op : MongoServer -> MongoServer * Result A) :
  (forall srv, documents (fst (op srv)) = documents srv) ->
  (forall doc, call <> InsertOne doc) -> call <> DeleteMany ->
  AdminStep (driverCall call op).
Proof.
  intros Hop Hins Hdel w w1 ev r Hrun. unfold driverCall in Hrun.
  destruct (faults (mongo w)) as [|[e|] rest] eqn:Ef.
  - specialize (Hop (setFaults (mongo w) (tl []))).
    destruct (op (setFaults (mongo w) (tl []))) as [srv' r'].
    inversion Hrun; subst.
    destruct (admin_event (match r with inl e => Some e | inr _ => None end) Hins Hdel).
    auto.
  - inversion Hrun; subst.
    destruct (admin_event (Some e) Hins Hdel). auto.
  - specialize (Hop (setFaults (mongo w) (tl (None :: rest)))).
    destruct (op (setFaults (mongo w) (tl (None :: rest)))) as [srv' r'].
    inversion Hrun; subst.
    destruct (admin_event (match r with inl e => Some e | inr _ => None end) Hins Hdel).
    auto.
Qed.

Ltac admin_call := apply admin_driverCall; [reflexivity | discriminate | discriminate].

Lemma admin_ensureVectorSearchIndex : AdminStep Migrate.ensureVectorSearchIndex.
Proof.
  unfold Migrate.ensureVectorSearchIndex.
  apply admin_bind.
  - apply admin_tryCatch, admin_bind.
    + admin_call.
    + intros indexes. destruct (existsb (String.eqb "vector_index") indexes).
      * apply admin_console.
      * apply admin_bind; [admin_call |].
        intros _. apply admin_console.
  - intros [error|u]; [apply admin_console | apply admin_ret].
Qed.

Lemma admin_verifyMigration : AdminStep Migrate.verifyMigration.
Proof.
  unfold Migrate.verifyMigration.
  apply admin_bind; [admin_call |]. intros total.
  apply admin_bind; [admin_call |]. intros withEmbeddings.
  apply admin_bind; [apply admin_console |]. intros _.
  apply admin_bind; [admin_call |]. intros sample.
  apply admin_ret.
Qed.

End StepFacts.

Section MigrateLoops.
Context `{EmbeddingsModel}.

(** The Embedding Client does not look at the server. *)
Lemma retryLoop_embed_setMongo text maxRetries srv remaining : forall attempt w,
  retryLoop (embeddings_embedQuery text) maxRetries remaining attempt (setMongo w srv)
  = (setMongo (fst (fst (retryLoop (embeddings_embedQuery text) maxRetries remaining attempt w))) srv,
     snd (fst (retryLoop (embeddings_embedQuery text) maxRetries remaining attempt w)),
     snd (retryLoop (embeddings_embedQuery text) maxRetries remaining attempt w)).
Proof.
  induction remaining as [|k IH]; intros attempt w; [reflexivity |].
  cbn [retryLoop]. unfold embeddings_embedQuery at 1 3 5 7.
  cbn [embeddings setMongo].
  destruct (embedQuery text (embeddings w)) as [p [error|v]]; [| reflexivity].
  destruct (strictEq (status error) 429 && (attempt <? maxRetries)%Z); [| reflexivity].
  change (setEmbeddings (setMongo w srv) p) with (setMongo (setEmbeddings w p) srv).
  rewrite IH.
  destruct (retryLoop (embeddings_embedQuery text) maxRetries k (attempt + 1)
              (setEmbeddings w p)) as [[w2 ev2] r2].
  reflexivity.
Qed.

Lemma embedClient_setMongo product srv w :
  embedClient product (setMongo w srv)
  = (setMongo (fst (fst (embedClient product w))) srv,
     snd (fst (embedClient product w)), snd (embedClient product w)).
Proof.
  unfold embedClient, retryWithBackoff. rewrite retryLoop_embed_setMongo.
  destruct (retryLoop (embeddings_embedQuery (MongoProduct.embedding_text product))
              defaultMaxRetries (Z.to_nat defaultMaxRetries) 1 w) as [[w' ev] [v|e|]];
    reflexivity.
Qed.

Lemma embedInOrder_setMongo l srv : forall w,
  embedInOrder l (setMongo w srv)
  = (setMongo (fst (embedInOrder l w)) srv, snd (embedInOrder l w)).
Proof.
  induction l as [|p l IH]; intros w; [reflexivity |].
  cbn [embedInOrder]. rewrite embedClient_setMongo.
  destruct (embedClient p w) as [[w1 ev1] r]. cbn [fst snd].
  rewrite IH. destruct (embedInOrder l w1) as [w2 o]. reflexivity.
Qed.

(** One pass through the body of the loop of [generateEmbeddingsForBatch]:
    the record is pushed when its call succeeded and skipped otherwise. *)
Lemma migrate_embedProduct_run acc product w :
  exists ev,
    Migrate.embedProduct acc product w
    = (fst (fst (embedClient product w)), ev,
       inr (acc ++ kept [(product,
                          match snd (embedClient product w) with
                          | inr e => Some e
                          | inl _ => None
                          end)]))
    /\ forallb isSchedulerEvent ev = true.
Proof.
  unfold Migrate.embedProduct, bind, console, emit, tryCatch.
  change (retryWithBackoff (embeddings_embedQuery (MongoProduct.embedding_text product))
            defaultMaxRetries) with (embedClient product).
  destruct (embedClient_frame product w) as [_ Hev].
  apply client_events_are_scheduler_events in Hev.
  destruct (embedClient product w) as [[w1 ev1] [error|embedding]]; cbn [fst snd] in *;
    (eexists; split; [unfold kept; cbn [flat_map fst snd app]; rewrite ?app_nil_r; reflexivity |]);
    cbn [app forallb isSchedulerEvent andb];
    repeat (apply forallb_scheduler_app; try assumption; try reflexivity).
Qed.

(** [generateEmbeddingsForBatch] never throws and returns the records whose
    embedding call succeeded. *)
Lemma migrate_forOf_embed batch : forall acc w,
  exists ev,
    forOf batch Migrate.embedProduct acc w
    = (fst (embedInOrder batch w), ev, inr (acc ++ kept (snd (embedInOrder batch w))))
    /\ forallb isSchedulerEvent ev = true.
Proof.
  induction batch as [|product rest IH]; intros acc w.
  - exists []. simpl. rewrite app_nil_r. auto.
  - destruct (migrate_embedProduct_run acc product w) as (ev1 & Hrun1 & Hev1).
    cbn [forOf embedInOrder]. unfold bind. rewrite Hrun1.
    destruct (embedClient product w) as [[w1 evc] r]. cbn [fst snd] in *.
    destruct (IH (acc ++ kept [(product, match r with inr e => Some e | inl _ => None end)]) w1)
      as (ev2 & Hrun2 & Hev2).
    rewrite Hrun2.
    destruct (embedInOrder rest w1) as [w2 outcomes]. cbn [fst snd] in *.
    exists (ev1 ++ ev2). split.
    + unfold kept. cbn [flat_map]. rewrite app_nil_r, <- app_assoc. reflexivity.
    + apply forallb_scheduler_app; assumption.
Qed.

Lemma generateEmbeddingsForBatch_run batch w :
  exists ev,
    Migrate.generateEmbeddingsForBatch batch w
    = (fst (embedInOrder batch w), ev, inr (kept (snd (embedInOrder batch w))))
    /\ forallb isSchedulerEvent ev = true.
Proof. exact (migrate_forOf_embed batch [] w). Qed.

(** One pass through the body of the insert loop. *)
Lemma insertProduct_run st product w :
  exists srv ev st',
    Migrate.insertProduct st product w = (setMongo w srv, ev, inr st')
    /\ documents srv = documents (mongo w) ++ insertedDocuments ev
    /\ insertAttempts ev = [product]
    /\ filter isPurge ev = []
    /\ Migrate.success st' = Migrate.success st + List.length (insertedDocuments ev)
    /\ Migrate.failed st' = Migrate.failed st + count isRejectedInsert ev
    /\ count (isLog isDuplicateSkipped) ev + count (isLog isInsertFailed) ev
       = count isRejectedInsert ev
    /\ count (isLog isDuplicateSkipped) ev = count isDuplicateKeyRejection ev.
Proof.
  unfold Migrate.insertProduct, bind, tryCatch, collection_insertOne, driverCall.
  destruct (faults (mongo w)) as [|[e|] rest]; cbn [tl].
  - destruct (uniqueSku (setFaults (mongo w) [])
              && existsb (fun d => String.eqb (MongoProduct.sku d) (MongoProduct.sku product))
                   (documents (setFaults (mongo w) [])));
      (do 3 eexists; split; [reflexivity |]); unfold count; simpl; rewrite ?app_nil_r;
      repeat split; try reflexivity; try lia.
  - destruct (strictEq (code e) 11000) eqn:Ecode;
      (do 3 eexists; split; [reflexivity |]); unfold count; simpl; rewrite ?Ecode, ?app_nil_r;
      repeat split; try reflexivity; try lia.
  - destruct (uniqueSku (setFaults (mongo w) rest)
              && existsb (fun d => String.eqb (MongoProduct.sku d) (MongoProduct.sku product))
                   (documents (setFaults (mongo w) rest)));
      (do 3 eexists; split; [reflexivity |]); unfold count; simpl; rewrite ?app_nil_r;
      repeat split; try reflexivity; try lia.
Qed.

Lemma insert_forOf_run products : forall st w,
  exists srv ev st',
    forOf products Migrate.insertProduct st w = (setMongo w srv, ev, inr st')
    /\ documents srv = documents (mongo w) ++ insertedDocuments ev
    /\ insertAttempts ev = products
    /\ filter isPurge ev = []
    /\ Migrate.success st' = Migrate.success st + List.length (insertedDocuments ev)
    /\ Migrate.failed st' = Migrate.failed st + count isRejectedInsert ev
    /\ count (isLog isDuplicateSkipped) ev + count (isLog isInsertFailed) ev
       = count isRejectedInsert ev
    /\ count (isLog isDuplicateSkipped) ev = count isDuplicateKeyRejection ev.
Proof.
  induction products as [|product rest IH]; intros st w.
  - exists (mongo w), [], st. unfold count. simpl. rewrite setMongo_same, app_nil_r.
    repeat split; try reflexivity; lia.
  - destruct (insertProduct_run st product w)
      as (srv1 & ev1 & st1 & Hrun1 & Hd1 & Ha1 & Hp1 & Hs1 & Hf1 & Hl1 & Hk1).
    destruct (IH st1 (setMongo w srv1))
      as (srv2 & ev2 & st2 & Hrun2 & Hd2 & Ha2 & Hp2 & Hs2 & Hf2 & Hl2 & Hk2).
    cbn [forOf]. unfold bind. rewrite Hrun1, Hrun2.
    exists srv2, (ev1 ++ ev2), st2. split; [reflexivity |].
    cbn [mongo setMongo] in Hd2.
    rewrite insertedDocuments_app, insertAttempts_app, filter_app, !count_app, length_app.
    rewrite Hd2, Hd1, Ha1, Ha2, Hp1, Hp2, Hs2, Hs1, Hf2, Hf1, <- Hl1, <- Hl2, <- Hk1, <- Hk2,
      <- app_assoc.
    repeat split; lia.
Qed.

Lemma insertProductsToMongo_run products w :
  exists srv ev res,
    Migrate.insertProductsToMongo products w = (setMongo w srv, ev, inr res)
    /\ documents srv = documents (mongo w) ++ insertedDocuments ev
    /\ insertAttempts ev = products
    /\ filter isPurge ev = []
    /\ Migrate.success res = List.length (insertedDocuments ev)
    /\ Migrate.failed res = count isRejectedInsert ev
    /\ count (isLog isDuplicateSkipped) ev + count (isLog isInsertFailed) ev
       = count isRejectedInsert ev
    /\ count (isLog isDuplicateSkipped) ev = count isDuplicateKeyRejection ev.
Proof.
  destruct (insert_forOf_run products {| Migrate.success := 0; Migrate.failed := 0 |} w)
    as (srv & ev & res & Hrun & Hd & Ha & Hp & Hs & Hf & Hl & Hk).
  unfold Migrate.insertProductsToMongo, bind, console, emit. rewrite Hrun.
  exists srv, (Log (Inserting (List.length products)) :: ev), res.
  split; [reflexivity |]. simpl in *. auto 10.
Qed.

End MigrateLoops.

Section MigrateRun.
Context `{EmbeddingsModel}.

Lemma kept_app (a b : list Outcome) : kept (a ++ b) = kept a ++ kept b.
Proof. apply flat_map_app. Qed.

Lemma embedInOrder_keeps_mongo l w : mongo (fst (embedInOrder l w)) = mongo w.
Proof. rewrite embedInOrder_frame. reflexivity. Qed.

(** Step 7, given enough fuel for the records from [i] on: the records whose
    embedding call succeeded are handed to [insertOne], in order, and nothing
    else reaches the collection. *)
Lemma migrate_batchLoop_run mongoProducts fuel : forall i totals w,
  List.length mongoProducts - i <= fuel ->
  exists srv ev totals',
    Migrate.batchLoop mongoProducts fuel i totals w
    = (setMongo (fst (embedInOrder (skipn i mongoProducts) w)) srv, ev, inr totals')
    /\ documents srv = documents (mongo w) ++ insertedDocuments ev
    /\ insertAttempts ev = kept (snd (embedInOrder (skipn i mongoProducts) w))
    /\ filter isPurge ev = []
    /\ Migrate.success totals'
       = Migrate.success totals + List.length (insertedDocuments ev)
    /\ Migrate.failed totals' = Migrate.failed totals + count isRejectedInsert ev.
Proof.
  induction fuel as [|fuel IH]; intros i totals w Hfuel.
  - rewrite skipn_all2 by lia.
    exists (mongo w), [], totals. unfold count. simpl.
    rewrite setMongo_same, app_nil_r. repeat split; lia.
  - cbn [Migrate.batchLoop].
    destruct (i <? List.length mongoProducts)%nat eqn:Ei.
    + apply Nat.ltb_lt in Ei.
      set (tail := skipn i mongoProducts).
      assert (Hsplit : tail
                       = slice mongoProducts i (i + Migrate.BATCH_SIZE)
                           ++ skipn (i + Migrate.BATCH_SIZE) mongoProducts).
      { unfold tail, slice.
        replace (i + Migrate.BATCH_SIZE - i) with Migrate.BATCH_SIZE by lia.
        rewrite (Nat.add_comm i), <- skipn_skipn. symmetry. apply firstn_skipn. }
      rewrite Hsplit, embedInOrder_app. cbn [fst snd].
      set (batch := slice mongoProducts i (i + Migrate.BATCH_SIZE)) in *.
      destruct (generateEmbeddingsForBatch_run batch w) as (ev1 & Hrun1 & Hev1).
      destruct (scheduler_events_no_driver _ Hev1) as [Ha1 Hp1].
      destruct (no_attempt_no_insert _ Ha1) as [Hi1 Hr1].
      pose proof (embedInOrder_keeps_mongo batch w) as Hm1.
      set (w1 := fst (embedInOrder batch w)) in *.
      destruct (insertProductsToMongo_run (kept (snd (embedInOrder batch w))) w1)
        as (srv2 & ev2 & res & Hrun2 & Hd2 & Ha2 & Hp2 & Hs2 & Hf2 & _).
      destruct (IH (i + Migrate.BATCH_SIZE)
                  {| Migrate.success := Migrate.success totals + Migrate.success res;
                     Migrate.failed := Migrate.failed totals + Migrate.failed res |}
                  (setMongo w1 srv2))
        as (srv3 & ev3 & totals3 & Hrun3 & Hd3 & Ha3 & Hp3 & Hs3 & Hf3).
      { unfold Migrate.BATCH_SIZE. lia. }
      rewrite embedInOrder_setMongo in Hrun3, Ha3. cbn [fst snd mongo setMongo] in *.
      unfold bind at 1. rewrite Hrun1.
      unfold bind at 1. rewrite Hrun2.
      unfold bind.
      destruct (i + Migrate.BATCH_SIZE <? List.length mongoProducts)%nat;
        cbn [console setTimeout emit ret]; rewrite Hrun3;
        exists srv3; eexists; exists totals3; (split; [reflexivity |]);
        rewrite !insertedDocuments_app, !insertAttempts_app, !filter_app, !count_app,
          !length_app, kept_app;
        rewrite Hd3, Hd2, Hm1, Ha1, Ha2, Ha3, Hp1, Hp2, Hp3, Hi1, Hr1, Hs3, Hf3, Hs2, Hf2;
        unfold count; cbn [app insertedDocuments insertAttempts flat_map filter isPurge
                             isRejectedInsert List.length Nat.add
                             Migrate.success Migrate.failed];
        rewrite ?app_nil_r, ?app_assoc; repeat split; lia.
    + apply Nat.ltb_ge in Ei. rewrite skipn_all2 by lia.
      exists (mongo w), [], totals. unfold count. simpl.
      rewrite setMongo_same, app_nil_r. repeat split; lia.
Qed.

Lemma bind_inr_inv {A B} (m : M A) (k : A -> M B) w w' ev b :
  bind m k w = (w', ev, inr b) ->
  exists w1 ev1 a ev2,
    m w = (w1, ev1, inr a) /\ k a w1 = (w', ev2, inr b) /\ ev = ev1 ++ ev2.
Proof.
  unfold bind. destruct (m w) as [[w1 ev1] [e|a]]; [discriminate |].
  destruct (k a w1) as [[w2 ev2] r] eqn:Ek. intros Hrun. inversion Hrun; subst.
  exists w1, ev1, a, ev2. auto.
Qed.

Lemma finally_inr_inv {A} (m : M A) (cleanup : M unit) w w' ev a :
  finally m cleanup w = (w', ev, inr a) ->
  exists w1 ev1 ev2,
    m w = (w1, ev1, inr a) /\ cleanup w1 = (w', ev2, inr tt) /\ ev = ev1 ++ ev2.
Proof.
  unfold finally. destruct (m w) as [[w1 ev1] r].
  destruct (cleanup w1) as [[w2 ev2] [e|[]]] eqn:Ec; [discriminate |].
  intros Hrun. inversion Hrun; subst. exists w1, ev1, ev2. auto.
Qed.

Lemma deleteMany_inr_inv w w1 ev n :
  collection_deleteMany w = (w1, ev, inr n) ->
  w1 = setMongo w (mongo w1) /\ documents (mongo w1) = [] /\ ev = [Mongo DeleteMany None].
Proof.
  unfold collection_deleteMany, driverCall.
  destruct (faults (mongo w)) as [|[e|] rest]; [| discriminate |];
    intros Hrun; inversion Hrun; subst; auto.
Qed.

End MigrateRun.

Section MigrateCompleted.
Context `{EmbeddingsModel}.

Lemma tryCatch_inv {A} (m : M A) w w1 ev r :
  tryCatch m w = (w1, ev, inr r) -> m w = (w1, ev, r).
Proof.
  unfold tryCatch. destruct (m w) as [[w2 ev2] r2]. intros Hrun. inversion Hrun. reflexivity.
Qed.

Lemma MongoClient_new_inv w w1 ev (r : Result unit) :
  MongoClient_new w = (w1, ev, r) ->
  w1 = w /\ ev = [] /\ (forall e, r = inl e -> mongoClientFault w = Some e).
Proof.
  unfold MongoClient_new. destruct (mongoClientFault w) as [e|]; intros Hrun;
    inversion Hrun; subst; repeat split; congruence.
Qed.

Lemma console_inv line w w1 ev (r : Result unit) :
  console line w = (w1, ev, r) -> w1 = w /\ ev = [Log line].
Proof. intros Hrun. inversion Hrun. auto. Qed.

Lemma admin_connect : AdminStep client_connect.
Proof. apply admin_driverCall; [reflexivity | discriminate | discriminate]. Qed.

Lemma admin_ping : AdminStep client_ping.
Proof. apply admin_driverCall; [reflexivity | discriminate | discriminate]. Qed.

Lemma admin_close : AdminStep client_close.
Proof. apply admin_driverCall; [reflexivity | discriminate | discriminate]. Qed.

Lemma driverCall_accepted {A} call (op : MongoServer -> MongoServer * Result A) w w1 ev a :
  driverCall call op w = (w1, ev, inr a) -> ev = [Mongo call None].
Proof.
  unfold driverCall.
  destruct (faults (mongo w)) as [|[e|] rest]; [| discriminate |];
    destruct (op _) as [srv' [e'|a']]; intros Hrun; inversion Hrun; reflexivity.
Qed.

(** A run of the migration that ends normally over a non-empty extraction:
    what precedes the purge, the purge, step 7, the verification, the report
    and the closing of the connection. *)
Lemma migrate_completed_run (w w' : World) (ev : list Event) (rows : list SQLiteProduct.t) :
  Migrate.migrate w = (w', ev, inr tt) ->
  sqlite w = Rows rows ->
  rows <> [] ->
  exists pre deleted loop verification,
    ev = pre ++ [Mongo DeleteMany None; Log (DeletedExisting deleted)] ++ loop
             ++ verification
             ++ [Log (ReportSucceeded (List.length (insertedDocuments loop)));
                 Log (ReportFailed (count isRejectedInsert loop));
                 Mongo Close None]
    /\ insertAttempts pre = [] /\ filter isPurge pre = []
    /\ insertAttempts verification = [] /\ filter isPurge verification = []
    /\ filter isPurge loop = []
    /\ insertAttempts loop
       = kept (snd (embedInOrder (map Migrate.transformProductToMongoSchema rows) w))
    /\ documents (mongo w') = insertedDocuments loop.
Proof.
  intros Hrun Hsql Hne.
  unfold Migrate.migrate in Hrun.
  apply bind_inr_inv in Hrun. destruct Hrun as (w0 & ev0 & a0 & evA & Hget & Hrun & ->).
  inversion Hget; subst w0 ev0 a0. clear Hget.
  destruct (truthy (env_MONGODB_ATLAS_URI w)); [| discriminate].
  destruct (truthy (env_GOOGLE_API_KEY w)); [| discriminate].
  cbn [negb] in Hrun.
  apply bind_inr_inv in Hrun. destruct Hrun as (w1 & ev1 & r1 & evB & Hext & Hrun & ->).
  apply tryCatch_inv in Hext.
  unfold Migrate.extractProductsFromSQLite, bind, getWorld in Hext.
  rewrite Hsql in Hext. cbn in Hext. inversion Hext; subst w1 ev1 r1. clear Hext.
  destruct rows as [|row rows']; [congruence |].
  cbn [List.length Nat.eqb] in Hrun.
  remember (map Migrate.transformProductToMongoSchema (row :: rows')) as mongoProducts
    eqn:Hproducts.
  apply bind_inr_inv in Hrun. destruct Hrun as (w2 & ev2 & [] & evC & Hlog & Hrun & ->).
  apply console_inv in Hlog. destruct Hlog as [-> ->].
  apply bind_inr_inv in Hrun. destruct Hrun as (wn & evn & client & evD & Hnew & Hrun & ->).
  apply tryCatch_inv in Hnew. apply MongoClient_new_inv in Hnew. destruct Hnew as (-> & -> & _).
  destruct client as [error|[]];
    [unfold bind, console, emit, throw in Hrun; discriminate |].
  apply finally_inr_inv in Hrun. destruct Hrun as (w3 & ev3 & ev4 & Hbody & Hclose & ->).
  apply bind_inr_inv in Hbody. destruct Hbody as (w4 & ev5 & r & ev6 & Hbody & Hend & ->).
  apply tryCatch_inv in Hbody.
  destruct r as [error|[]].
  { unfold bind, console, emit, throw in Hend. discriminate. }
  inversion Hend; subst w4 ev6. clear Hend.
  (* steps 3 to 8 *)
  apply bind_inr_inv in Hbody. destruct Hbody as (wa & eva & [] & evr1 & Hconnect & Hbody & ->).
  apply bind_inr_inv in Hbody. destruct Hbody as (wb & evb & [] & evr2 & Hping & Hbody & ->).
  apply bind_inr_inv in Hbody. destruct Hbody as (wc & evc & [] & evr3 & Hindex & Hbody & ->).
  apply bind_inr_inv in Hbody. destruct Hbody as (wd & evd & n & evr4 & Hpurge & Hbody & ->).
  apply bind_inr_inv in Hbody. destruct Hbody as (we & eve & [] & evr5 & Hlog & Hbody & ->).
  apply console_inv in Hlog. destruct Hlog as [-> ->].
  apply bind_inr_inv in Hbody. destruct Hbody as (wf & evf & totals & evr6 & Hloop & Hbody & ->).
  apply bind_inr_inv in Hbody. destruct Hbody as (wg & evg & [] & evr7 & Hverify & Hbody & ->).
  apply bind_inr_inv in Hbody. destruct Hbody as (wh & evh & [] & evr8 & Hlog1 & Hlog2 & ->).
  apply console_inv in Hlog1. destruct Hlog1 as [-> ->].
  apply console_inv in Hlog2. destruct Hlog2 as [-> ->].
  destruct (admin_connect _ Hconnect) as (Hwa & Hda & Haa & Hpa).
  destruct (admin_ping _ Hping) as (Hwb & Hdb & Hab & Hpb).
  destruct (admin_ensureVectorSearchIndex _ Hindex) as (Hwc & Hdc & Hac & Hpc).
  destruct (deleteMany_inr_inv _ Hpurge) as (Hwd & Hdd & ->).
  destruct (admin_verifyMigration _ Hverify) as (Hwg & Hdg & Hag & Hpg).
  destruct (admin_close _ Hclose) as (Hw' & Hd' & Ha' & Hp').
  apply driverCall_accepted in Hclose. subst ev4.
  destruct (@migrate_batchLoop_run _ _ mongoProducts (List.length mongoProducts) 0
              {| Migrate.success := 0; Migrate.failed := 0 |} wd ltac:(lia))
    as (srv & evl & totals' & Hloop' & Hdl & Hal & Hpl & Hsl & Hfl).
  rewrite Hloop in Hloop'. inversion Hloop'; subst wf evf totals. clear Hloop'.
  cbn [skipn Migrate.success Migrate.failed Nat.add] in *.
  assert (Hwd' : wd = setMongo w (mongo wd)).
  { rewrite Hwd at 1. rewrite Hwc at 1. rewrite Hwb at 1. rewrite Hwa at 1. reflexivity. }
  rewrite Hwd', embedInOrder_setMongo in Hal. cbn [snd] in Hal.
  rewrite Hdd in Hdl. cbn [app] in Hdl.
  exists ([Log (Extracted (List.length (row :: rows')));
           Log (Transformed (List.length mongoProducts))] ++ eva ++ evb ++ evc),
    n, evl, evg.
  rewrite Hsl, Hfl.
  split; [cbn [app]; rewrite <- !app_assoc; cbn [app]; rewrite <- !app_assoc; reflexivity |].
  rewrite !insertAttempts_app, !filter_app, Haa, Hab, Hac, Hpa, Hpb, Hpc.
  repeat split; try assumption.
  rewrite Hd', Hdg. cbn [mongo setMongo]. exact Hdl.
Qed.

End MigrateCompleted.

(** C2 (as the code has it).  [insertProductsToMongo] never throws: every
    record of the sequence is handed to [insertOne], in order, whatever
    happened to the records before it.  An insert rejected with the duplicate
    key code is logged as a skipped duplicate, any other rejection as a failed
    insert; both add one to the same [failed] counter, so [failed] is the
    number of rejected inserts and [success + failed] the number of records. *)
Theorem insert_failures_share_one_counter `{EmbeddingsModel}
    (products : list MongoProduct.t) (w : World) :
  exists w' ev res,
    Migrate.insertProductsToMongo products w = (w', ev, inr res)
    /\ insertAttempts ev = products
    /\ documents (mongo w') = documents (mongo w) ++ insertedDocuments ev
    /\ Migrate.success res = List.length (insertedDocuments ev)
    /\ count (isLog isDuplicateSkipped) ev = count isDuplicateKeyRejection ev
    /\ Migrate.failed res
       = count (isLog isDuplicateSkipped) ev + count (isLog isInsertFailed) ev
    /\ Migrate.success res + Migrate.failed res = List.length products.
Proof.
  destruct (insertProductsToMongo_run products w)
    as (srv & ev & res & Hrun & Hd & Ha & Hp & Hs & Hf & Hl & Hk).
  exists (setMongo w srv), ev, res.
  split; [exact Hrun |]. split; [exact Ha |]. split; [exact Hd |].
  split; [exact Hs |]. split; [exact Hk |]. split; [lia |].
  rewrite Hs, Hf, <- Ha. symmetry. apply attempts_accepted_or_rejected.
Qed.

(** C2 as stated fails: a duplicate key rejection is not counted apart from
    hard failures.  Inserting the lamp where it is already stored and
    inserting it while the server fails for another reason return the same
    counts, the duplicate being in [failed]. *)
Lemma duplicate_is_counted_as_failed :
  snd (Migrate.insertProductsToMongo [Reference.lamp] Reference.lampStored)
  = inr {| Migrate.success := 0; Migrate.failed := 1 |}
  /\ snd (fst (Migrate.insertProductsToMongo [Reference.lamp] Reference.lampStored))
     = [Log (Inserting 1);
        Mongo (InsertOne Reference.lamp) (Some duplicateKeyError);
        Log (DuplicateSkipped "SKU-1")]
  /\ snd (Migrate.insertProductsToMongo [Reference.lamp] Reference.writeFails)
     = inr {| Migrate.success := 0; Migrate.failed := 1 |}
  /\ snd (fst (Migrate.insertProductsToMongo [Reference.lamp] Reference.writeFails))
     = [Log (Inserting 1);
        Mongo (InsertOne Reference.lamp) (Some Reference.writeConcernError);
        Log (InsertFailed "SKU-1" "write concern failed")].
Proof. repeat split; reflexivity. Qed.

Section ReportFacts.
Context `{EmbeddingsModel}.


Lemma embedInOrder_length l w : List.length (snd (embedInOrder l w)) = List.length l.
Proof.
  transitivity (List.length (map fst (snd (embedInOrder l w)))).
  - symmetry. apply length_map.
  - rewrite embedInOrder_records. reflexivity.
Qed.

End ReportFacts.

(** C3 (as the code has it).  In a migration that ends normally over a
    non-empty extraction, the one [deleteMany] comes before every [insertOne],
    and at the end the collection holds exactly the documents whose insert was
    accepted during the run, in insertion order, whatever it held before. *)
Theorem purge_then_insert `{EmbeddingsModel}
    (w w' : World) (ev : list Event) (rows : list SQLiteProduct.t) :
  Migrate.migrate w = (w', ev, inr tt) ->
  sqlite w = Rows rows ->
  rows <> [] ->
  (exists pre post,
      ev = pre ++ Mongo DeleteMany None :: post
      /\ insertAttempts pre = []
      /\ filter isPurge pre = []
      /\ filter isPurge post = []
      /\ documents (mongo w') = insertedDocuments post)
  /\ documents (mongo w') = insertedDocuments ev.
Proof.
  intros Hrun Hsql Hne.
  destruct (@migrate_completed_run _ _ w w' ev rows Hrun Hsql Hne)
    as (pre & deleted & loop & verification & -> & Hap & Hpp & Hav & Hpv & Hpl & _ & Hdocs).
  destruct (no_attempt_no_insert _ Hap) as [Hip _].
  destruct (no_attempt_no_insert _ Hav) as [Hiv _].
  assert (Hpost : insertedDocuments
                    ([Log (DeletedExisting deleted)] ++ loop ++ verification
                       ++ [Log (ReportSucceeded (List.length (insertedDocuments loop)));
                           Log (ReportFailed (count isRejectedInsert loop));
                           Mongo Close None])
                  = insertedDocuments loop).
  { rewrite !insertedDocuments_app, Hiv. simpl. apply app_nil_r. }
  split.
  - exists pre,
      ([Log (DeletedExisting deleted)] ++ loop ++ verification
         ++ [Log (ReportSucceeded (List.length (insertedDocuments loop)));
             Log (ReportFailed (count isRejectedInsert loop));
             Mongo Close None]).
    split; [reflexivity |]. split; [exact Hap |]. split; [exact Hpp |]. split.
    + rewrite !filter_app, Hpl, Hpv. reflexivity.
    + rewrite Hpost. exact Hdocs.
  - rewrite Hdocs.
    change (pre ++ [Mongo DeleteMany None; Log (DeletedExisting deleted)] ++ loop
              ++ verification
              ++ [Log (ReportSucceeded (List.length (insertedDocuments loop)));
                  Log (ReportFailed (count isRejectedInsert loop));
                  Mongo Close None])
      with (pre ++ [Mongo DeleteMany None]
              ++ [Log (DeletedExisting deleted)] ++ loop ++ verification
              ++ [Log (ReportSucceeded (List.length (insertedDocuments loop)));
                  Log (ReportFailed (count isRejectedInsert loop));
                  Mongo Close None]).
    rewrite insertedDocuments_app, Hip, insertedDocuments_app, Hpost. reflexivity.
Qed.

Lemma run_with_result {W E R : Type} (x : W * E * R) (r : R) :
  snd x = r -> x = (fst (fst x), snd (fst x), r).
Proof. destruct x as [[w ev] r']. simpl. intros ->. reflexivity. Qed.

Lemma purge_then_insert_witness :
  documents (mongo Reference.rerun) = [Reference.oldDocument]
  /\ map MongoProduct.sku (documents (mongo (fst (fst (Migrate.migrate Reference.rerun)))))
     = ["SKU-1"; "SKU-3"]
  /\ documents (mongo (fst (fst (Migrate.migrate Reference.rerun))))
     = insertedDocuments (snd (fst (Migrate.migrate Reference.rerun))).
Proof.
  split; [reflexivity |]. split; [vm_compute; reflexivity |].
  refine (proj2 (@purge_then_insert _ _ Reference.rerun
                   (fst (fst (Migrate.migrate Reference.rerun)))
                   (snd (fst (Migrate.migrate Reference.rerun)))
                   Reference.threeRows _ _ _)).
  - apply run_with_result. vm_compute. reflexivity.
  - reflexivity.
  - discriminate.
Defined.

(** C3 as stated fails for a run that extracts nothing: it ends normally
    before the purge, and the document of the earlier run is still stored
    although the run inserted nothing. *)
Lemma empty_run_keeps_old_documents :
  Migrate.migrate Reference.emptySource
  = (Reference.emptySource, [Log (Extracted 0); Log NoProductsFound], inr tt)
  /\ documents (mongo (fst (fst (Migrate.migrate Reference.emptySource))))
     = [Reference.oldDocument]
  /\ insertedDocuments (snd (fst (Migrate.migrate Reference.emptySource))) = []
  /\ documents (mongo (fst (fst (Migrate.migrate Reference.emptySource))))
     <> insertedDocuments (snd (fst (Migrate.migrate Reference.emptySource))).
Proof.
  repeat split; try reflexivity.
  intros Heq. apply (f_equal (@List.length _)) in Heq. discriminate Heq.
Qed.









(** * Further properties of the scripts *)

(** ** retryWithBackoff *)

Section RetryTraces.
Context `{EmbeddingsModel}.

Lemma embedQueries_app (a b : list Event) :
  embedQueries (a ++ b) = embedQueries a ++ embedQueries b.
Proof. apply flat_map_app. Qed.

Lemma sleeps_app (a b : list Event) : sleeps (a ++ b) = sleeps a ++ sleeps b.
Proof. apply flat_map_app. Qed.

Lemma attemptsFrom_succ attempt n :
  attemptsFrom attempt (S n) = attempt :: attemptsFrom (attempt + 1) n.
Proof.
  unfold attemptsFrom. cbn [seq map]. rewrite Z.add_0_r. f_equal.
  rewrite <- seq_shift, map_map. apply map_ext. intros j. lia.
Qed.

(** The calls and the waits of the attempt loop around an embedding query:
    [k] calls with the same text, and a wait after each call but the last. *)
Lemma retryLoop_embed_trace text maxRetries remaining : forall attempt w,
  Z.of_nat remaining = Z.max 0 (maxRetries - attempt + 1) ->
  exists k,
    k <= remaining
    /\ (1 <= remaining -> 1 <= k)
    /\ embedQueries
         (snd (fst (retryLoop (embeddings_embedQuery text) maxRetries remaining attempt w)))
       = repeat text k
    /\ sleeps
         (snd (fst (retryLoop (embeddings_embedQuery text) maxRetries remaining attempt w)))
       = map backoffDelay (attemptsFrom attempt (k - 1)).
Proof.
  induction remaining as [|rem IH]; intros attempt w Hrem.
  - exists 0. simpl. repeat split; try lia; reflexivity.
  - cbn [retryLoop]. unfold embeddings_embedQuery at 1 3.
    destruct (embedQuery text (embeddings w)) as [p [error|v]].
    + destruct (strictEq (status error) 429 && (attempt <? maxRetries)%Z) eqn:Eretry.
      * apply andb_true_iff in Eretry. destruct Eretry as [_ Hlt]. apply Z.ltb_lt in Hlt.
        destruct (IH (attempt + 1)%Z (setEmbeddings w p) ltac:(lia))
          as (k & Hk & Hpos & Hq & Hs).
        destruct (retryLoop (embeddings_embedQuery text) maxRetries rem (attempt + 1)
                    (setEmbeddings w p)) as [[w2 ev2] r2].
        cbn [fst snd] in *.
        exists (S k). split; [lia |]. split; [lia |].
        rewrite embedQueries_app, sleeps_app, embedQueries_app, sleeps_app, Hq, Hs.
        cbn [embedQueries sleeps flat_map app repeat].
        split; [reflexivity |].
        replace (S k - 1) with (S (k - 1)) by lia.
        rewrite attemptsFrom_succ. reflexivity.
      * exists 1. cbn. repeat split; lia.
    + exists 1. cbn. repeat split; lia.
Qed.

End RetryTraces.

(** X1.  With [maxRetries] at most 0 the attempt loop is not entered:
    [retryWithBackoff] throws "Max retries exceeded" without calling the
    wrapped function, so the world is untouched and nothing is traced. *)
Theorem retryWithBackoff_without_attempts `{EmbeddingsModel} {T : Type}
    (fn : M T) (maxRetries : Z) (w : World) :
  (maxRetries <= 0)%Z ->
  retryWithBackoff fn maxRetries w = (w, [], inl (Error "Max retries exceeded")).
Proof.
  intros Hmax. unfold retryWithBackoff.
  replace (Z.to_nat maxRetries) with 0 by lia. reflexivity.
Qed.

Lemma retryWithBackoff_without_attempts_witness :
  snd (retryWithBackoff (@embeddings_embedQuery _ Reference.throttled "lamp") 0
         (Reference.world Reference.throttled 2 (Rows []) (Reference.server [] true [])))
  = inl (Error "Max retries exceeded").
Proof.
  rewrite (@retryWithBackoff_without_attempts _ Reference.throttled _
             (@embeddings_embedQuery _ Reference.throttled "lamp") 0
             (Reference.world Reference.throttled 2 (Rows []) (Reference.server [] true [])));
    [reflexivity | lia].
Defined.

(** X2.  Around an embedding query, [retryWithBackoff] with [maxRetries >= 1]
    calls the provider at least once and at most [maxRetries] times, always
    with the same text, and waits after every call but the last: the waits
    are the delays of attempts 1, 2, ... in this order. *)
Theorem retryWithBackoff_embed_calls_and_waits `{EmbeddingsModel}
    (text : string) (maxRetries : Z) (w : World) :
  (1 <= maxRetries)%Z ->
  exists k,
    1 <= k
    /\ (Z.of_nat k <= maxRetries)%Z
    /\ embedQueries (snd (fst (retryWithBackoff (embeddings_embedQuery text) maxRetries w)))
       = repeat text k
    /\ sleeps (snd (fst (retryWithBackoff (embeddings_embedQuery text) maxRetries w)))
       = map backoffDelay (attemptsFrom 1 (k - 1)).
Proof.
  intros Hmax.
  destruct (retryLoop_embed_trace text maxRetries (Z.to_nat maxRetries) 1 w ltac:(lia))
    as (k & Hk & Hpos & Hq & Hs).
  exists k. split; [lia |]. split; [lia |].
  unfold retryWithBackoff.
  destruct (retryLoop (embeddings_embedQuery text) maxRetries (Z.to_nat maxRetries) 1 w)
    as [[w' ev] [v|e|]]; auto.
Qed.

Lemma retryWithBackoff_embed_calls_and_waits_witness :
  exists k,
    1 <= k
    /\ (Z.of_nat k <= 3)%Z
    /\ embedQueries
         (snd (fst (retryWithBackoff (@embeddings_embedQuery _ Reference.throttled "lamp") 3
                      (Reference.world Reference.throttled 2 (Rows [])
                         (Reference.server [] true [])))))
       = repeat "lamp" k
    /\ sleeps
         (snd (fst (retryWithBackoff (@embeddings_embedQuery _ Reference.throttled "lamp") 3
                      (Reference.world Reference.throttled 2 (Rows [])
                         (Reference.server [] true [])))))
       = map (@backoffDelay) (attemptsFrom 1 (k - 1)).
Proof.
  apply (@retryWithBackoff_embed_calls_and_waits _ Reference.throttled). lia.
Defined.

Section RetryExhaustion.
Context `{EmbeddingsModel}.

Lemma retryLoop_embed_exhausted text maxRetries remaining : forall attempt w,
  (forall p, exists p' e, embedQuery text p = (p', inl e) /\ rateLimited e) ->
  1 <= remaining ->
  Z.of_nat remaining = Z.max 0 (maxRetries - attempt + 1) ->
  exists w' ev e,
    retryLoop (embeddings_embedQuery text) maxRetries remaining attempt w
    = (w', ev, Rethrown e)
    /\ rateLimited e
    /\ embedQueries ev = repeat text remaining
    /\ sleeps ev = map backoffDelay (attemptsFrom attempt (remaining - 1)).
Proof.
  induction remaining as [|rem IH]; intros attempt w Halways Hpos Hrem; [lia |].
  cbn [retryLoop]. unfold embeddings_embedQuery at 1.
  destruct (Halways (embeddings w)) as (p & e & Hq & Hrl). rewrite Hq.
  replace (strictEq (status e) 429) with true by (symmetry; apply strictEq_true; exact Hrl).
  cbn [andb].
  destruct (attempt <? maxRetries)%Z eqn:Elt.
  - apply Z.ltb_lt in Elt.
    destruct (IH (attempt + 1)%Z (setEmbeddings w p) Halways ltac:(lia) ltac:(lia))
      as (w' & ev & e' & Hrun & Hrl' & Hqs & Hsl).
    rewrite Hrun. exists w', ([EmbedQuery text]
                              ++ [Log (RateLimitHit (backoffDelay attempt));
                                  Sleep (backoffDelay attempt)] ++ ev), e'.
    split; [reflexivity |]. split; [exact Hrl' |].
    rewrite !embedQueries_app, !sleeps_app, Hqs, Hsl.
    cbn [embedQueries sleeps flat_map app repeat]. split; [reflexivity |].
    replace (S rem - 1) with (S (rem - 1)) by lia.
    rewrite attemptsFrom_succ. reflexivity.
  - apply Z.ltb_ge in Elt.
    assert (rem = 0) by lia. subst rem.
    exists (setEmbeddings w p), [EmbedQuery text], e. repeat split; assumption.
Qed.

End RetryExhaustion.

(** X3.  When the provider answers every query for a text with a rate limit
    error, [retryWithBackoff] with [maxRetries >= 1] uses up its attempts:
    it calls the provider exactly [maxRetries] times, waits after each call
    but the last, and then throws the rate limit error of the last call. *)
Theorem retryWithBackoff_rate_limit_exhaustion `{EmbeddingsModel}
    (text : string) (maxRetries : Z) (w : World) :
  (forall p, exists p' e, embedQuery text p = (p', inl e) /\ rateLimited e) ->
  (1 <= maxRetries)%Z ->
  exists w' ev e,
    retryWithBackoff (embeddings_embedQuery text) maxRetries w = (w', ev, inl e)
    /\ rateLimited e
    /\ embedQueries ev = repeat text (Z.to_nat maxRetries)
    /\ sleeps ev = map backoffDelay (attemptsFrom 1 (Z.to_nat maxRetries - 1)).
Proof.
  intros Halways Hmax.
  destruct (@retryLoop_embed_exhausted _ _ text maxRetries (Z.to_nat maxRetries) 1 w
              Halways ltac:(lia) ltac:(lia)) as (w' & ev & e & Hrun & Hrl & Hq & Hs).
  exists w', ev, e. unfold retryWithBackoff. rewrite Hrun. auto.
Qed.

Lemma retryWithBackoff_rate_limit_exhaustion_witness :
  exists w' ev e,
    retryWithBackoff (@embeddings_embedQuery _ Scenarios.alwaysThrottled "lamp") 3
      Scenarios.throttledWorld = (w', ev, inl e)
    /\ rateLimited e
    /\ embedQueries ev = repeat "lamp" (Z.to_nat 3)
    /\ sleeps ev = map (@backoffDelay) (attemptsFrom 1 (Z.to_nat 3 - 1)).
Proof.
  apply (@retryWithBackoff_rate_limit_exhaustion _ Scenarios.alwaysThrottled).
  - intros p. exists p, Reference.tooManyRequests. split; reflexivity.
  - lia.
Defined.

(** X4.  The wait before a retry is [1000 * 2 ^ attempt] milliseconds up to
    attempt 4 and 30 seconds from attempt 5 on; for the attempts the loop
    makes (numbered from 1) it is at least 2 seconds, never more than 30
    seconds, and it does not decrease from one attempt to the next. *)
Theorem backoffDelay_bounds (attempt next : Z) :
  (1 <= attempt)%Z -> (attempt <= next)%Z ->
  (2000 <= backoffDelay attempt <= 30000)%Z
  /\ (backoffDelay attempt <= backoffDelay next)%Z
  /\ ((attempt < 5)%Z -> backoffDelay attempt = (1000 * 2 ^ attempt)%Z)
  /\ ((5 <= attempt)%Z -> backoffDelay attempt = 30000%Z).
Proof.
  intros Hpos Hnext. unfold backoffDelay.
  assert (Hstart : (2 ^ 1 <= 2 ^ attempt)%Z) by (apply Z.pow_le_mono_r; lia).
  assert (Hmono : (2 ^ attempt <= 2 ^ next)%Z) by (apply Z.pow_le_mono_r; lia).
  change (2 ^ 1)%Z with 2%Z in Hstart.
  repeat split; try lia.
  - intros Hsmall.
    assert (Hcap : (2 ^ attempt <= 2 ^ 4)%Z) by (apply Z.pow_le_mono_r; lia).
    change (2 ^ 4)%Z with 16%Z in Hcap. lia.
  - intros Hlarge.
    assert (Hbig : (2 ^ 5 <= 2 ^ attempt)%Z) by (apply Z.pow_le_mono_r; lia).
    change (2 ^ 5)%Z with 32%Z in Hbig. lia.
Qed.

Lemma backoffDelay_bounds_witness :
  (2000 <= backoffDelay 2 <= 30000)%Z /\ (backoffDelay 2 <= backoffDelay 7)%Z.
Proof.
  destruct (@backoffDelay_bounds 2 7 ltac:(lia) ltac:(lia)) as (Hb & Hm & _).
  split; assumption.
Defined.

(** ** The transformer *)

Section BlankFacts.

Lemma allWhiteSpace_app (a b : string) :
  allWhiteSpace (a +++ b) = allWhiteSpace a && allWhiteSpace b.
Proof.
  induction a as [|c a IH]; simpl; [reflexivity |].
  rewrite IH, andb_assoc. reflexivity.
Qed.

Lemma trimStart_blank s : JS.trimStart s = EmptyString -> allWhiteSpace s = true.
Proof.
  induction s as [|c r IH]; simpl; [reflexivity |].
  destruct (JS.isWhiteSpace c); [exact IH | discriminate].
Qed.

Lemma trimEnd_blank s : JS.trimEnd s = EmptyString -> allWhiteSpace s = true.
Proof.
  induction s as [|c r IH]; simpl; [reflexivity |].
  destruct (JS.isWhiteSpace c); simpl; [| discriminate].
  destruct (JS.trimEnd r); simpl; [intros _; apply IH; reflexivity | discriminate].
Qed.

Lemma trimStart_keeps_blank s :
  allWhiteSpace (JS.trimStart s) = true -> allWhiteSpace s = true.
Proof.
  induction s as [|c r IH]; simpl; [reflexivity |].
  destruct (JS.isWhiteSpace c) eqn:Ec; simpl; [exact IH |].
  rewrite Ec. simpl. discriminate.
Qed.

Lemma trim_blank s : JS.trim s = EmptyString -> allWhiteSpace s = true.
Proof.
  unfold JS.trim. intros Hblank.
  apply trimStart_keeps_blank, trimEnd_blank, Hblank.
Qed.

End BlankFacts.

(** X5.  The embedding text of a row is never empty, whatever the row
    holds, and it neither starts nor ends with white space: the text sent to
    the provider always carries at least the words of the template. *)
Theorem embedding_text_never_blank `{JSRuntime} (p : SQLiteProduct.t)
    (tags : list (JSValue number)) :
  generateEmbeddingText p tags <> EmptyString
  /\ JS.startsWithWhiteSpace (generateEmbeddingText p tags) = false
  /\ JS.endsWithWhiteSpace (generateEmbeddingText p tags) = false
  /\ MongoProduct.embedding_text (ExportToJson.transformProduct p) <> EmptyString
  /\ MongoProduct.embedding_text (Migrate.transformProductToMongoSchema p) <> EmptyString.
Proof.
  assert (Hany : forall tags', generateEmbeddingText p tags' <> EmptyString).
  { intros tags' Hblank. unfold generateEmbeddingText in Hblank.
    apply trim_blank in Hblank.
    rewrite !allWhiteSpace_app in Hblank. cbn in Hblank.
    rewrite !andb_false_r in Hblank. cbn in Hblank.
    rewrite ?andb_false_r in Hblank. discriminate. }
  split; [apply Hany |].
  split; [apply trim_trimmed |].
  split; [apply trim_trimmed |].
  split; apply Hany.
Qed.

Section CommaFacts.

Lemma split_lacks sep s : Forall (fun f => lacks sep f = true) (JS.split sep s).
Proof.
  induction s as [|c r IH]; simpl.
  - constructor; [reflexivity | constructor].
  - destruct (Ascii.eqb c sep) eqn:Ec.
    + constructor; [reflexivity | exact IH].
    + destruct (JS.split sep r) as [|h t]; constructor.
      * simpl. rewrite Ec. reflexivity.
      * constructor.
      * simpl. rewrite Ec. inversion IH; subst. assumption.
      * inversion IH; subst. assumption.
Qed.

Lemma lacks_trimStart sep s : lacks sep s = true -> lacks sep (JS.trimStart s) = true.
Proof.
  induction s as [|c r IH]; simpl; [reflexivity |].
  intros Hl. apply andb_true_iff in Hl. destruct Hl as [Hc Hr].
  destruct (JS.isWhiteSpace c); [apply IH, Hr |].
  simpl. rewrite Hc, Hr. reflexivity.
Qed.

Lemma lacks_trimEnd sep s : lacks sep s = true -> lacks sep (JS.trimEnd s) = true.
Proof.
  induction s as [|c r IH]; simpl; [reflexivity |].
  intros Hl. apply andb_true_iff in Hl. destruct Hl as [Hc Hr].
  destruct (JS.isWhiteSpace c && JS.isEmpty (JS.trimEnd r)); [reflexivity |].
  simpl. rewrite Hc, (IH Hr). reflexivity.
Qed.

Lemma split_whole sep f : lacks sep f = true -> JS.split sep f = [f].
Proof.
  induction f as [|c f IH]; simpl; [reflexivity |].
  intros Hl. apply andb_true_iff in Hl. destruct Hl as [Hc Hr].
  apply negb_true_iff in Hc. rewrite Hc, (IH Hr). reflexivity.
Qed.

Lemma split_first sep f rest :
  lacks sep f = true ->
  JS.split sep (f +++ String sep rest) = f :: JS.split sep rest.
Proof.
  induction f as [|c f IH]; simpl.
  - intros _. rewrite Ascii.eqb_refl. reflexivity.
  - intros Hl. apply andb_true_iff in Hl. destruct Hl as [Hc Hr].
    apply negb_true_iff in Hc. rewrite Hc, (IH Hr). reflexivity.
Qed.

Lemma trimStart_id f : JS.startsWithWhiteSpace f = false -> JS.trimStart f = f.
Proof. destruct f as [|c r]; simpl; [reflexivity |]. intros ->. reflexivity. Qed.

Lemma trimEnd_id f : JS.endsWithWhiteSpace f = false -> JS.trimEnd f = f.
Proof.
  induction f as [|c r IH]; [reflexivity |].
  intros Hend. cbn [JS.trimEnd]. destruct r as [|d r'].
  - simpl in *. rewrite Hend. reflexivity.
  - rewrite IH by exact Hend.
    simpl. rewrite andb_false_r. reflexivity.
Qed.

Lemma commaFragments_ok raw : Forall fragment_ok (commaFragments raw).
Proof.
  unfold commaFragments.
  pose proof (split_lacks "," raw) as Hlacks.
  induction (JS.split "," raw) as [|f fs IH]; simpl; [constructor |].
  inversion Hlacks; subst.
  destruct (JS.isEmpty (JS.trim f)) eqn:Ee; simpl; [apply IH; assumption |].
  constructor; [| apply IH; assumption].
  destruct (trim_trimmed f) as [Hs He].
  repeat split; try assumption.
  unfold JS.trim. apply lacks_trimEnd, lacks_trimStart. assumption.
Qed.

Lemma trim_fragment f : fragment_ok f -> JS.trim f = f /\ JS.trim (String " " f) = f.
Proof.
  intros (_ & Hs & He & _). unfold JS.trim. cbn [JS.trimStart].
  change (JS.isWhiteSpace " ") with true. cbn iota.
  rewrite (trimStart_id _ Hs), (trimEnd_id _ He). auto.
Qed.

Lemma commaFragments_of_joined frags :
  Forall fragment_ok frags ->
  frags <> [] ->
  commaFragments (String.concat ", " frags) = frags
  /\ commaFragments (String " " (String.concat ", " frags)) = frags.
Proof.
  induction 1 as [|f rest Hf Hrest IH]; [congruence |]. intros _.
  destruct (trim_fragment Hf) as [Ht Hts].
  destruct Hf as (Hne & Hs & He & Hl).
  destruct rest as [|g rest'].
  - cbn [String.concat]. unfold commaFragments.
    rewrite (@split_whole "," f Hl).
    rewrite (@split_whole "," (String " " f)) by (simpl; exact Hl).
    cbn [map filter]. rewrite Ht, Hts, Hne. auto.
  - destruct (IH ltac:(discriminate)) as [_ IHs].
    assert (Hjoin : String.concat ", " (f :: g :: rest')
                    = f +++ String "," (String " " (String.concat ", " (g :: rest'))))
      by reflexivity.
    rewrite Hjoin. unfold commaFragments in *.
    change (String " " (f +++ String "," (String " " (String.concat ", " (g :: rest')))))
      with (String " " f +++ String "," (String " " (String.concat ", " (g :: rest')))).
    rewrite (@split_first "," f _ Hl).
    rewrite (@split_first "," (String " " f)) by (simpl; exact Hl).
    cbn [map filter]. rewrite Ht, Hts, Hne. cbn [negb].
    rewrite IHs. auto.
Qed.

End CommaFacts.

Section TagRoundTrip.
Context `{JSRuntime}.

Lemma Array_join_strings sep (frags : list string) :
  Array_join sep (map JString frags) = String.concat sep frags.
Proof.
  unfold Array_join. rewrite map_map. f_equal.
  rewrite <- (map_id frags) at 2. apply map_ext. reflexivity.
Qed.

Lemma comma_tags (p : SQLiteProduct.t) raw :
  SQLiteProduct.tags p = Some raw -> raw <> EmptyString -> JSON_parse raw = None ->
  MongoProduct.tags (ExportToJson.transformProduct p) = map JString (commaFragments raw).
Proof.
  intros Ht Hne Hparse. rewrite (transform_tags_present p Ht Hne), Hparse.
  unfold commaFragments. f_equal. apply filter_ext. intros t.
  apply length_positive_not_empty.
Qed.

End TagRoundTrip.

(** X6.  The comma fallback is stable under its own output: joining the
    tags it produced with ", " (as the embedding text does) and normalizing
    that text again gives the same tags, provided [JSON.parse] rejects the
    joined text as it rejected the original one.  Every tag it produces is a
    non-empty trimmed string without comma. *)
Theorem comma_tags_round_trip `{JSRuntime} (p : SQLiteProduct.t) (raw : string) :
  SQLiteProduct.tags p = Some raw ->
  raw <> EmptyString ->
  JSON_parse raw = None ->
  JSON_parse (Array_join ", " (MongoProduct.tags (ExportToJson.transformProduct p))) = None ->
  MongoProduct.tags
    (ExportToJson.transformProduct
       (withTags p
          (Some (Array_join ", " (MongoProduct.tags (ExportToJson.transformProduct p))))))
  = MongoProduct.tags (ExportToJson.transformProduct p)
  /\ commaFragments (String.concat ", " (commaFragments raw)) = commaFragments raw
  /\ Forall fragment_ok (commaFragments raw).
Proof.
  intros Ht Hne Hparse Hagain.
  pose proof (commaFragments_ok raw) as Hok.
  rewrite (comma_tags p Ht Hne Hparse) in *.
  rewrite Array_join_strings in *.
  assert (Hstable : commaFragments (String.concat ", " (commaFragments raw))
                    = commaFragments raw).
  { destruct (commaFragments raw) as [|f rest] eqn:Ef; [reflexivity |].
    apply commaFragments_of_joined; [exact Hok | discriminate]. }
  split; [| split; [exact Hstable | exact Hok]].
  destruct (commaFragments raw) as [|f rest] eqn:Ef.
  - apply transform_tags_missing. reflexivity.
  - rewrite (@comma_tags _ (withTags p (Some (String.concat ", " (f :: rest))))
               (String.concat ", " (f :: rest)) eq_refl); [| | exact Hagain].
    + rewrite Hstable. reflexivity.
    + inversion Hok as [|? ? (Hnonempty & _) _]; subst.
      destruct f; [discriminate |]. destruct rest; discriminate.
Qed.

Lemma comma_tags_round_trip_witness :
  MongoProduct.tags
    (ExportToJson.transformProduct
       (withTags (Reference.row "SKU-2" "Chair" (Some "a, b ,"))
          (Some (Array_join ", "
                   (MongoProduct.tags
                      (ExportToJson.transformProduct
                         (Reference.row "SKU-2" "Chair" (Some "a, b ,"))))))))
  = [JString "a"; JString "b"].
Proof.
  rewrite (proj1 (@comma_tags_round_trip Reference.runtime
                    (Reference.row "SKU-2" "Chair" (Some "a, b ,")) "a, b ,"
                    eq_refl ltac:(discriminate) eq_refl eq_refl)).
  reflexivity.
Defined.


(** ** What the scripts may do to the world *)

Section RespectsFacts.
Context `{EmbeddingsModel}.
Variable I : World -> list Event -> World -> Prop.
Hypothesis I_stay : forall w, I w [] w.
Hypothesis I_then : forall w ev1 w1 ev2 w2, I w ev1 w1 -> I w1 ev2 w2 -> I w (ev1 ++ ev2) w2.
Hypothesis I_log : forall w delay, I w [Log (RateLimitHit delay)] w.
Hypothesis I_sleep : forall w ms, I w [Sleep ms] w.

Lemma respects_ret {A} (a : A) : Respects I (ret a).
Proof using I_stay. intros w w' ev r Hrun. inversion Hrun; subst. apply I_stay. Qed.

Lemma respects_throw {A} (e : JSError) : Respects I (@throw _ _ A e).
Proof using I_stay. intros w w' ev r Hrun. inversion Hrun; subst. apply I_stay. Qed.

Lemma respects_getWorld : Respects I getWorld.
Proof using I_stay. intros w w' ev r Hrun. inversion Hrun; subst. apply I_stay. Qed.

Lemma respects_console line : (forall w, I w [Log line] w) -> Respects I (console line).
Proof. intros Hline w w' ev r Hrun. inversion Hrun; subst. apply Hline. Qed.

Lemma respects_setTimeout ms : Respects I (setTimeout ms).
Proof using I_sleep. intros w w' ev r Hrun. inversion Hrun; subst. apply I_sleep. Qed.

Lemma respects_bind {A B} (m : M A) (k : A -> M B) :
  Respects I m -> (forall a, Respects I (k a)) -> Respects I (bind m k).
Proof using I_then.
  intros Hm Hk w w2 ev r Hrun. unfold bind in Hrun.
  destruct (m w) as [[w1 ev1] [e|a]] eqn:Em.
  - inversion Hrun; subst. exact (Hm _ _ _ _ Em).
  - destruct (k a w1) as [[w2' ev2] r2] eqn:Ek. inversion Hrun; subst.
    eapply I_then; [exact (Hm _ _ _ _ Em) | exact (Hk a _ _ _ _ Ek)].
Qed.

Lemma respects_tryCatch {A} (m : M A) : Respects I m -> Respects I (tryCatch m).
Proof.
  intros Hm w w1 ev r Hrun. unfold tryCatch in Hrun.
  destruct (m w) as [[w1' ev1] r1] eqn:Em. inversion Hrun; subst.
  exact (Hm _ _ _ _ Em).
Qed.

Lemma respects_finally {A} (m : M A) (cleanup : M unit) :
  Respects I m -> Respects I cleanup -> Respects I (finally m cleanup).
Proof using I_then.
  intros Hm Hc w w2 ev r Hrun. unfold finally in Hrun.
  destruct (m w) as [[w1 ev1] r1] eqn:Em.
  destruct (cleanup w1) as [[w2' ev2] c] eqn:Ec. inversion Hrun; subst.
  eapply I_then; [exact (Hm _ _ _ _ Em) | exact (Hc _ _ _ _ Ec)].
Qed.

Lemma respects_forOf {A S} (xs : list A) (body : S -> A -> M S) :
  (forall s x, Respects I (body s x)) -> forall s, Respects I (forOf xs body s).
Proof using I_stay I_then.
  intros Hbody. induction xs as [|x rest IH]; intros s; cbn [forOf].
  - apply respects_ret.
  - apply respects_bind; [apply Hbody | exact IH].
Qed.

Lemma respects_retryLoop {T} (fn : M T) maxRetries remaining :
  Respects I fn ->
  forall attempt w w' ev r,
    retryLoop fn maxRetries remaining attempt w = (w', ev, r) -> I w ev w'.
Proof using I_stay I_then I_log I_sleep.
  intros Hfn. induction remaining as [|rem IH]; intros attempt w w' ev r Hrun.
  - inversion Hrun; subst. apply I_stay.
  - cbn [retryLoop] in Hrun.
    destruct (fn w) as [[w1 ev1] [error|v]] eqn:Efn.
    + destruct (strictEq (status error) 429 && (attempt <? maxRetries)%Z).
      * destruct (retryLoop fn maxRetries rem (attempt + 1) w1) as [[w2 ev2] r2] eqn:Erec.
        inversion Hrun; subst.
        eapply I_then; [exact (Hfn _ _ _ _ Efn) |].
        apply (@I_then w1 [Log (RateLimitHit (backoffDelay attempt))] w1
                 (Sleep (backoffDelay attempt) :: ev2) w'); [apply I_log |].
        apply (@I_then w1 [Sleep (backoffDelay attempt)] w1 ev2 w');
          [apply I_sleep | exact (IH _ _ _ _ _ Erec)].
      * inversion Hrun; subst. exact (Hfn _ _ _ _ Efn).
    + inversion Hrun; subst. exact (Hfn _ _ _ _ Efn).
Qed.

Lemma respects_retryWithBackoff {T} (fn : M T) maxRetries :
  Respects I fn -> Respects I (retryWithBackoff fn maxRetries).
Proof using I_stay I_then I_log I_sleep.
  intros Hfn w w' ev r Hrun. unfold retryWithBackoff in Hrun.
  destruct (retryLoop fn maxRetries (Z.to_nat maxRetries) 1 w) as [[w1 ev1] r1] eqn:Eloop.
  apply (@respects_retryLoop _ fn maxRetries _ Hfn) in Eloop.
  destruct r1; inversion Hrun; subst; exact Eloop.
Qed.

End RespectsFacts.

(** One step through the structure of a script. *)
Ltac respects_step :=
  intros;
  match goal with
  | |- Respects _ (ret _) => apply respects_ret
  | |- Respects _ (throw _) => apply respects_throw
  | |- Respects _ getWorld => apply respects_getWorld
  | |- Respects _ (console _) => apply respects_console
  | |- Respects _ (setTimeout _) => apply respects_setTimeout
  | |- Respects _ (bind _ _) => apply respects_bind
  | |- Respects _ (tryCatch _) => apply respects_tryCatch
  | |- Respects _ (finally _ _) => apply respects_finally
  | |- Respects _ (retryWithBackoff _ _) => apply respects_retryWithBackoff
  | |- Respects _ (forOf _ _ _) => apply respects_forOf
  | |- Respects _ (if ?b then _ else _) => destruct b
  | |- Respects _ (match ?x with _ => _ end) => destruct x
  end.

Section MigrationReach.
Context `{EmbeddingsModel}.

Lemma migrationFrame_stay (w : World) : migrationFrame w [] w.
Proof.
  split; [| split].
  - destruct w; reflexivity.
  - reflexivity.
  - intros _. simpl. symmetry. apply app_nil_r.
Qed.

Lemma migrationFrame_then (w : World) ev1 w1 ev2 w2 :
  migrationFrame w ev1 w1 -> migrationFrame w1 ev2 w2 -> migrationFrame w (ev1 ++ ev2) w2.
Proof.
  intros (Hw1 & Hf1 & Hd1) (Hw2 & Hf2 & Hd2). split; [| split].
  - rewrite Hw2 at 1. rewrite Hw1 at 1. destruct w; reflexivity.
  - rewrite written_app, Hf1, Hf2. reflexivity.
  - rewrite count_app. intros Hcount.
    rewrite Hd2 by lia. rewrite Hd1 by lia.
    rewrite insertedDocuments_app. symmetry. apply app_assoc.
Qed.

Lemma migrationFrame_log (w : World) line : migrationFrame w [Log line] w.
Proof.
  split; [| split].
  - destruct w; reflexivity.
  - reflexivity.
  - intros _. simpl. symmetry. apply app_nil_r.
Qed.

Lemma migrationFrame_sleep (w : World) ms : migrationFrame w [Sleep ms] w.
Proof.
  split; [| split].
  - destruct w; reflexivity.
  - reflexivity.
  - intros _. simpl. symmetry. apply app_nil_r.
Qed.

Lemma migrationFrame_embedQuery text : Respects migrationFrame (embeddings_embedQuery text).
Proof.
  intros w w' ev r Hrun. unfold embeddings_embedQuery in Hrun.
  destruct (embedQuery text (embeddings w)) as [p r']. inversion Hrun; subst.
  split; [| split].
  - destruct w; reflexivity.
  - reflexivity.
  - intros _. simpl. symmetry. apply app_nil_r.
Qed.

Lemma migrationFrame_MongoClient_new : Respects migrationFrame MongoClient_new.
Proof.
  intros w w' ev r Hrun. apply MongoClient_new_inv in Hrun. destruct Hrun as (-> & -> & _).
  apply migrationFrame_stay.
Qed.

(** A driver call either is an accepted purge or leaves the documents in
    place, followed by the one it stored. *)
Lemma migrationFrame_driverCall {A} call (op : MongoServer -> MongoServer * Result A) :
  (forall srv,
     (call = DeleteMany /\ exists a, snd (op srv) = inr a)
     \/ documents (fst (op srv))
        = documents srv
            ++ insertedDocuments
                 [Mongo call (match snd (op srv) with inl e => Some e | inr _ => None end)]) ->
  Respects migrationFrame (driverCall call op).
Proof.
  intros Hop w w' ev r Hrun. unfold driverCall in Hrun.
  assert (Hfault : forall e rest,
            migrationFrame w [Mongo call (Some e)] (setMongo w (setFaults (mongo w) rest))).
  { intros e rest. split; [| split].
    - destruct w; reflexivity.
    - reflexivity.
    - intros _. destruct call; simpl; symmetry; apply app_nil_r. }
  assert (Hrun' : forall fs,
            (let '(srv', r) := op (setFaults (mongo w) fs) in
             (setMongo w srv',
              [Mongo call (match r with inl e => Some e | inr _ => None end)], r))
            = (w', ev, r) -> migrationFrame w ev w').
  { intros fs Hrun'. specialize (Hop (setFaults (mongo w) fs)).
    destruct (op (setFaults (mongo w) fs)) as [srv' r'] eqn:Eop.
    inversion Hrun'; subst. simpl in Hop. split; [| split].
    - destruct w; reflexivity.
    - reflexivity.
    - destruct Hop as [[-> [a ->]] | Hdocs].
      + cbn. discriminate.
      + intros _. simpl. exact Hdocs. }
  destruct (faults (mongo w)) as [|[e|] rest].
  - apply (Hrun' _ Hrun).
  - inversion Hrun; subst. apply Hfault.
  - apply (Hrun' _ Hrun).
Qed.

End MigrationReach.

(** Side conditions of a step of the migration. *)
Ltac migration_side :=
  first
    [ apply migrationFrame_stay
    | eapply migrationFrame_then; eassumption
    | apply migrationFrame_log
    | apply migrationFrame_sleep
    | apply migrationFrame_embedQuery
    | apply migrationFrame_MongoClient_new
    | apply migrationFrame_driverCall; intros srv; simpl; right;
      symmetry; apply app_nil_r ].

Section MigrationReachOfScript.
Context `{EmbeddingsModel}.

Lemma migrationFrame_deleteMany : Respects migrationFrame collection_deleteMany.
Proof.
  apply migrationFrame_driverCall. intros srv. left. split; [reflexivity |].
  eexists. reflexivity.
Qed.

Lemma migrationFrame_insertOne doc : Respects migrationFrame (collection_insertOne doc).
Proof.
  apply migrationFrame_driverCall. intros srv. right.
  destruct (uniqueSku srv
            && existsb (fun d => String.eqb (MongoProduct.sku d) (MongoProduct.sku doc))
                 (documents srv)); simpl.
  - symmetry. apply app_nil_r.
  - reflexivity.
Qed.

Lemma migrationFrame_batchLoop mongoProducts fuel : forall i totals,
  Respects migrationFrame (Migrate.batchLoop mongoProducts fuel i totals).
Proof.
  induction fuel as [|fuel IH]; intros i totals; cbn [Migrate.batchLoop].
  - apply respects_ret. apply migrationFrame_stay.
  - destruct (i <? List.length mongoProducts)%nat.
    + unfold Migrate.generateEmbeddingsForBatch, Migrate.insertProductsToMongo,
        Migrate.embedProduct, Migrate.insertProduct.
      repeat (intros; first [ apply IH | apply migrationFrame_insertOne
                            | respects_step | migration_side ]).
    + apply respects_ret. apply migrationFrame_stay.
Qed.

Lemma migrationFrame_migrate : Respects migrationFrame Migrate.migrate.
Proof.
  unfold Migrate.migrate, Migrate.extractProductsFromSQLite,
    Migrate.ensureVectorSearchIndex, Migrate.verifyMigration,
    client_connect, client_ping, client_close,
    collection_listSearchIndexes, collection_createSearchIndex,
    collection_countDocuments, collection_findOne.
  repeat (intros; first [ apply migrationFrame_batchLoop | apply migrationFrame_deleteMany
                        | respects_step | migration_side ]).
Qed.

End MigrationReachOfScript.

(** X7. Whatever the configuration, the SQLite file, the provider and the
    deployment do, a run of the migration changes nothing but the state of
    the provider and of the deployment, hands nothing to [fs.writeFileSync],
    and, as long as no [deleteMany] was accepted, leaves every document that
    was stored in place, followed by the documents whose [insertOne] was
    accepted. *)
Theorem migrate_stays_in_reach `{EmbeddingsModel} (w w' : World) (ev : list Event)
    (r : Result unit) :
  Migrate.migrate w = (w', ev, r) ->
  env_MONGODB_ATLAS_URI w' = env_MONGODB_ATLAS_URI w
  /\ env_GOOGLE_API_KEY w' = env_GOOGLE_API_KEY w
  /\ sqlite w' = sqlite w
  /\ fsFault w' = fsFault w
  /\ outputFile w' = outputFile w
  /\ written ev = []
  /\ (count isAcceptedPurge ev = 0 ->
      documents (mongo w') = documents (mongo w) ++ insertedDocuments ev).
Proof.
  intros Hrun. destruct (migrationFrame_migrate _ Hrun) as (Hw & Hwritten & Hdocs).
  rewrite Hw at 1 2 3 4 5. simpl. repeat split; assumption.
Qed.

Lemma run_projections {W E R : Type} (x : W * E * R) : x = (fst (fst x), snd (fst x), snd x).
Proof. destruct x as [[w ev] r]. reflexivity. Qed.

Lemma migrate_stays_in_reach_witness :
  count isAcceptedPurge (snd (fst (Migrate.migrate Scenarios.purgeRejected))) = 0
  /\ documents (mongo (fst (fst (Migrate.migrate Scenarios.purgeRejected))))
     = documents (mongo Scenarios.purgeRejected)
         ++ insertedDocuments (snd (fst (Migrate.migrate Scenarios.purgeRejected))).
Proof.
  assert (Hcount : count isAcceptedPurge
                     (snd (fst (Migrate.migrate Scenarios.purgeRejected))) = 0)
    by (vm_compute; reflexivity).
  split; [exact Hcount |].
  apply (@migrate_stays_in_reach _ _ _ _ _ _
           (run_projections (Migrate.migrate Scenarios.purgeRejected))).
  exact Hcount.
Defined.

(** ** What makes the migration fail *)

Section FailsByDriverFacts.
Context `{EmbeddingsModel}.

Lemma fbd_ret {A} (a : A) : FailsByDriver (ret a).
Proof. intros w w' ev e Hrun. discriminate. Qed.

Lemma fbd_console line : FailsByDriver (console line).
Proof. intros w w' ev e Hrun. discriminate. Qed.

Lemma fbd_tryCatch {A} (m : M A) : FailsByDriver (tryCatch m).
Proof.
  intros w w' ev e Hrun. unfold tryCatch in Hrun.
  destruct (m w) as [[w1 ev1] r]. discriminate.
Qed.

Lemma fbd_bind {A B} (m : M A) (k : A -> M B) :
  FailsByDriver m -> (forall a, FailsByDriver (k a)) -> FailsByDriver (bind m k).
Proof.
  intros Hm Hk w w' ev e Hrun. unfold bind in Hrun.
  destruct (m w) as [[w1 ev1] [e1|a]] eqn:Em.
  - inversion Hrun; subst. exact (Hm _ _ _ _ Em).
  - destruct (k a w1) as [[w2 ev2] r2] eqn:Ek. inversion Hrun; subst.
    destruct (Hk a _ _ _ _ Ek) as (call & Hfatal & Hin).
    exists call. split; [exact Hfatal | apply in_or_app; right; exact Hin].
Qed.

Lemma fbd_finally {A} (m : M A) (cleanup : M unit) :
  FailsByDriver m -> FailsByDriver cleanup -> FailsByDriver (finally m cleanup).
Proof.
  intros Hm Hc w w' ev e Hrun. unfold finally in Hrun.
  destruct (m w) as [[w1 ev1] r1] eqn:Em.
  destruct (cleanup w1) as [[w2 ev2] [e2|u]] eqn:Ec; inversion Hrun; subst.
  - destruct (Hc _ _ _ _ Ec) as (call & Hfatal & Hin).
    exists call. split; [exact Hfatal | apply in_or_app; right; exact Hin].
  - destruct (Hm _ _ _ _ Em) as (call & Hfatal & Hin).
    exists call. split; [exact Hfatal | apply in_or_app; left; exact Hin].
Qed.

(** [try { m } catch (error) { console.error(...); throw error }] *)
Lemma fbd_rethrow {A} (m : M A) :
  FailsByDriver m ->
  FailsByDriver (r <- tryCatch m ;;
                 match r with
                 | inr _ => ret tt
                 | inl error => console RunFailed ;; throw error
                 end).
Proof.
  intros Hm w w' ev e Hrun. unfold bind, tryCatch in Hrun.
  destruct (m w) as [[w1 ev1] [e1|a]] eqn:Em; cbn in Hrun; inversion Hrun; subst.
  destruct (Hm _ _ _ _ Em) as (call & Hfatal & Hin).
  exists call. split; [exact Hfatal | apply in_or_app; left; exact Hin].
Qed.

Lemma fbd_driverCall {A} call (op : MongoServer -> MongoServer * Result A) :
  fatalCall call = true ->
  (forall srv, exists a, snd (op srv) = inr a) ->
  FailsByDriver (driverCall call op).
Proof.
  intros Hfatal Hop w w' ev e Hrun. unfold driverCall in Hrun.
  assert (Hrun' : forall fs,
            (let '(srv', r) := op (setFaults (mongo w) fs) in
             (setMongo w srv',
              [Mongo call (match r with inl e => Some e | inr _ => None end)], r))
            <> (w', ev, inl e)).
  { intros fs Hrun'. destruct (Hop (setFaults (mongo w) fs)) as [a Ha].
    destruct (op (setFaults (mongo w) fs)) as [srv' r']. simpl in Ha. subst r'.
    discriminate. }
  destruct (faults (mongo w)) as [|[e1|] rest].
  - destruct (Hrun' _ Hrun).
  - inversion Hrun; subst. exists call. split; [exact Hfatal | left; reflexivity].
  - destruct (Hrun' _ Hrun).
Qed.

Lemma fbd_batchLoop mongoProducts totals :
  FailsByDriver (Migrate.batchLoop mongoProducts (List.length mongoProducts) 0 totals).
Proof.
  intros w w' ev e Hrun.
  destruct (@migrate_batchLoop_run _ _ mongoProducts (List.length mongoProducts) 0
              totals w ltac:(lia)) as (srv & evl & totals' & Hloop & _).
  rewrite Hloop in Hrun. discriminate.
Qed.

Lemma fbd_steps mongoProducts : FailsByDriver (withClient mongoProducts).
Proof.
  assert (Hcall : forall A call (a : MongoServer -> A),
            fatalCall call = true ->
            FailsByDriver (driverCall call (fun srv => (srv, inr (a srv))))).
  { intros A call a Hfatal. apply fbd_driverCall; [exact Hfatal |].
    intros srv. eexists. reflexivity. }
  unfold withClient.
  apply fbd_finally; [| apply (Hcall unit Close (fun _ => tt)); reflexivity].
  apply fbd_rethrow.
  apply fbd_bind; [apply (Hcall unit Connect (fun _ => tt)); reflexivity | intros _].
  apply fbd_bind; [apply (Hcall unit Ping (fun _ => tt)); reflexivity | intros _].
  apply fbd_bind.
  { unfold Migrate.ensureVectorSearchIndex.
    apply fbd_bind; [apply fbd_tryCatch | intros [error|u]; [apply fbd_console | apply fbd_ret]]. }
  intros _.
  apply fbd_bind.
  { apply fbd_driverCall; [reflexivity | intros srv; eexists; reflexivity]. }
  intros deletedCount.
  apply fbd_bind; [apply fbd_console | intros _].
  apply fbd_bind; [apply fbd_batchLoop | intros totals].
  apply fbd_bind.
  { unfold Migrate.verifyMigration.
    apply fbd_bind; [apply (Hcall nat CountDocuments); reflexivity | intros totalCount].
    apply fbd_bind; [apply (Hcall nat CountDocuments); reflexivity | intros withEmbeddings].
    apply fbd_bind; [apply fbd_console | intros _].
    apply fbd_bind; [apply (Hcall _ FindOne); reflexivity | intros sample].
    apply fbd_ret. }
  intros _.
  apply fbd_bind; [apply fbd_console | intros _; apply fbd_console].
Qed.

Lemma bind_getWorld {A} (k : World -> M A) (w : World) : bind getWorld k w = k w w.
Proof. unfold bind, getWorld. destruct (k w w) as [[w2 ev2] r]. reflexivity. Qed.

Lemma bind_after {A B} (m : M A) (k : A -> M B) w w1 ev1 a :
  m w = (w1, ev1, inr a) ->
  bind m k w = (fst (fst (k a w1)), ev1 ++ snd (fst (k a w1)), snd (k a w1)).
Proof.
  intros Hm. unfold bind. rewrite Hm.
  destruct (k a w1) as [[w2 ev2] r]. reflexivity.
Qed.

Lemma migrate_extracted (w : World) rows :
  sqlite w = Rows rows ->
  tryCatch (Migrate.extractProductsFromSQLite Migrate.sqliteDbPath) w
  = (w, [Log (Extracted (List.length rows))], inr (inr rows)).
Proof.
  intros Hsql. unfold tryCatch, Migrate.extractProductsFromSQLite.
  rewrite bind_getWorld, Hsql. reflexivity.
Qed.

End FailsByDriverFacts.

Section EarlyExits.
Context `{EmbeddingsModel}.

Lemma bind_throws {A B} (m : M A) (k : A -> M B) w w1 ev1 e :
  m w = (w1, ev1, inl e) -> bind m k w = (w1, ev1, inl e).
Proof. intros Hm. unfold bind. rewrite Hm. reflexivity. Qed.

Lemma tryCatch_run {A} (m : M A) w w1 ev1 r :
  m w = (w1, ev1, r) -> tryCatch m w = (w1, ev1, inr r).
Proof. intros Hm. unfold tryCatch. rewrite Hm. reflexivity. Qed.

Lemma export_extracted (w : World) rows :
  sqlite w = Rows rows ->
  ExportToJson.extractProductsFromSQLite ExportToJson.sqliteDbPath w
  = (w, [Log (Extracted (List.length rows))], inr rows).
Proof.
  intros Hsql. unfold ExportToJson.extractProductsFromSQLite.
  rewrite bind_getWorld, Hsql. reflexivity.
Qed.

Lemma export_not_extracted (w : World) e :
  sqlite w = CannotOpen e \/ sqlite w = CannotQuery e ->
  ExportToJson.extractProductsFromSQLite ExportToJson.sqliteDbPath w = (w, [], inl e).
Proof.
  intros Hsql. unfold ExportToJson.extractProductsFromSQLite.
  rewrite bind_getWorld. destruct Hsql as [-> | ->]; reflexivity.
Qed.

Lemma migrate_not_extracted (w : World) e :
  (sqlite w = CannotOpen e ->
   Migrate.extractProductsFromSQLite Migrate.sqliteDbPath w = (w, [], inl e))
  /\ (sqlite w = CannotQuery e ->
      Migrate.extractProductsFromSQLite Migrate.sqliteDbPath w
      = (w, [Log SQLiteReadError], inl e)).
Proof.
  unfold Migrate.extractProductsFromSQLite. rewrite bind_getWorld.
  split; intros ->; reflexivity.
Qed.

(** A run of the migration either ends before the client exists, without a
    driver call, or it is two lines followed by the steps that use the
    client. *)
Lemma migrate_run (w : World) :
  (mongoCalls (snd (fst (Migrate.migrate w))) = []
   /\ forall e, snd (Migrate.migrate w) = inl e ->
                mongoClientFault w = Some e
                \/ count (isLog isTransformed) (snd (fst (Migrate.migrate w))) = 0)
  \/ (exists rows,
        mongoClientFault w = None
        /\ rows <> []
        /\ sqlite w = Rows rows
        /\ Migrate.migrate w
           = (fst (fst (withClient (map Migrate.transformProductToMongoSchema rows) w)),
              [Log (Extracted (List.length rows));
               Log (Transformed
                      (List.length (map Migrate.transformProductToMongoSchema rows)))]
                ++ snd (fst (withClient (map Migrate.transformProductToMongoSchema rows) w)),
              snd (withClient (map Migrate.transformProductToMongoSchema rows) w))).
Proof.
  unfold Migrate.migrate. rewrite bind_getWorld.
  destruct (truthy (env_MONGODB_ATLAS_URI w)); cbn [negb];
    [| left; split; [reflexivity | intros e _; right; reflexivity]].
  destruct (truthy (env_GOOGLE_API_KEY w)); cbn [negb];
    [| left; split; [reflexivity | intros e _; right; reflexivity]].
  destruct (sqlite w) as [e|e|rows] eqn:Hsql.
  - erewrite bind_after
      by (apply tryCatch_run; apply (proj1 (migrate_not_extracted w e)); exact Hsql).
    left. split; [reflexivity | intros e' _; right; reflexivity].
  - erewrite bind_after
      by (apply tryCatch_run; apply (proj2 (migrate_not_extracted w e)); exact Hsql).
    left. split; [reflexivity | intros e' _; right; reflexivity].
  - rewrite (@bind_after _ _ _ _ _ _ _ _ _ _ (migrate_extracted w Hsql)).
    destruct rows as [|row rows].
    + left. split; [reflexivity | intros e' _; right; reflexivity].
    + cbn [List.length Nat.eqb fst snd].
      erewrite bind_after by reflexivity. cbn [fst snd].
      destruct (mongoClientFault w) as [e|] eqn:Hclient;
        erewrite bind_after
          by (apply tryCatch_run; unfold MongoClient_new; rewrite Hclient; reflexivity).
      * left. split; [reflexivity |]. intros e' Heq. left. cbn in Heq. congruence.
      * right. exists (row :: rows).
        split; [reflexivity |]. split; [discriminate |]. split; [reflexivity |].
        cbn [fst snd app]. reflexivity.
Qed.

End EarlyExits.

(** X8. Once the migration has made a driver call, it can only fail with the
    error of a rejected [connect], [ping], [deleteMany], [countDocuments],
    [findOne] or [close]: no failure of the embedding provider, of an
    [insertOne] or of the search index calls ends the run. *)
Theorem migrate_fails_only_by_driver `{EmbeddingsModel} (w w' : World) (ev : list Event)
    (e : JSError) :
  Migrate.migrate w = (w', ev, inl e) ->
  mongoCalls ev <> [] ->
  exists call, fatalCall call = true /\ In (Mongo call (Some e)) ev.
Proof.
  intros Hrun Hcalls.
  destruct (migrate_run w) as [[Hnone _] | (rows & _ & _ & _ & Hsteps)].
  - rewrite Hrun in Hnone. contradiction.
  - rewrite Hsteps in Hrun.
    destruct (withClient (map Migrate.transformProductToMongoSchema rows) w)
      as [[w2 ev2] r2] eqn:Esteps.
    cbn [fst snd] in Hrun. inversion Hrun; subst.
    destruct (fbd_steps _ _ Esteps) as (call & Hfatal & Hin).
    exists call. split; [exact Hfatal | right; right; exact Hin].
Qed.

Lemma migrate_fails_only_by_driver_witness :
  exists call,
    fatalCall call = true
    /\ In (Mongo call (Some Reference.writeConcernError))
         (snd (fst (Migrate.migrate Scenarios.unreachable))).
Proof.
  apply (@migrate_fails_only_by_driver _ _ Scenarios.unreachable
           (fst (fst (Migrate.migrate Scenarios.unreachable)))
           (snd (fst (Migrate.migrate Scenarios.unreachable)))
           Reference.writeConcernError).
  - apply run_with_result. vm_compute. reflexivity.
  - intros Hnone. apply (f_equal (@List.length _)) in Hnone. vm_compute in Hnone.
    discriminate.
Defined.

(** ** What the export may do to the world *)

Section ExportReach.
Context `{EmbeddingsModel}.

Lemma mongoCalls_app (a b : list Event) : mongoCalls (a ++ b) = mongoCalls a ++ mongoCalls b.
Proof. apply flat_map_app. Qed.

Lemma exportFrame_stay (w : World) : exportFrame w [] w.
Proof. split; [destruct w; reflexivity | split; [reflexivity | intros _; reflexivity]]. Qed.

Lemma exportFrame_then (w : World) ev1 w1 ev2 w2 :
  exportFrame w ev1 w1 -> exportFrame w1 ev2 w2 -> exportFrame w (ev1 ++ ev2) w2.
Proof.
  intros (Hw1 & Hc1 & Ho1) (Hw2 & Hc2 & Ho2). split; [| split].
  - rewrite Hw2 at 1. rewrite Hw1 at 1. destruct w; reflexivity.
  - rewrite mongoCalls_app, Hc1, Hc2. reflexivity.
  - rewrite written_app. intros Hnone. apply app_eq_nil in Hnone. destruct Hnone as [Ha Hb].
    rewrite (Ho2 Hb). exact (Ho1 Ha).
Qed.

Lemma exportFrame_log (w : World) line : exportFrame w [Log line] w.
Proof. split; [destruct w; reflexivity | split; [reflexivity | intros _; reflexivity]]. Qed.

Lemma exportFrame_sleep (w : World) ms : exportFrame w [Sleep ms] w.
Proof. split; [destruct w; reflexivity | split; [reflexivity | intros _; reflexivity]]. Qed.

Lemma exportFrame_embedQuery text : Respects exportFrame (embeddings_embedQuery text).
Proof.
  intros w w' ev r Hrun. unfold embeddings_embedQuery in Hrun.
  destruct (embedQuery text (embeddings w)) as [p r']. inversion Hrun; subst.
  split; [destruct w; reflexivity | split; [reflexivity | intros _; reflexivity]].
Qed.

Lemma exportFrame_writeFileSync path content :
  Respects exportFrame (ExportToJson.writeFileSync path content).
Proof.
  intros w w' ev r Hrun. unfold ExportToJson.writeFileSync in Hrun.
  destruct (fsFault w) as [[e [|]|e]|]; inversion Hrun; subst;
    (split; [| split; [reflexivity | discriminate]]);
    match goal with |- ?x = _ => destruct x; reflexivity
                  | |- setOutputFile ?x _ = _ => destruct x; reflexivity end.
Qed.

Lemma exportFrame_statSync path : Respects exportFrame (ExportToJson.statSync path).
Proof.
  intros w w' ev r Hrun. unfold ExportToJson.statSync in Hrun.
  destruct (fsFault w) as [[e truncated|e]|]; inversion Hrun; subst;
    apply exportFrame_stay.
Qed.

End ExportReach.

(** Side conditions of a step of the export. *)
Ltac export_side :=
  first
    [ apply exportFrame_stay
    | eapply exportFrame_then; eassumption
    | apply exportFrame_log
    | apply exportFrame_sleep
    | apply exportFrame_embedQuery
    | apply exportFrame_writeFileSync
    | apply exportFrame_statSync ].

Section ExportReachOfScript.
Context `{EmbeddingsModel}.

Lemma exportFrame_batchLoop mongoProducts fuel : forall i st,
  Respects exportFrame (ExportToJson.batchLoop mongoProducts fuel i st).
Proof.
  induction fuel as [|fuel IH]; intros i st; cbn [ExportToJson.batchLoop].
  - apply respects_ret. apply exportFrame_stay.
  - destruct (i <? List.length mongoProducts)%nat.
    + unfold ExportToJson.embedProduct.
      repeat (intros; first [ apply IH | respects_step | export_side ]).
    + apply respects_ret. apply exportFrame_stay.
Qed.

Lemma exportFrame_exportToJson : Respects exportFrame ExportToJson.exportToJson.
Proof.
  unfold ExportToJson.exportToJson, ExportToJson.extractProductsFromSQLite.
  repeat (intros; first [ apply exportFrame_batchLoop | respects_step | export_side ]).
Qed.

End ExportReachOfScript.

(** X9. Whatever the configuration, the SQLite file, the provider and the
    file system do, a run of the export makes no driver call and leaves the
    deployment, the environment and the SQLite file as they were; the output
    file changes only through a call of [fs.writeFileSync]. *)
Theorem exportToJson_stays_in_reach `{EmbeddingsModel} (w w' : World) (ev : list Event)
    (r : Result unit) :
  ExportToJson.exportToJson w = (w', ev, r) ->
  env_MONGODB_ATLAS_URI w' = env_MONGODB_ATLAS_URI w
  /\ env_GOOGLE_API_KEY w' = env_GOOGLE_API_KEY w
  /\ sqlite w' = sqlite w
  /\ mongo w' = mongo w
  /\ fsFault w' = fsFault w
  /\ mongoCalls ev = []
  /\ (written ev = [] -> outputFile w' = outputFile w).
Proof.
  intros Hrun. destruct (exportFrame_exportToJson _ Hrun) as (Hw & Hcalls & Hout).
  rewrite Hw at 1 2 3 4 5. simpl. repeat split; assumption.
Qed.

Lemma exportToJson_stays_in_reach_witness :
  List.length (written (snd (fst (ExportToJson.exportToJson Reference.emptySource)))) = 0
  /\ outputFile (fst (fst (ExportToJson.exportToJson Reference.emptySource)))
     = outputFile Reference.emptySource.
Proof.
  assert (Hnone : List.length
                    (written (snd (fst (ExportToJson.exportToJson Reference.emptySource))))
                  = 0)
    by (vm_compute; reflexivity).
  split; [exact Hnone |].
  apply (@exportToJson_stays_in_reach _ _ _ _ _ _
           (run_projections (ExportToJson.exportToJson Reference.emptySource))).
  apply length_zero_iff_nil. exact Hnone.
Defined.

Section ExportFailure.
Context `{EmbeddingsModel}.

Lemma logged_lines (ev : list Event) (line : LogLine) :
  In line (logLines ev) <-> In (Log line) ev.
Proof.
  induction ev as [|e ev IH]; [reflexivity |].
  destruct e as [ms|text|call rejected|path content|line']; cbn [logLines flat_map app In];
    fold (logLines ev); rewrite IH; split; intros Hin;
    try (right; exact Hin); try (destruct Hin as [Heq | Hin]; [discriminate | exact Hin]).
  - destruct Hin as [-> | Hin]; [left; reflexivity | right; exact Hin].
  - destruct Hin as [Heq | Hin]; [left; congruence | right; exact Hin].
Qed.

Lemma export_of_nothing (w : World) :
  truthy (env_GOOGLE_API_KEY w) = true ->
  sqlite w = Rows [] ->
  ExportToJson.exportToJson w = (w, [Log (Extracted 0); Log NoProductsFound], inr tt).
Proof.
  intros Hkey Hsql.
  unfold ExportToJson.exportToJson. rewrite bind_getWorld, Hkey. cbn [negb].
  erewrite bind_after;
    [| apply tryCatch_run; erewrite bind_after; [| apply export_extracted; exact Hsql];
       reflexivity ].
  reflexivity.
Qed.

End ExportFailure.

(** X10. Once the rows have been transformed, the export throws exactly when
    a file-system call throws: [fs.writeFileSync], or the [fs.statSync] that
    follows it.  The error is the one of that call, and the attempted write,
    with one entry per row, and the failure line are the last two events.
    After a failed write the output file is as it was when the call failed
    before touching it, and holds no document when the call had emptied it;
    after a failed [statSync] it holds the sequence of this run. *)
Theorem exportToJson_fails_only_on_file_system `{EmbeddingsModel} (w : World)
    (rows : list SQLiteProduct.t) :
  truthy (env_GOOGLE_API_KEY w) = true ->
  sqlite w = Rows rows ->
  In (Log (Transformed (List.length rows))) (snd (fst (ExportToJson.exportToJson w))) ->
  (forall e,
      snd (ExportToJson.exportToJson w) = inl e
      <-> exists fault, fsFault w = Some fault /\ thrownBy fault = e)
  /\ (forall fault,
        fsFault w = Some fault ->
        exists before content,
          snd (fst (ExportToJson.exportToJson w))
          = before ++ [WriteFile ExportToJson.outputPath content; Log RunFailed]
          /\ List.length content = List.length rows
          /\ outputFile (fst (fst (ExportToJson.exportToJson w)))
             = match fault with
               | WriteThrows _ true => None
               | WriteThrows _ false => outputFile w
               | StatThrows _ => Some content
               end).
Proof.
  intros Hkey Hsql Hin.
  assert (Hne : rows <> []).
  { intros ->. rewrite (export_of_nothing w Hkey Hsql) in Hin.
    destruct Hin as [Heq | [Heq | []]]; discriminate. }
  destruct (exportToJson_run w Hkey Hsql Hne) as (pre & _ & _ & Hrun).
  rewrite Hrun. split.
  - intros e. destruct (fsFault w) as [[e' truncated|e']|]; cbn [snd]; split.
    + intros Heq. inversion Heq; subst. eexists. split; reflexivity.
    + intros (fault & Hfault & <-). inversion Hfault; subst. reflexivity.
    + intros Heq. inversion Heq; subst. eexists. split; reflexivity.
    + intros (fault & Hfault & <-). inversion Hfault; subst. reflexivity.
    + discriminate.
    + intros (fault & Hfault & _). discriminate.
  - intros fault ->.
    destruct fault as [e [|]|e]; cbn [fst snd]; eexists; eexists;
      (split; [reflexivity |]);
      (split; [rewrite length_map, embedInOrder_length, length_map; reflexivity |]).
    + reflexivity.
    + rewrite embedInOrder_frame. reflexivity.
    + reflexivity.
Qed.

Lemma exportToJson_fails_only_on_file_system_witness :
  snd (ExportToJson.exportToJson Scenarios.diskFull) = inl Scenarios.noSpace
  /\ (exists before content,
        snd (fst (ExportToJson.exportToJson Scenarios.diskFull))
        = before ++ [WriteFile ExportToJson.outputPath content; Log RunFailed]
        /\ List.length content = 3
        /\ outputFile (fst (fst (ExportToJson.exportToJson Scenarios.diskFull))) = None).
Proof.
  assert (Hin : In (Log (Transformed (List.length Reference.threeRows)))
                  (snd (fst (ExportToJson.exportToJson Scenarios.diskFull)))).
  { apply logged_lines. vm_compute. auto. }
  destruct (@exportToJson_fails_only_on_file_system _ _ Scenarios.diskFull
              Reference.threeRows eq_refl eq_refl Hin) as [Hthrows Hfile].
  split.
  - apply Hthrows. exists (WriteThrows Scenarios.noSpace true). split; reflexivity.
  - exact (Hfile (WriteThrows Scenarios.noSpace true) eq_refl).
Defined.

(** X11. A missing or empty environment variable makes either script throw
    its configuration error without having touched anything: the world is
    as it was, the products table was not read, the provider was not called,
    no driver call was made and no file was written.  The migration looks at
    [MONGODB_ATLAS_URI] first, so with both variables unusable it reports
    that one. *)
Theorem configuration_is_checked_first `{EmbeddingsModel} (w : World) :
  (truthy (env_MONGODB_ATLAS_URI w) = false ->
   failsUntouched w (Error "MONGODB_ATLAS_URI environment variable is required")
     (Migrate.migrate w))
  /\ (truthy (env_MONGODB_ATLAS_URI w) = true ->
      truthy (env_GOOGLE_API_KEY w) = false ->
      failsUntouched w (Error "GOOGLE_API_KEY environment variable is required")
        (Migrate.migrate w))
  /\ (truthy (env_GOOGLE_API_KEY w) = false ->
      failsUntouched w (Error "GOOGLE_API_KEY environment variable is required")
        (ExportToJson.exportToJson w)).
Proof.
  unfold Migrate.migrate, ExportToJson.exportToJson. rewrite !bind_getWorld.
  split; [| split].
  - intros ->. cbn [negb]. repeat split.
  - intros -> ->. cbn [negb]. repeat split.
  - intros ->. cbn [negb]. repeat split.
Qed.

Lemma configuration_is_checked_first_witness :
  failsUntouched Scenarios.unconfigured
    (Error "MONGODB_ATLAS_URI environment variable is required")
    (Migrate.migrate Scenarios.unconfigured)
  /\ failsUntouched Scenarios.unconfigured
       (Error "GOOGLE_API_KEY environment variable is required")
       (ExportToJson.exportToJson Scenarios.unconfigured).
Proof.
  split.
  - apply (proj1 (configuration_is_checked_first Scenarios.unconfigured)). reflexivity.
  - apply (proj2 (proj2 (configuration_is_checked_first Scenarios.unconfigured))).
    reflexivity.
Defined.

(** X12. With the configuration in place, a SQLite file that cannot be
    opened or read ends either script with the error of SQLite, before the
    provider or the deployment is contacted and before anything is written.
    Only the migration, and only when the file opened, prints the line about
    reading SQLite before the line about the failed run. *)
Theorem sqlite_failure_ends_the_run `{EmbeddingsModel} (w : World) (e : JSError) :
  truthy (env_MONGODB_ATLAS_URI w) = true ->
  truthy (env_GOOGLE_API_KEY w) = true ->
  (sqlite w = CannotOpen e ->
   Migrate.migrate w = (w, [Log RunFailed], inl e)
   /\ ExportToJson.exportToJson w = (w, [Log RunFailed], inl e))
  /\ (sqlite w = CannotQuery e ->
      Migrate.migrate w = (w, [Log SQLiteReadError; Log RunFailed], inl e)
      /\ ExportToJson.exportToJson w = (w, [Log RunFailed], inl e)).
Proof.
  intros Huri Hkey.
  unfold Migrate.migrate, ExportToJson.exportToJson. rewrite !bind_getWorld, Huri, Hkey.
  cbn [negb].
  destruct (migrate_not_extracted w e) as [Hopen Hquery].
  split; intros Hsql; split.
  - erewrite bind_after; [| apply tryCatch_run; apply Hopen; exact Hsql]. reflexivity.
  - erewrite bind_after;
      [| apply tryCatch_run; apply bind_throws; apply export_not_extracted; left; exact Hsql].
    reflexivity.
  - erewrite bind_after; [| apply tryCatch_run; apply Hquery; exact Hsql]. reflexivity.
  - erewrite bind_after;
      [| apply tryCatch_run; apply bind_throws; apply export_not_extracted; right; exact Hsql].
    reflexivity.
Qed.

Lemma sqlite_failure_ends_the_run_witness :
  logLines (snd (fst (Migrate.migrate Scenarios.corruptFile))) = [SQLiteReadError; RunFailed]
  /\ logLines (snd (fst (ExportToJson.exportToJson Scenarios.corruptFile))) = [RunFailed].
Proof.
  destruct (proj2 (@sqlite_failure_ends_the_run _ _ Scenarios.corruptFile Scenarios.malformed
                     eq_refl eq_refl) eq_refl) as [Hmigrate Hexport].
  rewrite Hmigrate, Hexport. split; reflexivity.
Defined.

(** ** The pauses between batches *)

Section Pauses.
Context `{EmbeddingsModel}.

Lemma withoutPause_stay (w : World) : withoutPause w [] w.
Proof. reflexivity. Qed.

Lemma withoutPause_then (w : World) ev1 w1 ev2 w2 :
  withoutPause w ev1 w1 -> withoutPause w1 ev2 w2 -> withoutPause w (ev1 ++ ev2) w2.
Proof. unfold withoutPause. rewrite count_app. intros -> ->. reflexivity. Qed.

Lemma withoutPause_embedQuery text : Respects withoutPause (embeddings_embedQuery text).
Proof.
  intros w w' ev r Hrun. unfold embeddings_embedQuery in Hrun.
  destruct (embedQuery text (embeddings w)) as [p r']. inversion Hrun; subst. reflexivity.
Qed.

Lemma driverCall_one_event {A} call (op : MongoServer -> MongoServer * Result A) (w : World) :
  exists rejected,
    snd (fst (driverCall call op w)) = [Mongo call rejected]
    /\ (forall e, rejected = Some e -> snd (driverCall call op w) = inl e)
    /\ (rejected = None -> exists a, snd (driverCall call op w) = inr a).
Proof.
  unfold driverCall.
  destruct (faults (mongo w)) as [|[e|] rest].
  - destruct (op _) as [srv' [e'|a]]; cbn [fst snd]; eexists; (split; [reflexivity |]);
      split; try congruence; try discriminate; intros _; eexists; reflexivity.
  - cbn [fst snd]. eexists; (split; [reflexivity |]); split; try congruence; discriminate.
  - destruct (op _) as [srv' [e'|a]]; cbn [fst snd]; eexists; (split; [reflexivity |]);
      split; try congruence; try discriminate; intros _; eexists; reflexivity.
Qed.

Lemma withoutPause_driverCall {A} call (op : MongoServer -> MongoServer * Result A) :
  Respects withoutPause (driverCall call op).
Proof.
  intros w w' ev r Hrun. destruct (driverCall_one_event call op w) as (rejected & Hev & _).
  rewrite Hrun in Hev. cbn [fst snd] in Hev. subst ev. reflexivity.
Qed.

End Pauses.

(** Side conditions of a step that announces no pause. *)
Ltac pause_side :=
  match goal with
  | |- Respects _ (embeddings_embedQuery _) => apply withoutPause_embedQuery
  | |- Respects _ (driverCall _ _) => apply withoutPause_driverCall
  | |- withoutPause _ (_ ++ _) _ => eapply withoutPause_then; eassumption
  | |- withoutPause _ _ _ => reflexivity
  end.

Section PausesOfLoops.
Context `{EmbeddingsModel}.

Lemma export_forOf_quiet total batch st :
  Respects withoutPause (forOf batch (ExportToJson.embedProduct total) st).
Proof.
  unfold ExportToJson.embedProduct.
  repeat (intros; first [ respects_step | pause_side ]).
Qed.

Lemma migrate_embed_quiet batch : Respects withoutPause (Migrate.generateEmbeddingsForBatch batch).
Proof.
  unfold Migrate.generateEmbeddingsForBatch, Migrate.embedProduct.
  repeat (intros; first [ respects_step | pause_side ]).
Qed.

Lemma migrate_insert_quiet products : Respects withoutPause (Migrate.insertProductsToMongo products).
Proof.
  unfold Migrate.insertProductsToMongo, Migrate.insertProduct, collection_insertOne.
  repeat (intros; first [ respects_step | pause_side ]).
Qed.

Lemma pauses_none n i size : n <= i -> 0 < size -> (n - i - 1) / size = 0.
Proof. intros Hle Hsize. apply Nat.div_small. lia. Qed.

Lemma pauses_last n i size : i < n -> n <= i + size -> (n - i - 1) / size = 0.
Proof. intros Hlt Hle. apply Nat.div_small. lia. Qed.

Lemma pauses_more n i size :
  i + size < n -> 0 < size -> (n - i - 1) / size = 1 + (n - (i + size) - 1) / size.
Proof.
  intros Hlt Hsize.
  replace (n - i - 1) with ((n - (i + size) - 1) + 1 * size) by lia.
  rewrite Nat.div_add by lia. lia.
Qed.

Lemma export_batchLoop_pauses mongoProducts fuel : forall i st w,
  List.length mongoProducts - i <= fuel ->
  count (isLog isWaiting) (snd (fst (ExportToJson.batchLoop mongoProducts fuel i st w)))
  = (List.length mongoProducts - i - 1) / ExportToJson.BATCH_SIZE.
Proof.
  induction fuel as [|fuel IH]; intros i st w Hfuel; cbn [ExportToJson.batchLoop].
  - rewrite pauses_none by (unfold ExportToJson.BATCH_SIZE; lia). reflexivity.
  - destruct (i <? List.length mongoProducts)%nat eqn:Ei.
    + apply Nat.ltb_lt in Ei.
      destruct (export_forOf_run (List.length mongoProducts)
                  (slice mongoProducts i (i + ExportToJson.BATCH_SIZE)) st w)
        as (ev1 & st' & Hrun1 & _).
      pose proof (export_forOf_quiet _ _ _ _ Hrun1) as Hquiet. unfold withoutPause in Hquiet.
      erewrite bind_after by exact Hrun1. cbn [fst snd]. rewrite count_app, Hquiet.
      destruct (i + ExportToJson.BATCH_SIZE <? List.length mongoProducts)%nat eqn:Ej.
      * apply Nat.ltb_lt in Ej.
        erewrite bind_after by reflexivity. cbn [fst snd]. rewrite count_app.
        rewrite IH by (unfold ExportToJson.BATCH_SIZE in *; lia).
        rewrite (@pauses_more (List.length mongoProducts) i ExportToJson.BATCH_SIZE)
          by (unfold ExportToJson.BATCH_SIZE in *; lia).
        reflexivity.
      * apply Nat.ltb_ge in Ej.
        erewrite bind_after by reflexivity. cbn [fst snd]. rewrite count_app.
        rewrite IH by (unfold ExportToJson.BATCH_SIZE in *; lia).
        rewrite (@pauses_last (List.length mongoProducts) i ExportToJson.BATCH_SIZE)
          by lia.
        rewrite pauses_none by (unfold ExportToJson.BATCH_SIZE in *; lia).
        reflexivity.
    + apply Nat.ltb_ge in Ei.
      rewrite pauses_none by (unfold ExportToJson.BATCH_SIZE; lia). reflexivity.
Qed.

Lemma migrate_batchLoop_pauses mongoProducts fuel : forall i totals w,
  List.length mongoProducts - i <= fuel ->
  count (isLog isWaiting) (snd (fst (Migrate.batchLoop mongoProducts fuel i totals w)))
  = (List.length mongoProducts - i - 1) / Migrate.BATCH_SIZE.
Proof.
  induction fuel as [|fuel IH]; intros i totals w Hfuel; cbn [Migrate.batchLoop].
  - rewrite pauses_none by (unfold Migrate.BATCH_SIZE; lia). reflexivity.
  - destruct (i <? List.length mongoProducts)%nat eqn:Ei.
    + apply Nat.ltb_lt in Ei.
      destruct (generateEmbeddingsForBatch_run
                  (slice mongoProducts i (i + Migrate.BATCH_SIZE)) w)
        as (ev1 & Hrun1 & _).
      pose proof (migrate_embed_quiet _ _ Hrun1) as Hquiet1. unfold withoutPause in Hquiet1.
      erewrite bind_after by exact Hrun1. cbn [fst snd]. rewrite count_app, Hquiet1.
      match goal with
      | |- context [bind (Migrate.insertProductsToMongo ?products) _ ?w1] =>
          destruct (insertProductsToMongo_run products w1) as (srv & ev2 & res & Hrun2 & _)
      end.
      pose proof (migrate_insert_quiet _ _ Hrun2) as Hquiet2. unfold withoutPause in Hquiet2.
      erewrite bind_after by exact Hrun2. cbn [fst snd]. rewrite count_app, Hquiet2.
      destruct (i + Migrate.BATCH_SIZE <? List.length mongoProducts)%nat eqn:Ej.
      * apply Nat.ltb_lt in Ej.
        erewrite bind_after by reflexivity. cbn [fst snd]. rewrite count_app.
        rewrite IH by (unfold Migrate.BATCH_SIZE in *; lia).
        rewrite (@pauses_more (List.length mongoProducts) i Migrate.BATCH_SIZE)
          by (unfold Migrate.BATCH_SIZE in *; lia).
        reflexivity.
      * apply Nat.ltb_ge in Ej.
        erewrite bind_after by reflexivity. cbn [fst snd]. rewrite count_app.
        rewrite IH by (unfold Migrate.BATCH_SIZE in *; lia).
        rewrite (@pauses_last (List.length mongoProducts) i Migrate.BATCH_SIZE) by lia.
        rewrite pauses_none by (unfold Migrate.BATCH_SIZE in *; lia).
        reflexivity.
    + apply Nat.ltb_ge in Ei.
      rewrite pauses_none by (unfold Migrate.BATCH_SIZE; lia). reflexivity.
Qed.

End PausesOfLoops.

(** X13. The batch loops announce a pause after every batch but the last
    one: over [n] records the export, with batches of 25, announces
    [(n - 1) / 25] pauses and the migration, with batches of 50,
    [(n - 1) / 50], whatever the provider and the deployment answer; a run
    over at most one batch never pauses. *)
Theorem batches_are_paced `{EmbeddingsModel} (mongoProducts : list MongoProduct.t)
    (st : ExportToJson.Progress) (totals : Migrate.InsertResult) (w : World) :
  count (isLog isWaiting)
    (snd (fst (ExportToJson.batchLoop mongoProducts (List.length mongoProducts) 0 st w)))
  = (List.length mongoProducts - 1) / 25
  /\ count (isLog isWaiting)
       (snd (fst (Migrate.batchLoop mongoProducts (List.length mongoProducts) 0 totals w)))
     = (List.length mongoProducts - 1) / 50.
Proof.
  split.
  - rewrite export_batchLoop_pauses by lia. rewrite Nat.sub_0_r. reflexivity.
  - rewrite migrate_batchLoop_pauses by lia. rewrite Nat.sub_0_r. reflexivity.
Qed.

(** ** What is sent to the embedding provider *)

Section Queries.
Context `{EmbeddingsModel}.

Lemma withoutQuery_then (w : World) ev1 w1 ev2 w2 :
  withoutQuery w ev1 w1 -> withoutQuery w1 ev2 w2 -> withoutQuery w (ev1 ++ ev2) w2.
Proof. unfold withoutQuery. rewrite embedQueries_app. intros -> ->. reflexivity. Qed.

Lemma withoutQuery_driverCall {A} call (op : MongoServer -> MongoServer * Result A) :
  Respects withoutQuery (driverCall call op).
Proof.
  intros w w' ev r Hrun. destruct (driverCall_one_event call op w) as (rejected & Hev & _).
  rewrite Hrun in Hev. cbn [fst snd] in Hev. subst ev. reflexivity.
Qed.

Lemma queries_of_bind {A B} (m : M A) (k : A -> M B) (w : World) :
  (forall a, Respects withoutQuery (k a)) ->
  embedQueries (snd (fst (bind m k w))) = embedQueries (snd (fst (m w))).
Proof.
  intros Hk. unfold bind. destruct (m w) as [[w1 ev1] [e|a]]; [reflexivity |].
  destruct (k a w1) as [[w2 ev2] r] eqn:Ek. cbn [fst snd].
  rewrite embedQueries_app, (Hk a _ _ _ _ Ek). apply app_nil_r.
Qed.

Lemma events_of_tryCatch {A} (m : M A) (w : World) :
  snd (fst (tryCatch m w)) = snd (fst (m w)).
Proof. unfold tryCatch. destruct (m w) as [[w1 ev1] r]. reflexivity. Qed.

Lemma embedClient_queries (product : MongoProduct.t) (w : World) :
  exists k,
    1 <= k <= 3
    /\ embedQueries (snd (fst (embedClient product w)))
       = repeat (MongoProduct.embedding_text product) k.
Proof.
  destruct (retryLoop_embed_trace (MongoProduct.embedding_text product) defaultMaxRetries
              (Z.to_nat defaultMaxRetries) 1 w eq_refl)
    as (k & Hk & Hpos & Hq & _).
  exists k. split.
  - change (Z.to_nat defaultMaxRetries) with 3 in *. lia.
  - unfold embedClient, retryWithBackoff.
    destruct (retryLoop (embeddings_embedQuery (MongoProduct.embedding_text product))
                defaultMaxRetries (Z.to_nat defaultMaxRetries) 1 w)
      as [[w' ev] [v|e|]]; exact Hq.
Qed.

Lemma queriesInOrder_app l1 l2 : forall calls1 calls2,
  List.length calls1 = List.length l1 ->
  queriesInOrder (l1 ++ l2) (calls1 ++ calls2)
  = queriesInOrder l1 calls1 ++ queriesInOrder l2 calls2.
Proof.
  induction l1 as [|p l1 IH]; intros [|k calls1] calls2 Hlen; try discriminate.
  - reflexivity.
  - cbn [app queriesInOrder]. rewrite IH by (simpl in Hlen; lia). apply app_assoc.
Qed.

End Queries.

(** Side conditions of a step that sends nothing to the provider. *)
Ltac query_side :=
  match goal with
  | |- Respects _ (driverCall _ _) => apply withoutQuery_driverCall
  | |- withoutQuery _ (_ ++ _) _ => eapply withoutQuery_then; eassumption
  | |- withoutQuery _ _ _ => reflexivity
  end.

Section QueriesOfLoops.
Context `{EmbeddingsModel}.

Lemma export_embedProduct_queries total st product w :
  embedQueries (snd (fst (ExportToJson.embedProduct total st product w)))
  = embedQueries (snd (fst (embedClient product w))).
Proof.
  unfold ExportToJson.embedProduct.
  rewrite queries_of_bind; [apply f_equal, events_of_tryCatch |].
  intros r. repeat (intros; first [ respects_step | query_side ]).
Qed.

Lemma migrate_embedProduct_queries acc product w :
  embedQueries (snd (fst (Migrate.embedProduct acc product w)))
  = embedQueries (snd (fst (embedClient product w))).
Proof.
  unfold Migrate.embedProduct.
  erewrite bind_after by reflexivity. cbn [fst snd]. cbv beta.
  rewrite embedQueries_app, queries_of_bind; [rewrite events_of_tryCatch; reflexivity |].
  intros r. repeat (intros; first [ respects_step | query_side ]).
Qed.

Lemma migrate_insert_no_query products :
  Respects withoutQuery (Migrate.insertProductsToMongo products).
Proof.
  unfold Migrate.insertProductsToMongo, Migrate.insertProduct, collection_insertOne.
  repeat (intros; first [ respects_step | query_side ]).
Qed.

Lemma export_forOf_queries total batch : forall st w,
  exists calls,
    List.length calls = List.length batch
    /\ Forall (fun k => 1 <= k <= 3) calls
    /\ embedQueries (snd (fst (forOf batch (ExportToJson.embedProduct total) st w)))
       = queriesInOrder batch calls.
Proof.
  induction batch as [|product rest IH]; intros st w.
  - exists []. repeat split. constructor.
  - destruct (export_embedProduct_run total st product w) as (ev1 & st' & Hrun1 & _).
    pose proof (export_embedProduct_queries total st product w) as Hq1.
    rewrite Hrun1 in Hq1. cbn [fst snd] in Hq1.
    destruct (embedClient_queries product w) as (k & Hk & Hqk).
    destruct (IH st' (fst (fst (embedClient product w)))) as (calls & Hlen & Hall & Hq).
    exists (k :: calls). split; [simpl; lia |]. split; [constructor; assumption |].
    cbn [forOf]. erewrite bind_after by exact Hrun1. cbn [fst snd queriesInOrder].
    rewrite embedQueries_app, Hq1, Hqk, Hq. reflexivity.
Qed.

Lemma migrate_forOf_queries batch : forall acc w,
  exists calls,
    List.length calls = List.length batch
    /\ Forall (fun k => 1 <= k <= 3) calls
    /\ embedQueries (snd (fst (forOf batch Migrate.embedProduct acc w)))
       = queriesInOrder batch calls.
Proof.
  induction batch as [|product rest IH]; intros acc w.
  - exists []. repeat split. constructor.
  - destruct (migrate_embedProduct_run acc product w) as (ev1 & Hrun1 & _).
    pose proof (migrate_embedProduct_queries acc product w) as Hq1.
    rewrite Hrun1 in Hq1. cbn [fst snd] in Hq1.
    destruct (embedClient_queries product w) as (k & Hk & Hqk).
    match type of Hrun1 with
    | _ = (?w1, _, inr ?acc') => destruct (IH acc' w1) as (calls & Hlen & Hall & Hq)
    end.
    exists (k :: calls). split; [simpl; lia |]. split; [constructor; assumption |].
    cbn [forOf]. erewrite bind_after by exact Hrun1. cbn [fst snd queriesInOrder].
    rewrite embedQueries_app, Hq1, Hqk, Hq. reflexivity.
Qed.

Lemma slice_batch {A} (l : list A) i size :
  slice l i (i + size) = firstn size (skipn i l)
  /\ skipn i l = slice l i (i + size) ++ skipn (i + size) l.
Proof.
  unfold slice. replace (i + size - i) with size by lia. split; [reflexivity |].
  rewrite (Nat.add_comm i size), <- skipn_skipn. symmetry. apply firstn_skipn.
Qed.

Lemma export_batchLoop_queries mongoProducts fuel : forall i st w,
  List.length mongoProducts - i <= fuel ->
  exists calls,
    List.length calls = List.length (skipn i mongoProducts)
    /\ Forall (fun k => 1 <= k <= 3) calls
    /\ embedQueries (snd (fst (ExportToJson.batchLoop mongoProducts fuel i st w)))
       = queriesInOrder (skipn i mongoProducts) calls.
Proof.
  induction fuel as [|fuel IH]; intros i st w Hfuel; cbn [ExportToJson.batchLoop].
  - exists []. rewrite skipn_all2 by lia. repeat split. constructor.
  - destruct (i <? List.length mongoProducts)%nat eqn:Ei.
    + apply Nat.ltb_lt in Ei.
      destruct (slice_batch mongoProducts i ExportToJson.BATCH_SIZE) as [_ Hsplit].
      destruct (export_forOf_run (List.length mongoProducts)
                  (slice mongoProducts i (i + ExportToJson.BATCH_SIZE)) st w)
        as (ev1 & st' & Hrun1 & _).
      destruct (export_forOf_queries (List.length mongoProducts)
                  (slice mongoProducts i (i + ExportToJson.BATCH_SIZE)) st w)
        as (calls1 & Hlen1 & Hall1 & Hq1).
      rewrite Hrun1 in Hq1. cbn [fst snd] in Hq1.
      match type of Hrun1 with
      | _ = (?w1, _, _) =>
          destruct (IH (i + ExportToJson.BATCH_SIZE) st' w1
                      ltac:(unfold ExportToJson.BATCH_SIZE in *; lia))
            as (calls2 & Hlen2 & Hall2 & Hq2)
      end.
      exists (calls1 ++ calls2).
      split; [rewrite Hsplit, !length_app; lia |].
      split; [apply Forall_app; split; assumption |].
      erewrite bind_after by exact Hrun1. cbn [fst snd].
      rewrite embedQueries_app, Hq1.
      rewrite Hsplit at 1. rewrite queriesInOrder_app by exact Hlen1. f_equal.
      destruct (i + ExportToJson.BATCH_SIZE <? List.length mongoProducts)%nat;
        erewrite bind_after by reflexivity; cbn [fst snd];
        rewrite embedQueries_app; exact Hq2.
    + apply Nat.ltb_ge in Ei. exists []. rewrite skipn_all2 by lia.
      repeat split. constructor.
Qed.

Lemma migrate_batchLoop_queries mongoProducts fuel : forall i totals w,
  List.length mongoProducts - i <= fuel ->
  exists calls,
    List.length calls = List.length (skipn i mongoProducts)
    /\ Forall (fun k => 1 <= k <= 3) calls
    /\ embedQueries (snd (fst (Migrate.batchLoop mongoProducts fuel i totals w)))
       = queriesInOrder (skipn i mongoProducts) calls.
Proof.
  induction fuel as [|fuel IH]; intros i totals w Hfuel; cbn [Migrate.batchLoop].
  - exists []. rewrite skipn_all2 by lia. repeat split. constructor.
  - destruct (i <? List.length mongoProducts)%nat eqn:Ei.
    + apply Nat.ltb_lt in Ei.
      destruct (slice_batch mongoProducts i Migrate.BATCH_SIZE) as [_ Hsplit].
      destruct (generateEmbeddingsForBatch_run
                  (slice mongoProducts i (i + Migrate.BATCH_SIZE)) w)
        as (ev1 & Hrun1 & _).
      destruct (migrate_forOf_queries (slice mongoProducts i (i + Migrate.BATCH_SIZE)) [] w)
        as (calls1 & Hlen1 & Hall1 & Hq1).
      change (forOf (slice mongoProducts i (i + Migrate.BATCH_SIZE)) Migrate.embedProduct [])
        with (Migrate.generateEmbeddingsForBatch
                (slice mongoProducts i (i + Migrate.BATCH_SIZE))) in Hq1.
      rewrite Hrun1 in Hq1. cbn [fst snd] in Hq1.
      match type of Hrun1 with
      | _ = (?w1, _, inr ?products) =>
          destruct (insertProductsToMongo_run products w1) as (srv & ev2 & res & Hrun2 & _)
      end.
      pose proof (migrate_insert_no_query _ _ Hrun2) as Hq2. unfold withoutQuery in Hq2.
      match type of Hrun2 with
      | _ = (?w2, _, _) =>
          destruct (IH (i + Migrate.BATCH_SIZE)
                      {| Migrate.success := Migrate.success totals + Migrate.success res;
                         Migrate.failed := Migrate.failed totals + Migrate.failed res |} w2
                      ltac:(unfold Migrate.BATCH_SIZE in *; lia))
            as (calls3 & Hlen3 & Hall3 & Hq3)
      end.
      exists (calls1 ++ calls3).
      split; [rewrite Hsplit, !length_app; lia |].
      split; [apply Forall_app; split; assumption |].
      erewrite bind_after by exact Hrun1. cbn [fst snd].
      erewrite bind_after by exact Hrun2. cbn [fst snd].
      rewrite !embedQueries_app, Hq1, Hq2. cbn [app].
      rewrite Hsplit at 1. rewrite queriesInOrder_app by exact Hlen1. f_equal.
      destruct (i + Migrate.BATCH_SIZE <? List.length mongoProducts)%nat;
        erewrite bind_after by reflexivity; cbn [fst snd];
        rewrite embedQueries_app; exact Hq3.
    + apply Nat.ltb_ge in Ei. exists []. rewrite skipn_all2 by lia.
      repeat split. constructor.
Qed.

End QueriesOfLoops.

(** X14. Both batch loops send the embedding text of every record to the
    provider, in extraction order, each at least once and at most three
    times, and send nothing else: neither a failed record nor a rejected
    insert makes a loop skip a record, go back to one, or ask again after
    the third attempt. *)
Theorem every_record_is_sent_in_order `{EmbeddingsModel} (mongoProducts : list MongoProduct.t)
    (st : ExportToJson.Progress) (totals : Migrate.InsertResult) (w : World) :
  (exists calls,
      List.length calls = List.length mongoProducts
      /\ Forall (fun k => 1 <= k <= 3) calls
      /\ embedQueries
           (snd (fst (ExportToJson.batchLoop mongoProducts (List.length mongoProducts) 0 st w)))
         = queriesInOrder mongoProducts calls)
  /\ (exists calls,
        List.length calls = List.length mongoProducts
        /\ Forall (fun k => 1 <= k <= 3) calls
        /\ embedQueries
             (snd (fst (Migrate.batchLoop mongoProducts (List.length mongoProducts) 0
                          totals w)))
           = queriesInOrder mongoProducts calls).
Proof.
  split.
  - exact (@export_batchLoop_queries _ _ mongoProducts (List.length mongoProducts) 0 st w
             ltac:(lia)).
  - exact (@migrate_batchLoop_queries _ _ mongoProducts (List.length mongoProducts) 0 totals w
             ltac:(lia)).
Qed.

(** ** The index, the verification and the connection *)

(** X15. [ensureVectorSearchIndex] never throws and never touches the
    documents, whatever the deployment answers: it prints exactly one of its
    three outcome lines.  When the index is already listed it only lists the
    indexes; when it prints no error the index exists afterwards; and on a
    deployment that rejects nothing it prints no error, so a second call
    finds the index and creates nothing. *)
Theorem ensureVectorSearchIndex_never_fails `{EmbeddingsModel} (w : World) :
  exists w' ev line,
    Migrate.ensureVectorSearchIndex w = (w', ev, inr tt)
    /\ logLines ev = [line]
    /\ In line [IndexAlreadyExists; IndexCreated; IndexError]
    /\ documents (mongo w') = documents (mongo w)
    /\ (existsb (String.eqb "vector_index") (searchIndexes (mongo w)) = true ->
        searchIndexes (mongo w') = searchIndexes (mongo w)
        /\ mongoCalls ev = [(ListSearchIndexes, hd None (faults (mongo w)))])
    /\ (line <> IndexError ->
        existsb (String.eqb "vector_index") (searchIndexes (mongo w')) = true)
    /\ (faults (mongo w) = [] -> line <> IndexError).
Proof.
  destruct w as [uri key sq emb [docs idx uq fs] cf ff out].
  unfold Migrate.ensureVectorSearchIndex, collection_listSearchIndexes,
    collection_createSearchIndex, bind, tryCatch, driverCall, console, emit, ret.
  cbn [mongo faults setFaults searchIndexes documents uniqueSku setMongo].
  assert (Hnew : existsb (String.eqb "vector_index") (idx ++ ["vector_index"]) = true).
  { rewrite existsb_app. apply orb_true_iff. right. reflexivity. }
  destruct fs as [|[e|] fs']; destruct (existsb (String.eqb "vector_index") idx) eqn:E;
    try (destruct fs' as [|[e2|] fs'']);
    cbn [mongo faults setFaults setSearchIndexes searchIndexes documents uniqueSku setMongo
         tl hd app];
    (do 3 eexists; split; [reflexivity | split; [reflexivity |]]);
    cbn [mongo faults setFaults setSearchIndexes searchIndexes documents uniqueSku setMongo
         tl hd app logLines mongoCalls flat_map In];
    repeat split; auto; try congruence; try discriminate.
Qed.

Lemma ensureVectorSearchIndex_never_fails_witness :
  existsb (String.eqb "vector_index")
    (searchIndexes (mongo (fst (fst (Migrate.ensureVectorSearchIndex Scenarios.reliableWorld)))))
  = true.
Proof.
  destruct (ensureVectorSearchIndex_never_fails Scenarios.reliableWorld)
    as (w' & ev & line & Hrun & _ & _ & _ & _ & Hexists & Hclean).
  rewrite Hrun. cbn [fst]. apply Hexists. apply Hclean. reflexivity.
Defined.

Section Verification.
Context `{EmbeddingsModel}.

Lemma filter_all {A} (l : list A) : filter (fun _ => true) l = l.
Proof. induction l as [|a l IH]; simpl; congruence. Qed.

End Verification.

(** X16. [verifyMigration] only reads: the documents, the search indexes and
    the uniqueness constraint are as before, whether it returns or throws.
    When it returns it has counted twice, printed the number of stored
    documents next to the number of those that carry an embedding, and
    fetched one sample, in that order. *)
Theorem verifyMigration_reads_only `{EmbeddingsModel} (w : World) :
  documents (mongo (fst (fst (Migrate.verifyMigration w)))) = documents (mongo w)
  /\ searchIndexes (mongo (fst (fst (Migrate.verifyMigration w)))) = searchIndexes (mongo w)
  /\ uniqueSku (mongo (fst (fst (Migrate.verifyMigration w)))) = uniqueSku (mongo w)
  /\ (snd (Migrate.verifyMigration w) = inr tt ->
      snd (fst (Migrate.verifyMigration w))
      = [Mongo CountDocuments None;
         Mongo CountDocuments None;
         Log (Verification
                (List.length (documents (mongo w)))
                (List.length (filter MongoProduct.hasEmbedding (documents (mongo w)))));
         Mongo FindOne None]).
Proof.
  destruct w as [uri key sq emb [docs idx uq fs] cf ff out].
  unfold Migrate.verifyMigration, collection_countDocuments, collection_findOne,
    bind, driverCall, console, emit, ret.
  cbn [mongo faults setFaults searchIndexes documents uniqueSku setMongo].
  rewrite filter_all.
  destruct fs as [|[e|] [|[e2|] [|[e3|] fs']]];
    cbn [mongo faults setFaults searchIndexes documents uniqueSku setMongo tl fst snd app];
    repeat split; try discriminate; intros _; reflexivity.
Qed.

Lemma verifyMigration_reads_only_witness :
  logLines (snd (fst (Migrate.verifyMigration Scenarios.reliableWorld))) = [Verification 1 0].
Proof.
  rewrite (proj2 (proj2 (proj2 (verifyMigration_reads_only Scenarios.reliableWorld))));
    [reflexivity | vm_compute; reflexivity].
Defined.

Section Connection.
Context `{EmbeddingsModel}.

Lemma events_of_bind {A B} (m : M A) (k : A -> M B) (w : World) :
  exists rest,
    snd (fst (bind m k w)) = snd (fst (m w)) ++ rest
    /\ (forall e, snd (m w) = inl e -> rest = [] /\ snd (bind m k w) = inl e).
Proof.
  unfold bind. destruct (m w) as [[w1 ev1] [e|a]]; cbn [fst snd].
  - exists []. split; [symmetry; apply app_nil_r |]. intros e' Heq. inversion Heq. auto.
  - destruct (k a w1) as [[w2 ev2] r]. cbn [fst snd]. exists ev2.
    split; [reflexivity | discriminate].
Qed.

Lemma run_of_finally {A} (m : M A) (cleanup : M unit) (w : World) :
  snd (fst (finally m cleanup w))
  = snd (fst (m w)) ++ snd (fst (cleanup (fst (fst (m w)))))
  /\ (forall e, snd (cleanup (fst (fst (m w)))) = inl e -> snd (finally m cleanup w) = inl e).
Proof.
  unfold finally. destruct (m w) as [[w1 ev1] r]. cbn [fst snd].
  destruct (cleanup w1) as [[w2 ev2] [e|u]]; cbn [fst snd]; split; try reflexivity;
    try discriminate.
  intros e' Heq. inversion Heq. reflexivity.
Qed.

Lemma events_of_rethrow {A} (m : M A) (w : World) (e : JSError) :
  snd (m w) = inl e ->
  snd (fst ((r <- tryCatch m ;;
             match r with
             | inr _ => ret tt
             | inl error => console RunFailed ;; throw error
             end) w))
  = snd (fst (m w)) ++ [Log RunFailed].
Proof.
  intros He. unfold bind, tryCatch.
  destruct (m w) as [[w1 ev1] r1]. cbn [fst snd] in *. subst r1. reflexivity.
Qed.

End Connection.

(** X17. The driver calls of a run of the migration are bracketed: either
    the run makes none, or its first driver call is [connect] and its last
    is [close], whatever happened in between, so the connection is closed
    after a failed step as well.  After a rejected [connect] no other call
    is made before [close], and a rejected [close] is the error of the run.
    When [new MongoClient] throws there is no client, and neither [connect]
    nor [close] is called. *)
Theorem migrate_opens_and_closes `{EmbeddingsModel} (w : World) :
  (forall e,
      mongoClientFault w = Some e -> mongoCalls (snd (fst (Migrate.migrate w))) = [])
  /\ (mongoCalls (snd (fst (Migrate.migrate w))) = []
      \/ exists opened steps closed,
           mongoCalls (snd (fst (Migrate.migrate w)))
           = (Connect, opened) :: steps ++ [(Close, closed)]
           /\ (forall e, opened = Some e -> steps = [])
           /\ (forall e, closed = Some e -> snd (Migrate.migrate w) = inl e)).
Proof.
  destruct (migrate_run w) as [[Hnone _] | (rows & Hclient & _ & _ & Hrun)].
  { split; [intros e _; exact Hnone | left; exact Hnone]. }
  split; [intros e He; congruence |]. right.
  rewrite Hrun. cbn [fst snd]. rewrite mongoCalls_app. cbn [mongoCalls flat_map app].
  fold (mongoCalls (snd (fst (withClient
                                (map Migrate.transformProductToMongoSchema rows) w)))).
  unfold withClient.
  match goal with
  | |- context [finally ?body client_close w] =>
      destruct (run_of_finally body client_close w) as [Hev Hres];
      set (run := finally body client_close w) in *;
      set (inside := body w) in *
  end.
  destruct (driverCall_one_event Close (fun srv => (srv, inr tt)) (fst (fst inside)))
    as (closed & Hclose & Hrejected & _).
  change (driverCall Close (fun srv => (srv, inr tt))) with client_close in *.
  rewrite Hclose in Hev.
  subst inside.
  match type of Hev with
  | context [bind (tryCatch ?steps) ?handler w] =>
      destruct (events_of_bind (tryCatch steps) handler w) as (after & Hbody & _);
      pose proof (events_of_tryCatch steps w) as Htry;
      pose proof (events_of_rethrow steps w) as Hhandler
  end.
  match type of Htry with
  | context [bind client_connect ?k w] =>
      destruct (events_of_bind client_connect k w) as (next & Hsteps & Hfailed)
  end.
  destruct (driverCall_one_event Connect (fun srv => (srv, inr tt)) w)
    as (opened & Hconnect & Hopened & _).
  change (driverCall Connect (fun srv => (srv, inr tt))) with client_connect in *.
  rewrite Hconnect in Hsteps.
  exists opened, (mongoCalls (next ++ after)), closed.
  split; [| split].
  - rewrite Hev, Hbody, Htry, Hsteps. rewrite !mongoCalls_app. cbn [mongoCalls flat_map app].
    rewrite <- !app_assoc. reflexivity.
  - intros e ->. destruct (Hfailed e (Hopened e eq_refl)) as [-> Hthrown].
    specialize (Hhandler e Hthrown).
    rewrite Hbody, Htry, Hsteps in Hhandler. cbn [app] in Hhandler.
    inversion Hhandler. reflexivity.
  - intros e ->. apply Hres. apply Hrejected. reflexivity.
Qed.

Lemma migrate_opens_and_closes_witness :
  mongoCalls (snd (fst (Migrate.migrate Scenarios.malformedUri))) = []
  /\ List.length (mongoCalls (snd (fst (Migrate.migrate Scenarios.unreachable)))) = 2.
Proof.
  split.
  - apply (proj1 (migrate_opens_and_closes Scenarios.malformedUri) Scenarios.invalidScheme).
    reflexivity.
  - destruct (proj2 (migrate_opens_and_closes Scenarios.unreachable))
      as [Hnone | (opened & steps & closed & Hcalls & Hfirst & _)].
    + apply (f_equal (@List.length _)) in Hnone. vm_compute in Hnone. discriminate.
    + assert (Hopened : opened = Some Reference.writeConcernError).
      { apply (f_equal (fun l => option_map snd (hd_error l))) in Hcalls.
        vm_compute in Hcalls. injection Hcalls as <-. reflexivity. }
      rewrite Hcalls, (Hfirst _ Hopened). reflexivity.
Defined.

(** ** The two scripts side by side *)

Section SideBySide.
Context `{EmbeddingsModel}.

Lemma kept_are_embedded (outcomes : list Outcome) :
  Forall (fun product => MongoProduct.hasEmbedding product = false) (map fst outcomes) ->
  kept outcomes = filter MongoProduct.hasEmbedding (map delivered outcomes).
Proof.
  induction outcomes as [|[product [e|]] rest IH]; intros Hall; [reflexivity | |];
    inversion Hall as [|? ? Hhead Htail]; subst; cbn [map fst] in *;
    unfold kept; cbn [flat_map map delivered snd fst filter app];
    fold (kept rest).
  - change (MongoProduct.hasEmbedding (MongoProduct.withEmbedding product e)) with true.
    cbn iota. rewrite (IH Htail). reflexivity.
  - rewrite Hhead. exact (IH Htail).
Qed.

Lemma transformed_without_embedding (rows : list SQLiteProduct.t) :
  Forall (fun product => MongoProduct.hasEmbedding product = false)
    (map ExportToJson.transformProduct rows).
Proof. apply Forall_forall. intros product Hin. apply in_map_iff in Hin.
  destruct Hin as (row & <- & _). reflexivity.
Qed.

End SideBySide.

(** X18. From the same rows and the same provider, the two scripts agree
    on the records that carry an embedding: the documents a completed
    migration handed to [insertOne] are, in the same order, the entries with
    an embedding of the sequence the export hands to [fs.writeFileSync];
    the entries without one are the records the migration left out. *)
Theorem migration_inserts_what_export_embeds `{EmbeddingsModel} (w w' : World)
    (ev : list Event) (rows : list SQLiteProduct.t) :
  truthy (env_GOOGLE_API_KEY w) = true ->
  sqlite w = Rows rows ->
  rows <> [] ->
  Migrate.migrate w = (w', ev, inr tt) ->
  exists content,
    written (snd (fst (ExportToJson.exportToJson w))) = [content]
    /\ List.length content = List.length rows
    /\ insertAttempts ev = filter MongoProduct.hasEmbedding content.
Proof.
  intros Hkey Hsql Hne Hrun.
  destruct (@migrate_completed_run _ _ _ _ _ _ Hrun Hsql Hne)
    as (pre & deleted & loop & verification & Hev & Hpre & _ & Hver & _ & _ & Hloop & _).
  exists (map delivered (snd (embedInOrder (map ExportToJson.transformProduct rows) w))).
  split; [apply exportToJson_writes_once; assumption |].
  split; [rewrite length_map, embedInOrder_length, length_map; reflexivity |].
  rewrite <- kept_are_embedded
    by (rewrite embedInOrder_records; apply transformed_without_embedding).
  rewrite Hev, !insertAttempts_app, Hpre, Hver, Hloop. cbn [insertAttempts flat_map app].
  rewrite app_nil_r. reflexivity.
Qed.

Lemma migration_inserts_what_export_embeds_witness :
  exists content,
    written (snd (fst (ExportToJson.exportToJson Scenarios.reliableWorld))) = [content]
    /\ List.length content = 3
    /\ insertAttempts (snd (fst (Migrate.migrate Scenarios.reliableWorld)))
       = filter MongoProduct.hasEmbedding content.
Proof.
  apply (@migration_inserts_what_export_embeds _ _ Scenarios.reliableWorld
           (fst (fst (Migrate.migrate Scenarios.reliableWorld)))
           (snd (fst (Migrate.migrate Scenarios.reliableWorld)))
           Reference.threeRows);
    [reflexivity | reflexivity | discriminate |].
  apply run_with_result. vm_compute. reflexivity.
Defined.

(** ** What the verification of a completed migration prints *)

Section CompletedVerification.
Context `{EmbeddingsModel}.

Lemma verifyMigration_returned (w w1 : World) (ev : list Event) :
  Migrate.verifyMigration w = (w1, ev, inr tt) ->
  ev = [Mongo CountDocuments None;
        Mongo CountDocuments None;
        Log (Verification
               (List.length (documents (mongo w)))
               (List.length (filter MongoProduct.hasEmbedding (documents (mongo w)))));
        Mongo FindOne None].
Proof.
  destruct w as [uri key sq emb [docs idx uq fs] cf ff out].
  unfold Migrate.verifyMigration, collection_countDocuments, collection_findOne,
    bind, driverCall, console, emit, ret.
  cbn [mongo faults setFaults searchIndexes documents uniqueSku setMongo].
  rewrite filter_all.
  destruct fs as [|[e|] [|[e2|] [|[e3|] fs']]];
    cbn [mongo faults setFaults searchIndexes documents uniqueSku setMongo tl fst snd app];
    intros Hrun; inversion Hrun; reflexivity.
Qed.

Lemma inserted_were_attempted (ev : list Event) :
  incl (insertedDocuments ev) (insertAttempts ev).
Proof.
  induction ev as [|e ev IH]; [intros d [] |].
  destruct e as [ms|text|call [error|]|path content|line]; try exact IH;
    destruct call; try exact IH.
  - intros d Hin. right. exact (IH d Hin).
  - intros d [<- | Hin]; [left; reflexivity | right; exact (IH d Hin)].
Qed.

Lemma kept_have_embedding (outcomes : list Outcome) :
  Forall (fun d => MongoProduct.hasEmbedding d = true) (kept outcomes).
Proof.
  induction outcomes as [|[product [e|]] rest IH]; [constructor | |].
  - constructor; [reflexivity | exact IH].
  - exact IH.
Qed.

Lemma filter_keeps_all {A} (f : A -> bool) (l : list A) :
  Forall (fun a => f a = true) l -> filter f l = l.
Proof.
  induction 1 as [|a l Ha _ IH]; [reflexivity |]. simpl. rewrite Ha, IH. reflexivity.
Qed.

End CompletedVerification.

(** X19. After a migration that ends normally over at least one row, the
    verification line is always balanced: the number of documents it prints
    and the number of documents with an embedding it prints are both the
    number of documents in the collection at the end of the run, so
    "Missing embeddings" is 0 however many embedding calls failed. *)
Theorem completed_migration_verifies_balanced `{EmbeddingsModel} (w w' : World)
    (ev : list Event) (rows : list SQLiteProduct.t) :
  Migrate.migrate w = (w', ev, inr tt) ->
  sqlite w = Rows rows ->
  rows <> [] ->
  In (Log (Verification (List.length (documents (mongo w')))
                        (List.length (documents (mongo w'))))) ev
  /\ Forall (fun d => MongoProduct.hasEmbedding d = true) (documents (mongo w')).
Proof.
  intros Hrun Hsql Hne.
  unfold Migrate.migrate in Hrun.
  apply bind_inr_inv in Hrun. destruct Hrun as (w0 & ev0 & a0 & evA & Hget & Hrun & ->).
  inversion Hget; subst w0 ev0 a0. clear Hget.
  destruct (truthy (env_MONGODB_ATLAS_URI w)); [| discriminate].
  destruct (truthy (env_GOOGLE_API_KEY w)); [| discriminate].
  cbn [negb] in Hrun.
  apply bind_inr_inv in Hrun. destruct Hrun as (w1 & ev1 & r1 & evB & Hext & Hrun & ->).
  rewrite (migrate_extracted w Hsql) in Hext. inversion Hext; subst w1 ev1 r1. clear Hext.
  destruct rows as [|row rows']; [congruence |].
  cbn [List.length Nat.eqb] in Hrun.
  remember (map Migrate.transformProductToMongoSchema (row :: rows')) as mongoProducts
    eqn:Hproducts.
  apply bind_inr_inv in Hrun. destruct Hrun as (w2 & ev2 & [] & evC & Hlog & Hrun & ->).
  apply console_inv in Hlog. destruct Hlog as [-> ->].
  apply bind_inr_inv in Hrun. destruct Hrun as (wn & evn & client & evD & Hnew & Hrun & ->).
  apply tryCatch_inv in Hnew. apply MongoClient_new_inv in Hnew. destruct Hnew as (-> & -> & _).
  destruct client as [error|[]];
    [unfold bind, console, emit, throw in Hrun; discriminate |].
  apply finally_inr_inv in Hrun. destruct Hrun as (w3 & ev3 & ev4 & Hbody & Hclose & ->).
  apply bind_inr_inv in Hbody. destruct Hbody as (w4 & ev5 & r & ev6 & Hbody & Hend & ->).
  apply tryCatch_inv in Hbody.
  destruct r as [error|[]].
  { unfold bind, console, emit, throw in Hend. discriminate. }
  inversion Hend; subst w4 ev6. clear Hend.
  apply bind_inr_inv in Hbody. destruct Hbody as (wa & eva & [] & evr1 & Hconnect & Hbody & ->).
  apply bind_inr_inv in Hbody. destruct Hbody as (wb & evb & [] & evr2 & Hping & Hbody & ->).
  apply bind_inr_inv in Hbody. destruct Hbody as (wc & evc & [] & evr3 & Hindex & Hbody & ->).
  apply bind_inr_inv in Hbody. destruct Hbody as (wd & evd & n & evr4 & Hpurge & Hbody & ->).
  apply bind_inr_inv in Hbody. destruct Hbody as (we & eve & [] & evr5 & Hlog & Hbody & ->).
  apply console_inv in Hlog. destruct Hlog as [-> ->].
  apply bind_inr_inv in Hbody. destruct Hbody as (wf & evf & totals & evr6 & Hloop & Hbody & ->).
  apply bind_inr_inv in Hbody. destruct Hbody as (wg & evg & [] & evr7 & Hverify & Hbody & ->).
  destruct (deleteMany_inr_inv _ Hpurge) as (_ & Hdd & _).
  destruct (admin_verifyMigration _ Hverify) as (_ & Hdg & _).
  destruct (admin_close _ Hclose) as (_ & Hd' & _).
  apply bind_inr_inv in Hbody. destruct Hbody as (wh & evh & [] & evr8 & Hlog1 & Hlog2 & ->).
  apply console_inv in Hlog1. destruct Hlog1 as [-> ->].
  apply console_inv in Hlog2. destruct Hlog2 as [-> ->].
  destruct (@migrate_batchLoop_run _ _ mongoProducts (List.length mongoProducts) 0
              {| Migrate.success := 0; Migrate.failed := 0 |} wd ltac:(lia))
    as (srv & evl & totals' & Hloop' & Hdl & Hal & _).
  rewrite Hloop in Hloop'. inversion Hloop'; subst wf evf totals. clear Hloop'.
  rewrite Hdd in Hdl. cbn [app] in Hdl.
  assert (Hdocs : documents (mongo w') = documents srv).
  { rewrite Hd', Hdg. reflexivity. }
  assert (Hall : Forall (fun d => MongoProduct.hasEmbedding d = true) (documents srv)).
  { rewrite Hdl. apply Forall_forall. intros d Hin.
    apply inserted_were_attempted in Hin. rewrite Hal in Hin.
    exact (proj1 (Forall_forall _ _) (kept_have_embedding _) d Hin). }
  apply verifyMigration_returned in Hverify. cbn [mongo setMongo] in Hverify.
  rewrite (filter_keeps_all _ Hall) in Hverify.
  assert (Hin : In (Log (Verification (List.length (documents srv))
                                     (List.length (documents srv)))) evg).
  { rewrite Hverify. simpl. auto. }
  rewrite Hdocs. split; [| exact Hall].
  clear - Hin. rewrite !in_app_iff. tauto.
Qed.

Lemma completed_migration_verifies_balanced_witness :
  In (Log (Verification
             (List.length (documents (mongo (fst (fst (Migrate.migrate Reference.rerun))))))
             (List.length (documents (mongo (fst (fst (Migrate.migrate Reference.rerun))))))))
    (snd (fst (Migrate.migrate Reference.rerun))).
Proof.
  apply (@completed_migration_verifies_balanced _ _ Reference.rerun
           (fst (fst (Migrate.migrate Reference.rerun)))
           (snd (fst (Migrate.migrate Reference.rerun)))
           Reference.threeRows);
    [| reflexivity | discriminate].
  apply run_with_result. vm_compute. reflexivity.
Defined.
